(** * Calcount: food log, daily summary and goals

    A shallow embedding of the server side of Calcount (the drizzle
    access layer of [server/db.ts] and the tRPC procedures of
    [server/routers/food.ts]) and of the BMI/TDEE derivation of
    [client/src/components/BMICalculator.tsx].

    Modelling conventions.
    - A JavaScript number is an exact rational ([Qc]); integer columns and
      values produced by [Math.round] are [Z].  IEEE rounding error is not
      part of the model.
    - A [Date] is its epoch value in milliseconds ([Z]).  The local time
      zone of the server is a fixed offset [tz] (milliseconds east of UTC)
      throughout, except in [Zoned], where [setHours] and
      [getFoodEntriesByDate] are given for a zone with its own rules
      (daylight saving) and the fixed offset is shown to be an instance.
    - A table is the list of its rows in insertion order.  A drizzle query
      is modelled by the SQL statement it issues: [select ... where] is a
      filter, [orderBy] a stable sort, [limit 1] the head, [update ... set]
      overwrites the supplied columns of every matching row and throws
      "No values to set" when no column is supplied, [delete]
      removes every matching row, [insert] appends a row with a fresh
      auto-increment id and the column defaults of [drizzle/schema.ts].
      Rows that [orderBy] finds with equal keys keep their table order.
    - A procedure is a function in a state-and-exception monad over the
      store; the authenticated user ([ctx.user.id]), the server clock
      [now] and the reply of the LLM are inputs.

    The [users] and [customFoods] tables, authentication, the storage
    keys and the client's dialogs follow the food log. *)

From stdpp Require Import base decidable option list numbers strings gmap sorting.
From Stdlib Require Import QArith Qcanon Qround Lqa.

Local Open Scope Z_scope.

(** ** JavaScript numbers *)

Module JS.

(** A number literal [n / d]. *)
Definition num (n : Z) (d : positive) : Qc := Q2Qc (n # d).

Definition of_int (n : Z) : Qc := Qc_of_Z n.

(** The integer an integral number denotes. *)
Definition to_int (x : Qc) : Z := Qfloor x.

(** [Math.round]: the nearest integer, ties towards +infinity. *)
Definition Math_round (x : Qc) : Z := Qfloor (x + num 1 2)%Qc.

(** [Number.isInteger] *)
Definition isInteger (x : Qc) : bool := bool_decide (of_int (to_int x) = x).

(** [Number.MAX_SAFE_INTEGER], 2^53 - 1; [Number.MIN_SAFE_INTEGER] is its
    opposite. *)
Definition MAX_SAFE_INTEGER : Z := 9007199254740991.

(** [x.toFixed(0)] read back with [parseFloat]: the nearest integer,
    ties away from zero. *)
Definition toFixed0 (x : Qc) : Z :=
  if bool_decide (x < 0)%Qc then - Qfloor (- x + num 1 2)%Qc
  else Qfloor (x + num 1 2)%Qc.

(** [x.toFixed(1)] read back with [parseFloat], on the exact value of
    [x]: the double nearest to [x] can fall on the other side of a tie. *)
Definition toFixed1 (x : Qc) : Qc :=
  (of_int (toFixed0 (x * of_int 10)) / of_int 10)%Qc.

(** [x || d] on numbers: [0] is falsy. *)
Definition or_default (x d : Qc) : Qc :=
  if bool_decide (x = 0%Qc) then d else x.

Definition or_default_int (x d : Z) : Z := if bool_decide (x = 0) then d else x.

End JS.

(** ** Data model ([drizzle/schema.ts]) *)

Definition Date := Z.
Definition UserId := Z.

Inductive MealTime := morning | noon | evening | lateNight.
Inductive FoodSource := manual | image | barcode.
Inductive Gender := male | female | other.
Inductive ActivityLevel := sedentary | light | moderate | active | veryActive.

(** A row of [foodEntries]. *)
Module FoodEntry.
Record t := mk {
  id : Z;
  userId : UserId;
  foodName : string;
  mealTime : MealTime;
  calories : Z;
  protein : Qc;
  carbs : Qc;
  fats : Qc;
  quantity : option Qc;
  unit : option string;
  imageUrl : option string;
  barcode : option string;
  source : FoodSource;
  createdAt : Date;
  updatedAt : Date;
  date : Date
}.
End FoodEntry.

(** [InsertFoodEntry]: what [addFoodEntry] receives. *)
Module InsertFoodEntry.
Record t := mk {
  userId : UserId;
  foodName : string;
  mealTime : MealTime;
  calories : Z;
  protein : Qc;
  carbs : Qc;
  fats : Qc;
  quantity : option Qc;
  unit : option string;
  imageUrl : option string;
  barcode : option string;
  source : FoodSource;
  date : Date
}.
End InsertFoodEntry.

(** [Partial<InsertFoodEntry>] as produced by [AddFoodEntrySchema.partial()]:
    the schema has no [id] and no [userId]. *)
Module PartialFoodEntry.
Record t := mk {
  foodName : option string;
  mealTime : option MealTime;
  calories : option Z;
  protein : option Qc;
  carbs : option Qc;
  fats : option Qc;
  quantity : option Qc;
  unit : option string;
  imageUrl : option string;
  barcode : option string;
  source : option FoodSource;
  date : option Date
}.

(** No column is supplied: drizzle's [set] refuses such an object. *)
Definition noValues (d : t) : bool :=
  match d with
  | mk None None None None None None None None None None None None => true
  | _ => false
  end.
End PartialFoodEntry.

(** A row of [dailySummary]. *)
Module DailySummary.
Record t := mk {
  id : Z;
  userId : UserId;
  date : Date;
  totalCalories : Z;
  totalProtein : Qc;
  totalCarbs : Qc;
  totalFats : Qc;
  createdAt : Date;
  updatedAt : Date
}.
End DailySummary.

(** The [totals] argument of [upsertDailySummary]. *)
Module Totals.
Record t := mk {
  totalCalories : option Z;
  totalProtein : option Qc;
  totalCarbs : option Qc;
  totalFats : option Qc
}.

Definition noValues (d : t) : bool :=
  match d with
  | mk None None None None => true
  | _ => false
  end.
End Totals.

(** A row of [userGoals]. *)
Module UserGoals.
Record t := mk {
  id : Z;
  userId : UserId;
  height : option Qc;
  weight : option Qc;
  age : option Z;
  gender : option Gender;
  activityLevel : option ActivityLevel;
  dailyCalories : option Z;
  dailyProtein : option Qc;
  dailyCarbs : option Qc;
  dailyFats : option Qc;
  createdAt : Date;
  updatedAt : Date
}.
End UserGoals.

(** [Partial<InsertUserGoals>] as produced by the [updateGoals] schema. *)
Module PartialUserGoals.
Record t := mk {
  height : option Qc;
  weight : option Qc;
  age : option Z;
  gender : option Gender;
  activityLevel : option ActivityLevel;
  dailyCalories : option Z;
  dailyProtein : option Qc;
  dailyCarbs : option Qc;
  dailyFats : option Qc
}.

Definition noValues (d : t) : bool :=
  match d with
  | mk None None None None None None None None None => true
  | _ => false
  end.
End PartialUserGoals.

(** ** The store *)

(** [connected] is false when [getDb] yields [null]. *)
Record Store := mkStore {
  connected : bool;
  foodEntries : list FoodEntry.t;
  foodEntries_autoinc : Z;
  dailySummary : list DailySummary.t;
  dailySummary_autoinc : Z;
  userGoals : list UserGoals.t;
  userGoals_autoinc : Z
}.

Definition set_foodEntries (rows : list FoodEntry.t) (s : Store) : Store :=
  mkStore (connected s) rows (foodEntries_autoinc s)
          (dailySummary s) (dailySummary_autoinc s)
          (userGoals s) (userGoals_autoinc s).

Definition set_dailySummary (rows : list DailySummary.t) (s : Store) : Store :=
  mkStore (connected s) (foodEntries s) (foodEntries_autoinc s)
          rows (dailySummary_autoinc s)
          (userGoals s) (userGoals_autoinc s).

Definition set_userGoals (rows : list UserGoals.t) (s : Store) : Store :=
  mkStore (connected s) (foodEntries s) (foodEntries_autoinc s)
          (dailySummary s) (dailySummary_autoinc s)
          rows (userGoals_autoinc s).

(** ** Exceptions and the procedure monad *)

Inductive IssueCode := too_small | too_big | not_integer.

(** One zod issue: the offending field, the kind of violation and the bound. *)
Record Issue := mkIssue { path : string; code : IssueCode; bound : Z }.

Inductive Error :=
| DatabaseNotAvailable
| LLMInvokeFailed
| NoResponseFromLLM
| JSONSyntaxError
| NoValuesToSet
| BAD_REQUEST (issues : list Issue).

Inductive Result (A : Type) :=
| Ok (a : A)
| Throw (e : Error).
Arguments Ok {A} a.
Arguments Throw {A} e.

Definition M (A : Type) : Type := Store -> Result A * Store.

Definition ret {A} (a : A) : M A := fun s => (Ok a, s).
Definition throw {A} (e : Error) : M A := fun s => (Throw e, s).
Definition bind {A B} (m : M A) (k : A -> M B) : M B :=
  fun s => match m s with
           | (Ok a, s') => k a s'
           | (Throw e, s') => (Throw e, s')
           end.
Definition get : M Store := fun s => (Ok s, s).
Definition put (s' : Store) : M unit := fun _ => (Ok tt, s').

(** [try { body } catch (error) { handler }] *)
Definition try_catch {A} (body : M A) (handler : Error -> M A) : M A :=
  fun s => match body s with
           | (Ok a, s') => (Ok a, s')
           | (Throw e, s') => handler e s'
           end.

Declare Scope proc_scope.
Delimit Scope proc_scope with proc.
Notation "x <- m ;; k" := (bind m (fun x => k))
  (at level 100, m at next level, right associativity) : proc_scope.
Notation "m ;; k" := (bind m (fun _ => k))
  (at level 100, right associativity) : proc_scope.
Local Open Scope proc_scope.

(** [const db = await getDb(); if (!db) throw new Error("Database not available")] *)
Definition requireDb : M unit :=
  s <- get ;;
  if connected s then ret tt else throw DatabaseNotAvailable.

(** ** Query helpers *)

(** [orderBy(column)]: a stable insertion sort on an integer key. *)
Section OrderBy.
Context {A : Type} (key : A -> Z).

Fixpoint insert_by (x : A) (l : list A) : list A :=
  match l with
  | [] => [x]
  | y :: l' => if bool_decide (key x <= key y) then x :: l
               else y :: insert_by x l'
  end.

Definition orderBy (l : list A) : list A := foldr insert_by [] l.
End OrderBy.

(** ** [server/db.ts] *)

Definition MS_PER_DAY : Z := 86400000.

Section Db.
(** Offset of the server's local time zone, in milliseconds east of UTC. *)
Variable tz : Z.

(** [d.setHours(h, m, sec, ms)]: keeps the local calendar day of [d] and
    replaces its time of day.  This is [Zoned.setHours] in the zone
    [Zone.fixed tz] ([setHours_fixed]). *)
Definition setHours (h m sec ms : Z) (d : Date) : Date :=
  d - (d + tz) `mod` MS_PER_DAY + (h * 3600000 + m * 60000 + sec * 1000 + ms).

(** The row [insert(foodEntries).values(entry)] creates: [quantity] and
    [unit] take the schema defaults when omitted. *)
Definition newFoodEntry (now : Date) (id : Z) (entry : InsertFoodEntry.t)
    : FoodEntry.t :=
  FoodEntry.mk id
    (InsertFoodEntry.userId entry)
    (InsertFoodEntry.foodName entry)
    (InsertFoodEntry.mealTime entry)
    (InsertFoodEntry.calories entry)
    (InsertFoodEntry.protein entry)
    (InsertFoodEntry.carbs entry)
    (InsertFoodEntry.fats entry)
    (Some (default 1%Qc (InsertFoodEntry.quantity entry)))
    (Some (default "serving"%string (InsertFoodEntry.unit entry)))
    (InsertFoodEntry.imageUrl entry)
    (InsertFoodEntry.barcode entry)
    (InsertFoodEntry.source entry)
    now now
    (InsertFoodEntry.date entry).

Definition addFoodEntry (now : Date) (entry : InsertFoodEntry.t) : M Z :=
  requireDb ;;
  s <- get ;;
  let id := foodEntries_autoinc s in
  put (mkStore (connected s)
               (foodEntries s ++ [newFoodEntry now id entry]) (id + 1)
               (dailySummary s) (dailySummary_autoinc s)
               (userGoals s) (userGoals_autoinc s)) ;;
  ret id.

(** The [where] clause of [getFoodEntriesByDate]. *)
Definition inDay (userId : UserId) (startOfDay endOfDay : Date)
    (e : FoodEntry.t) : Prop :=
  FoodEntry.userId e = userId /\
  startOfDay <= FoodEntry.date e /\
  FoodEntry.date e <= endOfDay.

Global Instance inDay_dec u a b e : Decision (inDay u a b e).
Proof. unfold inDay. apply _. Defined.

Definition getFoodEntriesByDate (userId : UserId) (date : Date)
    : M (list FoodEntry.t) :=
  requireDb ;;
  let startOfDay := setHours 0 0 0 0 date in
  let endOfDay := setHours 23 59 59 999 date in
  s <- get ;;
  ret (orderBy FoodEntry.createdAt
         (filter (inDay userId startOfDay endOfDay) (foodEntries s))).

(** The [where] clause shared by [deleteFoodEntry] and [updateFoodEntry]. *)
Definition ownedRow (id : Z) (userId : UserId) (e : FoodEntry.t) : Prop :=
  FoodEntry.id e = id /\ FoodEntry.userId e = userId.

Global Instance ownedRow_dec i u e : Decision (ownedRow i u e).
Proof. unfold ownedRow. apply _. Defined.

Definition deleteFoodEntry (id : Z) (userId : UserId) : M unit :=
  requireDb ;;
  s <- get ;;
  put (set_foodEntries
         (filter (fun e => ~ ownedRow id userId e) (foodEntries s)) s).

(** [set(data)] on one row of [foodEntries]; [updatedAt] is [onUpdateNow]. *)
Definition setFoodEntry (now : Date) (data : PartialFoodEntry.t)
    (e : FoodEntry.t) : FoodEntry.t :=
  FoodEntry.mk (FoodEntry.id e) (FoodEntry.userId e)
    (default (FoodEntry.foodName e) (PartialFoodEntry.foodName data))
    (default (FoodEntry.mealTime e) (PartialFoodEntry.mealTime data))
    (default (FoodEntry.calories e) (PartialFoodEntry.calories data))
    (default (FoodEntry.protein e) (PartialFoodEntry.protein data))
    (default (FoodEntry.carbs e) (PartialFoodEntry.carbs data))
    (default (FoodEntry.fats e) (PartialFoodEntry.fats data))
    (from_option Some (FoodEntry.quantity e) (PartialFoodEntry.quantity data))
    (from_option Some (FoodEntry.unit e) (PartialFoodEntry.unit data))
    (from_option Some (FoodEntry.imageUrl e) (PartialFoodEntry.imageUrl data))
    (from_option Some (FoodEntry.barcode e) (PartialFoodEntry.barcode data))
    (default (FoodEntry.source e) (PartialFoodEntry.source data))
    (FoodEntry.createdAt e) now
    (default (FoodEntry.date e) (PartialFoodEntry.date data)).

Definition updateFoodEntry (now : Date) (id : Z) (userId : UserId)
    (data : PartialFoodEntry.t) : M unit :=
  requireDb ;;
  (if PartialFoodEntry.noValues data then throw NoValuesToSet else ret tt) ;;
  s <- get ;;
  put (set_foodEntries
         (map (fun e => if decide (ownedRow id userId e)
                        then setFoodEntry now data e else e)
              (foodEntries s)) s).

Definition summaryKey (userId : UserId) (startOfDay : Date)
    (r : DailySummary.t) : Prop :=
  DailySummary.userId r = userId /\ DailySummary.date r = startOfDay.

Global Instance summaryKey_dec u d r : Decision (summaryKey u d r).
Proof. unfold summaryKey. apply _. Defined.

Definition getDailySummary (userId : UserId) (date : Date)
    : M (option DailySummary.t) :=
  requireDb ;;
  let startOfDay := setHours 0 0 0 0 date in
  s <- get ;;
  ret (head (filter (summaryKey userId startOfDay) (dailySummary s))).

(** [set(totals)] on one row of [dailySummary]. *)
Definition setTotals (now : Date) (totals : Totals.t)
    (r : DailySummary.t) : DailySummary.t :=
  DailySummary.mk (DailySummary.id r) (DailySummary.userId r)
    (DailySummary.date r)
    (default (DailySummary.totalCalories r) (Totals.totalCalories totals))
    (default (DailySummary.totalProtein r) (Totals.totalProtein totals))
    (default (DailySummary.totalCarbs r) (Totals.totalCarbs totals))
    (default (DailySummary.totalFats r) (Totals.totalFats totals))
    (DailySummary.createdAt r) now.

Definition upsertDailySummary (now : Date) (userId : UserId) (date : Date)
    (totals : Totals.t) : M unit :=
  requireDb ;;
  let startOfDay := setHours 0 0 0 0 date in
  existing <- getDailySummary userId date ;;
  s <- get ;;
  match existing with
  | Some row =>
      if Totals.noValues totals then throw NoValuesToSet
      else
      put (set_dailySummary
             (map (fun r => if decide (DailySummary.id r = DailySummary.id row)
                            then setTotals now totals r else r)
                  (dailySummary s)) s)
  | None =>
      let id := dailySummary_autoinc s in
      let row := DailySummary.mk id userId startOfDay
        (JS.or_default_int (default 0 (Totals.totalCalories totals)) 0)
        (JS.or_default (default 0%Qc (Totals.totalProtein totals)) 0%Qc)
        (JS.or_default (default 0%Qc (Totals.totalCarbs totals)) 0%Qc)
        (JS.or_default (default 0%Qc (Totals.totalFats totals)) 0%Qc)
        now now in
      put (mkStore (connected s) (foodEntries s) (foodEntries_autoinc s)
                   (dailySummary s ++ [row]) (id + 1)
                   (userGoals s) (userGoals_autoinc s))
  end.

Definition getUserGoals (userId : UserId) : M (option UserGoals.t) :=
  requireDb ;;
  s <- get ;;
  ret (head (filter (fun g => UserGoals.userId g = userId) (userGoals s))).

(** [set(data)] on one row of [userGoals]. *)
Definition setGoals (now : Date) (data : PartialUserGoals.t)
    (g : UserGoals.t) : UserGoals.t :=
  UserGoals.mk (UserGoals.id g) (UserGoals.userId g)
    (from_option Some (UserGoals.height g) (PartialUserGoals.height data))
    (from_option Some (UserGoals.weight g) (PartialUserGoals.weight data))
    (from_option Some (UserGoals.age g) (PartialUserGoals.age data))
    (from_option Some (UserGoals.gender g) (PartialUserGoals.gender data))
    (from_option Some (UserGoals.activityLevel g)
                 (PartialUserGoals.activityLevel data))
    (from_option Some (UserGoals.dailyCalories g)
                 (PartialUserGoals.dailyCalories data))
    (from_option Some (UserGoals.dailyProtein g)
                 (PartialUserGoals.dailyProtein data))
    (from_option Some (UserGoals.dailyCarbs g)
                 (PartialUserGoals.dailyCarbs data))
    (from_option Some (UserGoals.dailyFats g)
                 (PartialUserGoals.dailyFats data))
    (UserGoals.createdAt g) now.

(** The row [insert(userGoals).values({ userId, ...data })] creates:
    omitted goal columns take the schema defaults. *)
Definition newGoals (now : Date) (id : Z) (userId : UserId)
    (data : PartialUserGoals.t) : UserGoals.t :=
  UserGoals.mk id userId
    (PartialUserGoals.height data)
    (PartialUserGoals.weight data)
    (PartialUserGoals.age data)
    (PartialUserGoals.gender data)
    (PartialUserGoals.activityLevel data)
    (Some (default 2000 (PartialUserGoals.dailyCalories data)))
    (Some (default (JS.of_int 150) (PartialUserGoals.dailyProtein data)))
    (Some (default (JS.of_int 250) (PartialUserGoals.dailyCarbs data)))
    (Some (default (JS.of_int 65) (PartialUserGoals.dailyFats data)))
    now now.

Definition upsertUserGoals (now : Date) (userId : UserId)
    (data : PartialUserGoals.t) : M unit :=
  requireDb ;;
  existing <- getUserGoals userId ;;
  s <- get ;;
  match existing with
  | Some _ =>
      if PartialUserGoals.noValues data then throw NoValuesToSet
      else
      put (set_userGoals
             (map (fun g => if decide (UserGoals.userId g = userId)
                            then setGoals now data g else g)
                  (userGoals s)) s)
  | None =>
      let id := userGoals_autoinc s in
      put (mkStore (connected s) (foodEntries s) (foodEntries_autoinc s)
                   (dailySummary s) (dailySummary_autoinc s)
                   (userGoals s ++ [newGoals now id userId data]) (id + 1))
  end.

End Db.

(** ** The server's time zone with its rules *)

(** A time zone as [Date] reads it: [offset] is the UTC offset in force at
    an instant, so that the local time of [t] is [t + offset t]
    ([LocalTime]); [utc] is the instant a local time value denotes
    ([UTC]).  Around a change of offset a local time is skipped or comes
    twice; [utc] then reads it with the offset before the change. *)
Module Zone.
Record t := mk { offset : Date -> Z; utc : Z -> Date }.

Definition localTime (zone : t) (d : Date) : Z := d + offset zone d.


(** A zone whose offset is [before] until the instant [change] and [after]
    from then on.  A local time that an instant before the change has is
    read as that instant; one that the change skips is read with
    [before]. *)
Definition shifting (before after : Z) (change : Date) : t :=
  mk (fun d => if d <? change then before else after)
     (fun l => if l - before <? change then l - before
               else if l - after <? change then l - before
               else l - after).

End Zone.

(** [setHours] and [getFoodEntriesByDate] in a zone with its rules. *)
Module Zoned.
Section Zone.
Variable zone : Zone.t.

(** [d.setHours(h, m, sec, ms)]: the local time of [d] is taken, its time
    of day replaced, and the result read back as an instant. *)
Definition setHours (h m sec ms : Z) (d : Date) : Date :=
  Zone.utc zone
    (Zone.localTime zone d `div` MS_PER_DAY * MS_PER_DAY
     + (h * 3600000 + m * 60000 + sec * 1000 + ms)).

Definition getFoodEntriesByDate (userId : UserId) (date : Date)
    : M (list FoodEntry.t) :=
  requireDb ;;
  let startOfDay := setHours 0 0 0 0 date in
  let endOfDay := setHours 23 59 59 999 date in
  s <- get ;;
  ret (orderBy FoodEntry.createdAt
         (filter (inDay userId startOfDay endOfDay) (foodEntries s))).

End Zone.
End Zoned.

(** ** [server/routers/food.ts]: input schemas *)

Definition check (ok : bool) (i : Issue) : list Issue := if ok then [] else [i].

Definition check_min (field : string) (lo : Z) (x : Qc) : list Issue :=
  check (bool_decide (JS.of_int lo <= x)%Qc) (mkIssue field too_small lo).

Definition check_max (field : string) (hi : Z) (x : Qc) : list Issue :=
  check (bool_decide (x <= JS.of_int hi)%Qc) (mkIssue field too_big hi).

(** zod's [.int()]: an integer, and a safe one. *)
Definition check_int (field : string) (x : Qc) : list Issue :=
  if JS.isInteger x
  then check_max field JS.MAX_SAFE_INTEGER x
       ++ check_min field (- JS.MAX_SAFE_INTEGER) x
  else [mkIssue field not_integer 0].

(** An absent optional field raises no issue. *)
Definition optional {A} (chk : A -> list Issue) (x : option A) : list Issue :=
  from_option chk [] x.

(** The input of [addFood] as it arrives. *)
Module AddFoodInput.
Record t := mk {
  foodName : string;
  mealTime : MealTime;
  calories : Qc;
  protein : Qc;
  carbs : Qc;
  fats : Qc;
  quantity : option Qc;
  unit : option string;
  imageUrl : option string;
  barcode : option string;
  source : FoodSource;
  date : Date
}.
End AddFoodInput.

Module AddFoodEntrySchema.
Definition issues (i : AddFoodInput.t) : list Issue :=
  check (bool_decide (1 <= String.length (AddFoodInput.foodName i))%nat)
        (mkIssue "foodName" too_small 1)
  ++ check_int "calories" (AddFoodInput.calories i)
  ++ check_min "calories" 0 (AddFoodInput.calories i)
  ++ check_min "protein" 0 (AddFoodInput.protein i)
  ++ check_min "carbs" 0 (AddFoodInput.carbs i)
  ++ check_min "fats" 0 (AddFoodInput.fats i).

(** [{ userId: ctx.user.id, ...input }] for a parsed input: the schema
    defaults of [quantity] and [unit] are filled in. *)
Definition output (userId : UserId) (i : AddFoodInput.t) : InsertFoodEntry.t :=
  InsertFoodEntry.mk userId
    (AddFoodInput.foodName i) (AddFoodInput.mealTime i)
    (JS.to_int (AddFoodInput.calories i))
    (AddFoodInput.protein i) (AddFoodInput.carbs i) (AddFoodInput.fats i)
    (Some (default 1%Qc (AddFoodInput.quantity i)))
    (Some (default "serving"%string (AddFoodInput.unit i)))
    (AddFoodInput.imageUrl i) (AddFoodInput.barcode i)
    (AddFoodInput.source i) (AddFoodInput.date i).
End AddFoodEntrySchema.

(** The [data] of [updateFood] as it arrives: [AddFoodEntrySchema.partial()].
    Parsing makes every field optional but still fills the defaults of
    [quantity] and [unit] in when they are left out. *)
Module UpdateFoodData.
Record t := mk {
  foodName : option string;
  mealTime : option MealTime;
  calories : option Qc;
  protein : option Qc;
  carbs : option Qc;
  fats : option Qc;
  quantity : option Qc;
  unit : option string;
  imageUrl : option string;
  barcode : option string;
  source : option FoodSource;
  date : option Date
}.

Definition issues (d : t) : list Issue :=
  optional (fun n => check (bool_decide (1 <= String.length n)%nat)
                           (mkIssue "foodName" too_small 1)) (foodName d)
  ++ optional (check_int "calories") (calories d)
  ++ optional (check_min "calories" 0) (calories d)
  ++ optional (check_min "protein" 0) (protein d)
  ++ optional (check_min "carbs" 0) (carbs d)
  ++ optional (check_min "fats" 0) (fats d).

Definition output (d : t) : PartialFoodEntry.t :=
  PartialFoodEntry.mk (foodName d) (mealTime d) (JS.to_int <$> calories d)
    (protein d) (carbs d) (fats d)
    (Some (default 1%Qc (quantity d)))
    (Some (default "serving"%string (unit d)))
    (imageUrl d) (barcode d) (source d) (date d).
End UpdateFoodData.

(** The input of [updateGoals] as it arrives.  [age] goes to an integer
    column; it is kept as an integer here. *)
Module UpdateGoalsInput.
Record t := mk {
  height : option Qc;
  weight : option Qc;
  age : option Z;
  gender : option Gender;
  activityLevel : option ActivityLevel;
  dailyCalories : option Qc;
  dailyProtein : option Qc;
  dailyCarbs : option Qc;
  dailyFats : option Qc
}.

Definition issues (i : t) : list Issue :=
  optional (check_int "dailyCalories") (dailyCalories i)
  ++ optional (check_min "dailyCalories" 500) (dailyCalories i)
  ++ optional (check_max "dailyCalories" 10000) (dailyCalories i)
  ++ optional (check_min "dailyProtein" 0) (dailyProtein i)
  ++ optional (check_max "dailyProtein" 500) (dailyProtein i)
  ++ optional (check_min "dailyCarbs" 0) (dailyCarbs i)
  ++ optional (check_max "dailyCarbs" 1000) (dailyCarbs i)
  ++ optional (check_min "dailyFats" 0) (dailyFats i)
  ++ optional (check_max "dailyFats" 500) (dailyFats i).

Definition output (i : t) : PartialUserGoals.t :=
  PartialUserGoals.mk (height i) (weight i) (age i) (gender i)
    (activityLevel i) (JS.to_int <$> dailyCalories i)
    (dailyProtein i) (dailyCarbs i) (dailyFats i).
End UpdateGoalsInput.

Module AnalyzeFoodImageInput.
Record t := mk { imageUrl : string; mealTime : MealTime; date : Date }.
End AnalyzeFoodImageInput.

Module AnalyzeBarcodeInput.
Record t := mk { barcode : string; mealTime : MealTime; date : Date }.
End AnalyzeBarcodeInput.

(** [protectedProcedure.input(schema)]: the input is parsed before the
    resolver runs; any issue rejects the call. *)
Definition parseInput (issues : list Issue) : M unit :=
  match issues with
  | [] => ret tt
  | _ :: _ => throw (BAD_REQUEST issues)
  end.

(** ** The nutrition estimator *)

(** What [response.choices[0]?.message.content] holds. *)
Inductive Content (A : Type) :=
| NoContent
| Malformed
| Parsed (a : A).
Arguments NoContent {A}.
Arguments Malformed {A}.
Arguments Parsed {A} a.

(** The outcome of [await invokeLLM(...)]. *)
Inductive LLMReply (A : Type) :=
| InvokeThrows
| Response (content : Content A).
Arguments InvokeThrows {A}.
Arguments Response {A} content.

(** [invokeLLM], the [!rawContent] test and [JSON.parse]. *)
Definition readAnalysis {A} (reply : LLMReply A) : M A :=
  match reply with
  | InvokeThrows => throw LLMInvokeFailed
  | Response NoContent => throw NoResponseFromLLM
  | Response Malformed => throw JSONSyntaxError
  | Response (Parsed a) => ret a
  end.

(** The [food_analysis] object; for [barcode_analysis], [quantity] and
    [unit] are its [servingSize] and [servingUnit]. *)
Module Analysis.
Record t := mk {
  foodName : string;
  calories : Qc;
  protein : Qc;
  carbs : Qc;
  fats : Qc;
  quantity : Qc;
  unit : string
}.
End Analysis.

(** The [macro_calculation] object. *)
Module Macros.
Record t := mk { calories : Qc; protein : Qc; carbs : Qc; fats : Qc }.
End Macros.

(** ** [server/routers/food.ts]: procedures *)

(** The accumulator of the [entries.reduce(...)] that recomputes a day. *)
Module Acc.
Record t := mk {
  totalCalories : Z;
  totalProtein : Qc;
  totalCarbs : Qc;
  totalFats : Qc
}.
End Acc.

Definition addToTotals (acc : Acc.t) (e : FoodEntry.t) : Acc.t :=
  Acc.mk (Acc.totalCalories acc + FoodEntry.calories e)
         (Acc.totalProtein acc + JS.or_default (FoodEntry.protein e) 0)%Qc
         (Acc.totalCarbs acc + JS.or_default (FoodEntry.carbs e) 0)%Qc
         (Acc.totalFats acc + JS.or_default (FoodEntry.fats e) 0)%Qc.

Definition reduceTotals (entries : list FoodEntry.t) : Acc.t :=
  fold_left addToTotals entries (Acc.mk 0 0%Qc 0%Qc 0%Qc).

Definition asTotals (a : Acc.t) : Totals.t :=
  Totals.mk (Some (Acc.totalCalories a)) (Some (Acc.totalProtein a))
            (Some (Acc.totalCarbs a)) (Some (Acc.totalFats a)).

(** [{ success: true }] *)
Record Success := mkSuccess { success : bool }.

(** What the [getDailySummary] procedure returns: the stored row, or the
    literal object of zeros. *)
Inductive SummaryResult :=
| SummaryRow (row : DailySummary.t)
| SummaryObject (totalCalories : Z) (totalProtein totalCarbs totalFats : Qc).

(** What the [getGoals] procedure returns: the stored row, or the literal
    object of defaults. *)
Inductive GoalsResult :=
| GoalsRow (row : UserGoals.t)
| GoalsObject (dailyCalories : Z) (dailyProtein dailyCarbs dailyFats : Qc).

(** What [analyzeImage] and [analyzeBarcode] return. *)
Record Analyzed := mkAnalyzed {
  analyzed_success : bool;
  analysis : Analysis.t;
  entry : Z
}.

Module foodRouter.
Section Procedures.
Variable tz : Z.

(** The "Update daily summary" block of [addFood], [analyzeImage] and
    [analyzeBarcode]. *)
Definition updateDailySummary (now : Date) (userId : UserId) (date : Date)
    : M unit :=
  entries <- getFoodEntriesByDate tz userId date ;;
  let totals := reduceTotals entries in
  upsertDailySummary tz now userId date (asTotals totals).

Definition addFood (now : Date) (userId : UserId) (input : AddFoodInput.t)
    : M Z :=
  parseInput (AddFoodEntrySchema.issues input) ;;
  entry <- addFoodEntry now (AddFoodEntrySchema.output userId input) ;;
  updateDailySummary now userId (AddFoodInput.date input) ;;
  ret entry.

Definition getFoodsByDate (userId : UserId) (date : Date)
    : M (list FoodEntry.t) :=
  getFoodEntriesByDate tz userId date.

Definition deleteFood (userId : UserId) (id : Z) : M Success :=
  deleteFoodEntry id userId ;;
  ret (mkSuccess true).

Definition updateFood (now : Date) (userId : UserId) (id : Z)
    (data : UpdateFoodData.t) : M Success :=
  parseInput (UpdateFoodData.issues data) ;;
  updateFoodEntry now id userId (UpdateFoodData.output data) ;;
  ret (mkSuccess true).

Definition getDailySummary (userId : UserId) (date : Date)
    : M SummaryResult :=
  summary <- getDailySummary tz userId date ;;
  ret (match summary with
       | Some row => SummaryRow row
       | None => SummaryObject 0 0%Qc 0%Qc 0%Qc
       end).

Definition analyzeImage (now : Date) (userId : UserId)
    (input : AnalyzeFoodImageInput.t)
    (reply : LLMReply Analysis.t) : M Analyzed :=
  try_catch
    (analysis <- readAnalysis reply ;;
     entry <- addFoodEntry now
       (InsertFoodEntry.mk userId
          (Analysis.foodName analysis)
          (AnalyzeFoodImageInput.mealTime input)
          (JS.Math_round (Analysis.calories analysis))
          (Analysis.protein analysis)
          (Analysis.carbs analysis)
          (Analysis.fats analysis)
          (Some (Analysis.quantity analysis))
          (Some (Analysis.unit analysis))
          (Some (AnalyzeFoodImageInput.imageUrl input)) None image
          (AnalyzeFoodImageInput.date input)) ;;
     updateDailySummary now userId (AnalyzeFoodImageInput.date input) ;;
     ret (mkAnalyzed true analysis entry))
    (fun error => throw error).

Definition analyzeBarcode (now : Date) (userId : UserId)
    (input : AnalyzeBarcodeInput.t)
    (reply : LLMReply Analysis.t) : M Analyzed :=
  try_catch
    (analysis <- readAnalysis reply ;;
     entry <- addFoodEntry now
       (InsertFoodEntry.mk userId
          (Analysis.foodName analysis)
          (AnalyzeBarcodeInput.mealTime input)
          (JS.Math_round (Analysis.calories analysis))
          (Analysis.protein analysis)
          (Analysis.carbs analysis)
          (Analysis.fats analysis)
          (Some (Analysis.quantity analysis))
          (Some (Analysis.unit analysis))
          None (Some (AnalyzeBarcodeInput.barcode input)) barcode
          (AnalyzeBarcodeInput.date input)) ;;
     updateDailySummary now userId (AnalyzeBarcodeInput.date input) ;;
     ret (mkAnalyzed true analysis entry))
    (fun error => throw error).

Definition getGoals (userId : UserId) : M GoalsResult :=
  goals <- getUserGoals userId ;;
  ret (match goals with
       | Some row => GoalsRow row
       | None => GoalsObject 2000 (JS.of_int 150) (JS.of_int 250) (JS.of_int 65)
       end).

(** [quantity] and [unit] of the input only feed the prompt. *)
Definition calculateMacros (foodName : string)
    (reply : LLMReply Macros.t) : M Macros.t :=
  parseInput (check (bool_decide (1 <= String.length foodName)%nat)
                    (mkIssue "foodName" too_small 1)) ;;
  try_catch
    (analysis <- readAnalysis reply ;;
     ret analysis)
    (fun error => ret (Macros.mk 0%Qc 0%Qc 0%Qc 0%Qc)).

Definition updateGoals (now : Date) (userId : UserId)
    (input : UpdateGoalsInput.t) : M unit :=
  parseInput (UpdateGoalsInput.issues input) ;;
  upsertUserGoals now userId (UpdateGoalsInput.output input).

End Procedures.
End foodRouter.

(** ** [client/src/components/BMICalculator.tsx] *)

Module BMICalculator.

Definition ACTIVITY_MULTIPLIERS : gmap string Qc :=
  <["sedentary" := JS.num 12 10]>
  (<["light" := JS.num 1375 1000]>
  (<["moderate" := JS.num 155 100]>
  (<["active" := JS.num 1725 1000]>
  (<["veryActive" := JS.num 19 10]> ∅)))).

Record SuggestedMacros := mkMacros { protein : Z; carbs : Z; fats : Z }.

Definition calculateMacros (calories : Qc) (goal : string) : SuggestedMacros :=
  let '(proteinRatio, carbRatio, fatRatio) :=
    if String.eqb goal "lose" then (JS.num 35 100, JS.num 4 10, JS.num 25 100)
    else if String.eqb goal "gain" then (JS.num 3 10, JS.num 5 10, JS.num 2 10)
    else (JS.num 3 10, JS.num 45 100, JS.num 25 100) in
  mkMacros (JS.Math_round (calories * proteinRatio / JS.of_int 4)%Qc)
           (JS.Math_round (calories * carbRatio / JS.of_int 4)%Qc)
           (JS.Math_round (calories * fatRatio / JS.of_int 9)%Qc).

(** What one run of [calculateBMI] leaves behind: the [bmi], [tdee] and
    [suggestedMacros] states and the argument of [onCalculate]. *)
Record Calculated := mkCalculated {
  bmi : Qc;
  tdee : Z;
  suggestedMacros : SuggestedMacros;
  height : Qc;
  weight : Qc;
  age : Z;
  gender : Gender;
  activityLevel : string;
  dailyCalories : Z;
  dailyProtein : Z;
  dailyCarbs : Z;
  dailyFats : Z
}.

Definition bmr_of (w h : Qc) (a : Z) (gender : Gender) : Qc :=
  match gender with
  | male =>
      (JS.of_int 10 * w + JS.num 625 100 * h - JS.of_int 5 * JS.of_int a
       + JS.of_int 5)%Qc
  | _ =>
      (JS.of_int 10 * w + JS.num 625 100 * h - JS.of_int 5 * JS.of_int a
       - JS.of_int 161)%Qc
  end.

Definition multiplier_of (activityLevel : string) : Qc :=
  match ACTIVITY_MULTIPLIERS !! activityLevel with
  | Some m => JS.or_default m (JS.num 155 100)
  | None => JS.num 155 100
  end.

Definition adjust (tdeeValue : Qc) (goal : string) : Qc :=
  if String.eqb goal "lose" then (tdeeValue * JS.num 85 100)%Qc
  else if String.eqb goal "gain" then (tdeeValue * JS.num 11 10)%Qc
  else tdeeValue.

(** [height], [weight] and [age] are the parsed form fields, [None] for
    an empty field.  [None] is returned where the source alerts and
    returns without computing. *)
Definition calculateBMI (height weight : option Qc) (age : option Z)
    (gender : Gender) (activityLevel goal : string) : option Calculated :=
  match height, weight, age with
  | Some h, Some w, Some a =>
      if bool_decide (h <= 0)%Qc || bool_decide (w <= 0)%Qc
         || bool_decide (a <= 0)
      then None
      else
        let heightInMeters := (h / JS.of_int 100)%Qc in
        let bmiValue := (w / (heightInMeters * heightInMeters))%Qc in
        let bmr := bmr_of w h a gender in
        let multiplier := multiplier_of activityLevel in
        let tdeeValue := (bmr * multiplier)%Qc in
        let adjustedCalories := adjust tdeeValue goal in
        let macros := calculateMacros adjustedCalories goal in
        Some (mkCalculated (JS.toFixed1 bmiValue)
                (JS.toFixed0 adjustedCalories) macros
                h w a gender activityLevel
                (JS.Math_round adjustedCalories)
                (protein macros) (carbs macros) (fats macros))
  | _, _, _ => None
  end.

End BMICalculator.

(** ** The [users] and [customFoods] tables *)

Module Role.
Inductive t := user | admin.
End Role.

(** A row of [users]. *)
Module User.
Record t := mk {
  id : Z;
  openId : string;
  name : option string;
  email : option string;
  loginMethod : option string;
  role : Role.t;
  createdAt : Date;
  updatedAt : Date;
  lastSignedIn : Date
}.
End User.

(** [InsertUser]: what [upsertUser] receives.  For the text fields the
    outer [None] is [undefined] and [Some None] is [null]. *)
Module InsertUser.
Record t := mk {
  openId : string;
  name : option (option string);
  email : option (option string);
  loginMethod : option (option string);
  role : option Role.t;
  lastSignedIn : option Date
}.
End InsertUser.

(** A row of [customFoods]. *)
Module CustomFood.
Record t := mk {
  id : Z;
  userId : UserId;
  foodName : string;
  calories : Z;
  protein : Qc;
  carbs : Qc;
  fats : Qc;
  unit : option string;
  createdAt : Date;
  updatedAt : Date
}.
End CustomFood.

(** [InsertCustomFood]: what [addCustomFood] receives. *)
Module InsertCustomFood.
Record t := mk {
  userId : UserId;
  foodName : string;
  calories : Z;
  protein : Qc;
  carbs : Qc;
  fats : Qc;
  unit : option string
}.
End InsertCustomFood.

(** The whole database: the three tables of [Store] with its connection,
    and the two further tables. *)
Record Database := mkDatabase {
  store : Store;
  users : list User.t;
  users_autoinc : Z;
  customFoods : list CustomFood.t;
  customFoods_autoinc : Z
}.

(** A procedure on [Store], run on the whole database. *)
Definition onStore {A} (m : M A) (db : Database) : Result A * Database :=
  let '(r, s') := m (store db) in
  (r, mkDatabase s' (users db) (users_autoinc db)
                 (customFoods db) (customFoods_autoinc db)).

(** *** [addCustomFood], [getCustomFoodsByUser] *)

Definition newCustomFood (now : Date) (id : Z) (food : InsertCustomFood.t)
    : CustomFood.t :=
  CustomFood.mk id
    (InsertCustomFood.userId food)
    (InsertCustomFood.foodName food)
    (InsertCustomFood.calories food)
    (InsertCustomFood.protein food)
    (InsertCustomFood.carbs food)
    (InsertCustomFood.fats food)
    (Some (default "serving"%string (InsertCustomFood.unit food)))
    now now.

Definition addCustomFood (now : Date) (food : InsertCustomFood.t)
    (db : Database) : Result Z * Database :=
  if connected (store db) then
    let id := customFoods_autoinc db in
    (Ok id,
     mkDatabase (store db) (users db) (users_autoinc db)
       (customFoods db ++ [newCustomFood now id food]) (id + 1))
  else (Throw DatabaseNotAvailable, db).

Definition getCustomFoodsByUser (userId : UserId) (db : Database)
    : Result (list CustomFood.t) * Database :=
  if connected (store db) then
    (Ok (filter (fun f => CustomFood.userId f = userId) (customFoods db)), db)
  else (Throw DatabaseNotAvailable, db).

(** The input of the [addCustomFood] procedure as it arrives. *)
Module AddCustomFoodInput.
Record t := mk {
  foodName : string;
  calories : Qc;
  protein : Qc;
  carbs : Qc;
  fats : Qc;
  unit : option string
}.

Definition issues (i : t) : list Issue :=
  check (bool_decide (1 <= String.length (foodName i))%nat)
        (mkIssue "foodName" too_small 1)
  ++ check_int "calories" (calories i)
  ++ check_min "calories" 0 (calories i)
  ++ check_min "protein" 0 (protein i)
  ++ check_min "carbs" 0 (carbs i)
  ++ check_min "fats" 0 (fats i).

Definition output (userId : UserId) (i : t) : InsertCustomFood.t :=
  InsertCustomFood.mk userId (foodName i) (JS.to_int (calories i))
    (protein i) (carbs i) (fats i)
    (Some (default "serving"%string (unit i))).
End AddCustomFoodInput.

(** The [addCustomFood] and [getCustomFoods] procedures of the router. *)
Module customFoodRouter.

Definition addCustomFood (now : Date) (userId : UserId)
    (input : AddCustomFoodInput.t) (db : Database) : Result Z * Database :=
  match AddCustomFoodInput.issues input with
  | [] => addCustomFood now (AddCustomFoodInput.output userId input) db
  | issues => (Throw (BAD_REQUEST issues), db)
  end.

Definition getCustomFoods (userId : UserId) (db : Database)
    : Result (list CustomFood.t) * Database :=
  getCustomFoodsByUser userId db.

End customFoodRouter.

(** *** [upsertUser], [getUserByOpenId] *)

(** How a call of [upsertUser] ends: it returns, or it throws
    "User openId is required for upsert". *)
Inductive UpsertUserOutcome := Upserted | OpenIdRequired.

(** [values] and [updateSet] of [upsertUser]. *)
Record UserFields := mkUserFields {
  f_name : option (option string);
  f_email : option (option string);
  f_loginMethod : option (option string);
  f_lastSignedIn : option Date;
  f_role : option Role.t
}.

(** The fields [upsertUser] assigns to both [values] and [updateSet]. *)
Definition assignedFields (ownerOpenId : string) (user : InsertUser.t)
    : UserFields :=
  mkUserFields (InsertUser.name user) (InsertUser.email user)
    (InsertUser.loginMethod user) (InsertUser.lastSignedIn user)
    (match InsertUser.role user with
     | Some r => Some r
     | None => if String.eqb (InsertUser.openId user) ownerOpenId
               then Some Role.admin else None
     end).

(** [Object.keys(updateSet).length === 0] *)
Definition noFields (f : UserFields) : bool :=
  match f with
  | mkUserFields None None None None None => true
  | _ => false
  end.

(** [onDuplicateKeyUpdate({ set: updateSet })] on one row. *)
Definition setUser (now : Date) (updateSet : UserFields) (u : User.t)
    : User.t :=
  User.mk (User.id u) (User.openId u)
    (default (User.name u) (f_name updateSet))
    (default (User.email u) (f_email updateSet))
    (default (User.loginMethod u) (f_loginMethod updateSet))
    (default (User.role u) (f_role updateSet))
    (User.createdAt u) now
    (default (User.lastSignedIn u) (f_lastSignedIn updateSet)).

(** The row [insert(users).values(values)] creates: a text column left
    out is [NULL], a role left out is ["user"]. *)
Definition newUser (now : Date) (id : Z) (openId : string)
    (values : UserFields) (lastSignedIn : Date) : User.t :=
  User.mk id openId
    (default None (f_name values))
    (default None (f_email values))
    (default None (f_loginMethod values))
    (default Role.user (f_role values))
    now now lastSignedIn.

Definition upsertUser (ownerOpenId : string) (now : Date)
    (user : InsertUser.t) (db : Database) : UpsertUserOutcome * Database :=
  if String.eqb (InsertUser.openId user) "" then (OpenIdRequired, db)
  else if negb (connected (store db)) then (Upserted, db)
  else
    let assigned := assignedFields ownerOpenId user in
    let values_lastSignedIn := default now (f_lastSignedIn assigned) in
    let updateSet :=
      if noFields assigned
      then mkUserFields None None None (Some now) None
      else assigned in
    let duplicate u := User.openId u = InsertUser.openId user in
    match filter duplicate (users db) with
    | _ :: _ =>
        (Upserted,
         mkDatabase (store db)
           (map (fun u => if decide (duplicate u)
                          then setUser now updateSet u else u) (users db))
           (users_autoinc db) (customFoods db) (customFoods_autoinc db))
    | [] =>
        let id := users_autoinc db in
        (Upserted,
         mkDatabase (store db)
           (users db ++ [newUser now id (InsertUser.openId user) assigned
                                 values_lastSignedIn])
           (id + 1) (customFoods db) (customFoods_autoinc db))
    end.

(** [undefined] both when the database is unavailable and when no row has
    the [openId]. *)
Definition getUserByOpenId (openId : string) (db : Database) : option User.t :=
  if connected (store db)
  then head (filter (fun u => User.openId u = openId) (users db))
  else None.

(** *** [sdk.authenticateRequest], [createContext], [protectedProcedure] *)

(** The payload of a verified session cookie. *)
Record Session := mkSession {
  session_openId : string;
  session_appId : string;
  session_name : string
}.

(** What [getUserInfoWithJwt] yields: it throws, or the user info with its
    derived login method. *)
Inductive UserInfoReply :=
| UserInfoThrows
| UserInfo (openId : string) (name email loginMethod : option string).

(** How [authenticateRequest] ends. *)
Inductive Authentication :=
| Authenticated (user : User.t)
| Forbidden (message : string)
| AuthError.

(** [userInfo.name || null] *)
Definition nonEmpty (x : option string) : option string :=
  match x with
  | Some s => if String.eqb s "" then None else Some s
  | None => None
  end.

(** [session] is the outcome of [verifySession] on the request's cookie. *)
Definition authenticateRequest (ownerOpenId : string) (now signedInAt : Date)
    (session : option Session) (reply : UserInfoReply) (db : Database)
    : Authentication * Database :=
  match session with
  | None => (Forbidden "Invalid session cookie", db)
  | Some sess =>
      let synced : option (option User.t * Database) :=
        match getUserByOpenId (session_openId sess) db with
        | Some u => Some (Some u, db)
        | None =>
            match reply with
            | UserInfoThrows => None
            | UserInfo openId name email loginMethod =>
                match upsertUser ownerOpenId now
                        (InsertUser.mk openId (Some (nonEmpty name))
                           (Some email) (Some loginMethod) None
                           (Some signedInAt)) db with
                | (OpenIdRequired, _) => None
                | (Upserted, db') => Some (getUserByOpenId openId db', db')
                end
            end
        end in
      match synced with
      | None => (Forbidden "Failed to sync user info", db)
      | Some (None, db') => (Forbidden "User not found", db')
      | Some (Some u, db') =>
          match upsertUser ownerOpenId now
                  (InsertUser.mk (User.openId u) None None None None
                     (Some signedInAt)) db' with
          | (OpenIdRequired, db'') => (AuthError, db'')
          | (Upserted, db'') => (Authenticated u, db'')
          end
      end
  end.

(** [createContext]: the user of the request, [null] when
    [authenticateRequest] throws. *)
Definition createContext (ownerOpenId : string) (now signedInAt : Date)
    (session : option Session) (reply : UserInfoReply) (db : Database)
    : option User.t * Database :=
  match authenticateRequest ownerOpenId now signedInAt session reply db with
  | (Authenticated u, db') => (Some u, db')
  | (_, db') => (None, db')
  end.

(** How a call of a protected procedure ends. *)
Inductive Protected (A : Type) :=
| UNAUTHORIZED
| Resolved (r : Result A).
Arguments UNAUTHORIZED {A}.
Arguments Resolved {A} r.

(** [protectedProcedure]: [requireUser] in front of a resolver that is
    given [ctx.user.id]. *)
Definition protectedProcedure {A} (ctx_user : option User.t)
    (resolver : UserId -> M A) (db : Database) : Protected A * Database :=
  match ctx_user with
  | None => (UNAUTHORIZED, db)
  | Some u =>
      let '(r, db') := onStore (resolver (User.id u)) db in
      (Resolved r, db')
  end.

(** One request to a protected procedure: the context is created, then the
    procedure runs. *)
Definition protectedRequest {A} (ownerOpenId : string) (now signedInAt : Date)
    (session : option Session) (reply : UserInfoReply)
    (resolver : UserId -> M A) (db : Database) : Protected A * Database :=
  let '(ctx_user, db') :=
    createContext ownerOpenId now signedInAt session reply db in
  protectedProcedure ctx_user resolver db'.

(** ** [server/storage.ts] and [uploadImage] *)

Module Storage.

(** The character "/". *)
Definition slash : Ascii.ascii :=
  Ascii.Ascii true true true true false true false false.

(** [relKey.replace(/^\/+/, "")] *)
Fixpoint normalizeKey (relKey : string) : string :=
  match relKey with
  | String c rest => if Ascii.eqb c slash then normalizeKey rest else relKey
  | EmptyString => relKey
  end.

(** [value.endsWith("/")] *)
Fixpoint endsWithSlash (value : string) : bool :=
  match value with
  | EmptyString => false
  | String c EmptyString => Ascii.eqb c slash
  | String _ rest => endsWithSlash rest
  end.

Definition ensureTrailingSlash (value : string) : string :=
  if endsWithSlash value then value else (value ++ "/")%string.

(** [key.split("/").pop()]: what follows the last slash. *)
Fixpoint lastSegment (acc key : string) : string :=
  match key with
  | EmptyString => acc
  | String c rest =>
      if Ascii.eqb c slash then lastSegment EmptyString rest
      else lastSegment (acc ++ String c EmptyString)%string rest
  end.

Definition fileName (key : string) : string := lastSegment EmptyString key.

(** The key [uploadImage] builds; [user] is [ctx.user.id] as printed and
    [id] is what [nanoid()] returned. *)
Definition fileKey (user id : string) : string :=
  ("food-images/" ++ user ++ "/" ++ id ++ ".jpg")%string.

End Storage.

(** ** [server/_core/index.ts]: [findAvailablePort] *)

(** The loop of [findAvailablePort] over [n] ports from [port]; [available]
    is what [isPortAvailable] answers. *)
Fixpoint scanPorts (available : Z -> bool) (port : Z) (n : nat) : option Z :=
  match n with
  | O => None
  | S n' => if available port then Some port
            else scanPorts available (port + 1) n'
  end.

(** [None] where the source throws "No available port found". *)
Definition findAvailablePort (available : Z -> bool) (startPort : Z) : option Z :=
  scanPorts available startPort 20.

(** ** The client *)

Global Instance MealTime_eq_dec : EqDecision MealTime.
Proof. solve_decision. Defined.

(** *** [Dashboard.tsx] *)

Module Dashboard.

Definition DEFAULT_CALORIE_GOAL : Z := 2000.
Definition DEFAULT_PROTEIN_GOAL : Qc := JS.of_int 150.
Definition DEFAULT_CARBS_GOAL : Qc := JS.of_int 250.
Definition DEFAULT_FATS_GOAL : Qc := JS.of_int 65.

(** [userGoals?.dailyCalories || DEFAULT_CALORIE_GOAL]; [userGoals] is
    [undefined] until the query has answered. *)
Definition dailyCalorieGoal (userGoals : option GoalsResult) : Z :=
  JS.or_default_int
    (match userGoals with
     | Some (GoalsRow row) => default 0 (UserGoals.dailyCalories row)
     | Some (GoalsObject c _ _ _) => c
     | None => 0
     end) DEFAULT_CALORIE_GOAL.

Definition dailyProteinGoal (userGoals : option GoalsResult) : Qc :=
  JS.or_default
    (match userGoals with
     | Some (GoalsRow row) => default 0%Qc (UserGoals.dailyProtein row)
     | Some (GoalsObject _ p _ _) => p
     | None => 0%Qc
     end) DEFAULT_PROTEIN_GOAL.

Definition dailyCarbsGoal (userGoals : option GoalsResult) : Qc :=
  JS.or_default
    (match userGoals with
     | Some (GoalsRow row) => default 0%Qc (UserGoals.dailyCarbs row)
     | Some (GoalsObject _ _ c _) => c
     | None => 0%Qc
     end) DEFAULT_CARBS_GOAL.

Definition dailyFatsGoal (userGoals : option GoalsResult) : Qc :=
  JS.or_default
    (match userGoals with
     | Some (GoalsRow row) => default 0%Qc (UserGoals.dailyFats row)
     | Some (GoalsObject _ _ _ f) => f
     | None => 0%Qc
     end) DEFAULT_FATS_GOAL.

(** [foodsByMealTime[value]] *)
Definition foodsByMealTime (foodEntries : list FoodEntry.t) (value : MealTime)
    : list FoodEntry.t :=
  filter (fun entry => FoodEntry.mealTime entry = value) foodEntries.

(** The four cards, in the order of [mealTimes]. *)
Definition cards (foodEntries : list FoodEntry.t) : list (list FoodEntry.t) :=
  map (foodsByMealTime foodEntries) [morning; noon; evening; lateNight].

End Dashboard.

(** *** [HistoryTab.tsx] *)

Module HistoryTab.

(** [new Date(e.target.value)] for the value of a date input: a date-only
    string denotes midnight UTC of that day; [day] counts the days since
    the epoch. *)
Definition handleDateInput (day : Z) : Date := day * MS_PER_DAY.

(** [selectedDate.toISOString().split("T")[0]], as a day count. *)
Definition dateString (selectedDate : Date) : Z := selectedDate `div` MS_PER_DAY.

End HistoryTab.

(** *** [GoalsSettingsModal.tsx] *)

Module GoalsSettingsModal.

(** The four slider states. *)
Record Sliders := mkSliders {
  dailyCalories : Qc;
  dailyProtein : Qc;
  dailyCarbs : Qc;
  dailyFats : Qc
}.

Definition roundTenth (x : Qc) : Qc :=
  (JS.of_int (JS.Math_round (x * JS.of_int 10)) / JS.of_int 10)%Qc.

(** The input [handleSaveGoals] sends to [updateGoals]. *)
Definition handleSaveGoals (st : Sliders) : UpdateGoalsInput.t :=
  UpdateGoalsInput.mk None None None None None
    (Some (JS.of_int (JS.Math_round (dailyCalories st))))
    (Some (roundTenth (dailyProtein st)))
    (Some (roundTenth (dailyCarbs st)))
    (Some (roundTenth (dailyFats st))).

(** The input "Apply as Daily Goal" sends to [updateGoals]: the
    [onApplyGoals] payload of [BMICalculator], passed on by
    [handleApplyBMIGoals]. *)
Definition handleApplyBMIGoals (r : BMICalculator.Calculated)
    : UpdateGoalsInput.t :=
  UpdateGoalsInput.mk None None None None None
    (Some (JS.of_int (BMICalculator.tdee r)))
    (Some (JS.of_int (BMICalculator.protein (BMICalculator.suggestedMacros r))))
    (Some (JS.of_int (BMICalculator.carbs (BMICalculator.suggestedMacros r))))
    (Some (JS.of_int (BMICalculator.fats (BMICalculator.suggestedMacros r)))).

End GoalsSettingsModal.

(** *** [AddFoodModal.tsx] and [EditFoodModal.tsx] *)

Module AddFoodModal.
Section Form.
(** How a number is printed into a text box. *)
Variable toString : Qc -> string.

(** The text boxes an estimate can fill, and the spinner. *)
Record Form := mkForm {
  calories : string;
  protein : string;
  carbs : string;
  fats : string;
  isCalculating : bool
}.

(** [onSuccess] of the [calculateMacros] mutation. *)
Definition onSuccess (data : Macros.t) (form : Form) : Form :=
  if bool_decide (Macros.calories data = 0%Qc)
  then mkForm (calories form) (protein form) (carbs form) (fats form) false
  else mkForm
         (toString (JS.of_int (JS.Math_round (Macros.calories data))))
         (toString (GoalsSettingsModal.roundTenth (Macros.protein data)))
         (toString (GoalsSettingsModal.roundTenth (Macros.carbs data)))
         (toString (GoalsSettingsModal.roundTenth (Macros.fats data)))
         false.

End Form.
End AddFoodModal.

Module EditFoodModal.

(** What [handleSave] sends to [updateFood], [None] where it only shows an
    error; [foodName] is the trimmed name, and a number is [None] where
    [parseFloat] gave [NaN]. *)
Definition handleSave (foodName : string)
    (cal prot carb fat qty : option Qc) (unit : string) (mealTime : MealTime)
    : option UpdateFoodData.t :=
  if String.eqb foodName "" then None
  else
    match cal, prot, carb, fat, qty with
    | Some cal, Some prot, Some carb, Some fat, Some qty =>
        Some (UpdateFoodData.mk (Some foodName) (Some mealTime)
                (Some (JS.of_int (JS.Math_round cal)))
                (Some prot) (Some carb) (Some fat) (Some qty) (Some unit)
                None None None None)
    | _, _, _, _, _ => None
    end.

End EditFoodModal.

(** * Verification *)

(** ** Running procedures *)

Lemma bind_ok {A B} (m : M A) (k : A -> M B) s a s' :
  m s = (Ok a, s') -> bind m k s = k a s'.
Proof. unfold bind. by intros ->. Qed.

Lemma bind_throw {A B} (m : M A) (k : A -> M B) s e s' :
  m s = (Throw e, s') -> bind m k s = (Throw e, s').
Proof. unfold bind. by intros ->. Qed.

Lemma requireDb_connected s : connected s = true -> requireDb s = (Ok tt, s).
Proof. unfold requireDb, bind, get, ret. by intros ->. Qed.

Lemma requireDb_disconnected s :
  connected s = false -> requireDb s = (Throw DatabaseNotAvailable, s).
Proof. unfold requireDb, bind, get, throw. by intros ->. Qed.

Lemma parseInput_nil s : parseInput [] s = (Ok tt, s).
Proof. reflexivity. Qed.

Lemma parseInput_issues issues s :
  issues <> [] -> parseInput issues s = (Throw (BAD_REQUEST issues), s).
Proof. by destruct issues. Qed.

(** Steps through the monadic code of a procedure on a connected store. *)
Ltac run :=
  repeat first
    [ rewrite requireDb_connected by (simpl; assumption)
    | rewrite parseInput_nil
    | progress unfold bind, ret, get, put, throw, try_catch
    | progress simpl ].

(** ** [orderBy] *)

Section OrderByFacts.
Context {A : Type} (key : A -> Z).

Definition key_le (x y : A) : Prop := key x <= key y.

Lemma insert_by_Permutation x l : insert_by key x l ≡ₚ x :: l.
Proof.
  induction l as [|y l IH]; simpl; [done|].
  case_bool_decide; [done|].
  rewrite IH. apply Permutation_swap.
Qed.

Lemma orderBy_Permutation l : orderBy key l ≡ₚ l.
Proof.
  induction l as [|x l IH]; simpl; [done|].
  by rewrite insert_by_Permutation, IH.
Qed.

Lemma insert_by_sorted x l :
  StronglySorted key_le l -> StronglySorted key_le (insert_by key x l).
Proof.
  induction l as [|y l IH]; simpl; intros Hl.
  - repeat constructor.
  - apply StronglySorted_inv in Hl as [Hl Hy].
    case_bool_decide as Hxy.
    + constructor; [by constructor|].
      constructor; [done|].
      eapply Forall_impl; [exact Hy|].
      unfold key_le. intros z Hz. lia.
    + constructor; [by apply IH|].
      rewrite insert_by_Permutation.
      constructor; [unfold key_le; lia | done].
Qed.

Lemma orderBy_sorted l : StronglySorted key_le (orderBy key l).
Proof.
  induction l as [|x l IH]; simpl; [constructor|].
  by apply insert_by_sorted.
Qed.

(** The sort is stable: rows that are already in key order stay put. *)
Lemma orderBy_id l : StronglySorted key_le l -> orderBy key l = l.
Proof.
  induction l as [|x l IH]; simpl; [done|].
  intros [Hl Hx]%StronglySorted_inv.
  rewrite IH by done.
  destruct l as [|y l]; simpl; [done|].
  apply Forall_cons in Hx as [Hxy _].
  by rewrite bool_decide_eq_true_2.
Qed.

Lemma filter_sorted (P : A -> Prop) `{!forall x, Decision (P x)} l :
  StronglySorted key_le l -> StronglySorted key_le (filter P l).
Proof.
  induction l as [|x l IH]; [done|].
  intros [Hl Hx]%StronglySorted_inv.
  rewrite filter_cons. case_decide; [|by apply IH].
  constructor; [by apply IH|].
  rewrite Forall_forall in Hx |- *.
  intros y [_ Hy]%list_elem_of_filter. by apply Hx.
Qed.
End OrderByFacts.

(** ** Entries of a day *)

Lemma setHours_midnight tz d :
  let midnight := setHours tz 0 0 0 0 d in
  (midnight + tz) `mod` MS_PER_DAY = 0 /\
  midnight <= d < midnight + MS_PER_DAY.
Proof.
  intros midnight. subst midnight. unfold setHours, MS_PER_DAY.
  pose proof (Z.mod_pos_bound (d + tz) 86400000 ltac:(lia)) as Hb.
  pose proof (Z.div_mod (d + tz) 86400000 ltac:(lia)) as Hq.
  split; [|lia].
  replace (d - (d + tz) `mod` 86400000
           + (0 * 3600000 + 0 * 60000 + 0 * 1000 + 0) + tz)
    with ((d + tz) `div` 86400000 * 86400000) by lia.
  apply Z.mod_mul. lia.
Qed.

Lemma setHours_end_of_day tz d :
  setHours tz 23 59 59 999 d = setHours tz 0 0 0 0 d + 24 * 60 * 60 * 1000 - 1.
Proof. unfold setHours. lia. Qed.

Lemma getFoodEntriesByDate_run tz s userId date :
  connected s = true ->
  getFoodEntriesByDate tz userId date s =
    (Ok (orderBy FoodEntry.createdAt
           (filter (inDay userId (setHours tz 0 0 0 0 date)
                          (setHours tz 23 59 59 999 date))
                   (foodEntries s))), s).
Proof. intros Hc. unfold getFoodEntriesByDate. by run. Qed.

(** In a zone of constant offset: on a connected store
    [getFoodEntriesByDate] returns, without changing the store, exactly
    the rows of [foodEntries] that belong to the caller and whose [date]
    lies between the local midnight of the calendar day of the supplied
    date and that midnight plus 24 hours minus one millisecond; the rows
    come ordered by [createdAt], and when the creation timestamps follow
    the insertion order of the table the rows come in insertion order. *)
Theorem getFoodEntriesByDate_day_window tz s userId date :
  connected s = true ->
  exists midnight rows,
    (midnight + tz) `mod` MS_PER_DAY = 0 /\
    midnight <= date < midnight + MS_PER_DAY /\
    getFoodEntriesByDate tz userId date s = (Ok rows, s) /\
    (forall e, e ∈ rows <->
       e ∈ foodEntries s /\ FoodEntry.userId e = userId /\
       midnight <= FoodEntry.date e <= midnight + 24 * 60 * 60 * 1000 - 1) /\
    rows ≡ₚ filter (inDay userId midnight (midnight + 24 * 60 * 60 * 1000 - 1))
                   (foodEntries s) /\
    StronglySorted (key_le FoodEntry.createdAt) rows /\
    (StronglySorted (key_le FoodEntry.createdAt) (foodEntries s) ->
     rows = filter (inDay userId midnight (midnight + 24 * 60 * 60 * 1000 - 1))
                   (foodEntries s)).
Proof.
  intros Hc.
  destruct (setHours_midnight tz date) as [Hm Hd].
  eexists (setHours tz 0 0 0 0 date), _.
  split; [exact Hm|]. split; [exact Hd|].
  split; [by apply getFoodEntriesByDate_run|].
  rewrite setHours_end_of_day.
  split; [|split; [|split]].
  - intros e. rewrite orderBy_Permutation, list_elem_of_filter.
    unfold inDay. tauto.
  - apply orderBy_Permutation.
  - apply orderBy_sorted.
  - intros Hs. apply orderBy_id. by apply filter_sorted.
Qed.





(** ** Reads *)

Lemma getUserGoals_run s userId :
  connected s = true ->
  getUserGoals userId s =
    (Ok (head (filter (fun g => UserGoals.userId g = userId) (userGoals s))), s).
Proof. intros Hc. unfold getUserGoals. by run. Qed.

Lemma getDailySummary_run tz s userId date :
  connected s = true ->
  getDailySummary tz userId date s =
    (Ok (head (filter (summaryKey userId (setHours tz 0 0 0 0 date))
                      (dailySummary s))), s).
Proof. intros Hc. unfold getDailySummary. by run. Qed.

Lemma filter_none {A} (P : A -> Prop) `{!forall x, Decision (P x)} (l : list A) :
  (forall x, x ∈ l -> ~ P x) -> filter P l = [].
Proof.
  intros Hall. induction l as [|x l IH]; [done|].
  rewrite filter_cons_False by (apply Hall; left).
  apply IH. intros y Hy. apply Hall. by right.
Qed.

Lemma filter_all {A} (P : A -> Prop) `{!forall x, Decision (P x)} (l : list A) :
  (forall x, x ∈ l -> P x) -> filter P l = l.
Proof.
  intros Hall. induction l as [|x l IH]; [done|].
  rewrite filter_cons_True by (apply Hall; left).
  f_equal. apply IH. intros y Hy. apply Hall. by right.
Qed.

(** C4. For a user without a [userGoals] row, [getGoals] on a connected
    store returns the literal defaults 2000, 150, 250 and 65, and leaves
    the whole store, hence the goals table, as it was. *)
Theorem getGoals_defaults s userId :
  connected s = true ->
  (forall g, g ∈ userGoals s -> UserGoals.userId g <> userId) ->
  foodRouter.getGoals userId s =
    (Ok (GoalsObject 2000 (JS.of_int 150) (JS.of_int 250) (JS.of_int 65)), s).
Proof.
  intros Hc Hnone. unfold foodRouter.getGoals.
  rewrite (bind_ok _ _ _ _ _ (getUserGoals_run s userId Hc)).
  by rewrite filter_none.
Qed.

(** On a connected store the [getDailySummary] procedure always answers
    with a summary object and leaves the store as it was. *)
Lemma getDailySummary_total tz s userId date :
  connected s = true ->
  exists v, foodRouter.getDailySummary tz userId date s = (Ok v, s).
Proof.
  intros Hc. unfold foodRouter.getDailySummary.
  rewrite (bind_ok _ _ _ _ _ (getDailySummary_run tz s userId date Hc)).
  by eexists.
Qed.

(** C5. On a connected store, when no [dailySummary] row is keyed by the
    user and the local midnight of the date, the [getDailySummary]
    procedure returns the object of four zeros, not [null], and leaves the
    store as it was. *)
Theorem getDailySummary_zero_when_absent tz s userId date :
  connected s = true ->
  (forall r, r ∈ dailySummary s ->
     ~ (DailySummary.userId r = userId /\
        DailySummary.date r = setHours tz 0 0 0 0 date)) ->
  foodRouter.getDailySummary tz userId date s =
    (Ok (SummaryObject 0 0%Qc 0%Qc 0%Qc), s).
Proof.
  intros Hc Hnone. unfold foodRouter.getDailySummary.
  rewrite (bind_ok _ _ _ _ _ (getDailySummary_run tz s userId date Hc)).
  by rewrite filter_none.
Qed.

(** ** Deleting and updating entries *)

Lemma set_foodEntries_same s : set_foodEntries (foodEntries s) s = s.
Proof. by destruct s. Qed.

Lemma deleteFoodEntry_run s id userId :
  connected s = true ->
  deleteFoodEntry id userId s =
    (Ok tt, set_foodEntries
              (filter (fun e => ~ ownedRow id userId e) (foodEntries s)) s).
Proof. intros Hc. unfold deleteFoodEntry. by run. Qed.

Lemma updateFoodEntry_run s now id userId data :
  connected s = true ->
  PartialFoodEntry.noValues data = false ->
  updateFoodEntry now id userId data s =
    (Ok tt, set_foodEntries
              (map (fun e => if decide (ownedRow id userId e)
                             then setFoodEntry now data e else e)
                   (foodEntries s)) s).
Proof. intros Hc Hdata. unfold updateFoodEntry. rewrite Hdata. by run. Qed.

Lemma updateFoodEntry_noValues s now id userId data :
  connected s = true ->
  PartialFoodEntry.noValues data = true ->
  updateFoodEntry now id userId data s = (Throw NoValuesToSet, s).
Proof. intros Hc Hdata. unfold updateFoodEntry. rewrite Hdata. by run. Qed.

(** A parsed [data] always carries [quantity] and [unit]. *)
Lemma output_has_values data :
  PartialFoodEntry.noValues (UpdateFoodData.output data) = false.
Proof. by destruct data as [[] [] [] [] [] []]. Qed.

Lemma deleteFood_run s userId id :
  connected s = true ->
  foodRouter.deleteFood userId id s =
    (Ok (mkSuccess true),
     set_foodEntries (filter (fun e => ~ ownedRow id userId e) (foodEntries s)) s).
Proof.
  intros Hc. unfold foodRouter.deleteFood.
  by rewrite (bind_ok _ _ _ _ _ (deleteFoodEntry_run s id userId Hc)).
Qed.

Lemma updateFood_run s now userId id data :
  connected s = true ->
  UpdateFoodData.issues data = [] ->
  foodRouter.updateFood now userId id data s =
    (Ok (mkSuccess true),
     set_foodEntries
       (map (fun e => if decide (ownedRow id userId e)
                      then setFoodEntry now (UpdateFoodData.output data) e
                      else e)
            (foodEntries s)) s).
Proof.
  intros Hc Hv. unfold foodRouter.updateFood. rewrite Hv.
  rewrite (bind_ok _ _ s tt s) by done.
  by rewrite (bind_ok _ _ _ _ _
       (updateFoodEntry_run s now id userId _ Hc (output_has_values data))).
Qed.

Lemma map_unowned s now id userId data :
  (forall e, e ∈ foodEntries s -> ~ ownedRow id userId e) ->
  map (fun e => if decide (ownedRow id userId e)
                then setFoodEntry now data e else e) (foodEntries s)
  = foodEntries s.
Proof.
  intros Hno. induction (foodEntries s) as [|e l IH]; [done|].
  simpl. rewrite decide_False by (apply Hno; left).
  f_equal. apply IH. intros y Hy. apply Hno. by right.
Qed.

(** C10. On a connected store [deleteFood] returns [{success: true}] for
    every id and caller, and so does [updateFood] for every id, caller and
    well-formed data, whether or not a row has that id and that owner. *)
Theorem deleteFood_updateFood_always_succeed s now userId id data :
  connected s = true ->
  UpdateFoodData.issues data = [] ->
  (foodRouter.deleteFood userId id s).1 = Ok (mkSuccess true) /\
  (foodRouter.updateFood now userId id data s).1 = Ok (mkSuccess true).
Proof.
  intros Hc Hv.
  by rewrite deleteFood_run, updateFood_run by done.
Qed.

(** ** Ownership *)

(** [id] is the primary key of [foodEntries]. *)
Definition primaryKey (rows : list FoodEntry.t) : Prop :=
  NoDup (FoodEntry.id <$> rows).

Lemma primaryKey_unique rows e e' :
  primaryKey rows -> e ∈ rows -> e' ∈ rows ->
  FoodEntry.id e = FoodEntry.id e' -> e = e'.
Proof.
  unfold primaryKey. induction rows as [|x l IH]; [by intros _ ?%elem_of_nil|].
  rewrite fmap_cons, NoDup_cons.
  intros [Hx Hl] [->|He]%elem_of_cons [->|He']%elem_of_cons Hid; try done.
  - destruct Hx. rewrite Hid. by apply list_elem_of_fmap_2.
  - destruct Hx. rewrite <- Hid. by apply list_elem_of_fmap_2.
  - by apply IH.
Qed.

Lemma foreign_id_unowned rows e B :
  primaryKey rows -> e ∈ rows -> FoodEntry.userId e <> B ->
  forall e', e' ∈ rows -> ~ ownedRow (FoodEntry.id e) B e'.
Proof.
  intros Hpk He Hne e' He' [Hid Hu].
  assert (e = e') as -> by (by eapply primaryKey_unique).
  done.
Qed.

Lemma updateFood_store s now userId id data :
  connected s = true ->
  (foodRouter.updateFood now userId id data s).2 = s \/
  (foodRouter.updateFood now userId id data s).2 =
    set_foodEntries
      (map (fun e => if decide (ownedRow id userId e)
                     then setFoodEntry now (UpdateFoodData.output data) e
                     else e)
           (foodEntries s)) s.
Proof.
  intros Hc. destruct (UpdateFoodData.issues data) as [|i l] eqn:Hv.
  - right. by rewrite updateFood_run.
  - left. unfold foodRouter.updateFood. rewrite Hv.
    by rewrite (bind_throw _ _ s (BAD_REQUEST (i :: l)) s).
Qed.

Lemma Forall2_same {A} (R : A -> A -> Prop) (l : list A) :
  (forall x, R x x) -> Forall2 R l l.
Proof. intros HR. induction l; by constructor. Qed.

Lemma Forall2_map_r {A} (R : A -> A -> Prop) (f : A -> A) (l : list A) :
  (forall x, R x (f x)) -> Forall2 R l (map f l).
Proof. intros HR. induction l; simpl; by constructor. Qed.

(** C6. Let the row with id [i] belong to user [A] and let [B] be another
    user.  On a connected store [deleteFood] called by [B] with [i]
    answers [{success: true}] and leaves the store as it was: the row of
    [A], every other entry and every daily summary are unchanged.
    [updateFood] called by [B] with [i] leaves the store unchanged too, and
    for whatever id it is called, [updateFood] changes no row that does not
    belong to its caller and no daily summary. *)
Theorem foreign_delete_update_noop s now A B i e data :
  connected s = true ->
  primaryKey (foodEntries s) ->
  e ∈ foodEntries s ->
  FoodEntry.id e = i ->
  FoodEntry.userId e = A ->
  A <> B ->
  foodRouter.deleteFood B i s = (Ok (mkSuccess true), s) /\
  (foodRouter.updateFood now B i data s).2 = s /\
  (forall j,
     let s' := (foodRouter.updateFood now B j data s).2 in
     dailySummary s' = dailySummary s /\
     Forall2 (fun old new => FoodEntry.userId old <> B -> new = old)
             (foodEntries s) (foodEntries s')).
Proof.
  intros Hc Hpk He <- <- HAB.
  pose proof (foreign_id_unowned _ e B Hpk He HAB) as Hno.
  split; [|split].
  - rewrite deleteFood_run by done.
    rewrite filter_all; [by rewrite set_foodEntries_same|].
    intros e' He'. by apply Hno.
  - destruct (updateFood_store s now B (FoodEntry.id e) data Hc) as [->| ->];
      [done|].
    rewrite map_unowned by done. apply set_foodEntries_same.
  - intros j s'. subst s'.
    destruct (updateFood_store s now B j data Hc) as [->| ->].
    + split; [done|]. by apply Forall2_same.
    + split; [done|]. simpl. apply Forall2_map_r.
      intros x Hx. rewrite decide_False; [done|].
      intros [_ Hu]. done.
Qed.

(** ** Estimator failures *)

(** The two failures of the estimator: the call throws, or the reply
    carries no content. *)
Inductive estimator_fails {A} : LLMReply A -> Error -> Prop :=
| fails_invoke : estimator_fails InvokeThrows LLMInvokeFailed
| fails_no_content : estimator_fails (Response NoContent) NoResponseFromLLM.

Lemma readAnalysis_fails {A} (reply : LLMReply A) err s :
  estimator_fails reply err -> readAnalysis reply s = (Throw err, s).
Proof. by intros []. Qed.

(** C9. When the estimator call throws or its reply has no content,
    [calculateMacros] (given a non-empty food name) returns the macros
    object of four zeros instead of throwing, while [analyzeImage] and
    [analyzeBarcode] throw the estimator's error to the caller; none of
    them changes the store. *)
Theorem estimator_failure_handling tz now userId foodName
    (failed : LLMReply Macros.t) (failed' : LLMReply Analysis.t) err err'
    (image : AnalyzeFoodImageInput.t) (code : AnalyzeBarcodeInput.t) s :
  (1 <= String.length foodName)%nat ->
  estimator_fails failed err ->
  estimator_fails failed' err' ->
  foodRouter.calculateMacros foodName failed s =
    (Ok (Macros.mk 0%Qc 0%Qc 0%Qc 0%Qc), s) /\
  foodRouter.analyzeImage tz now userId image failed' s = (Throw err', s) /\
  foodRouter.analyzeBarcode tz now userId code failed' s = (Throw err', s).
Proof.
  intros Hname Hf Hf'.
  unfold foodRouter.calculateMacros, foodRouter.analyzeImage,
    foodRouter.analyzeBarcode.
  rewrite bool_decide_eq_true_2 by done. simpl.
  rewrite (bind_ok _ _ s tt s) by done.
  unfold try_catch.
  rewrite (bind_throw _ _ s _ s (readAnalysis_fails _ _ s Hf)).
  rewrite !(bind_throw _ _ s _ s (readAnalysis_fails _ _ s Hf')).
  done.
Qed.

(** ** Goals *)

(** The ranges of the goal fields, as the contract words them. *)
Definition between (lo hi : Z) (x : Qc) : Prop :=
  (JS.of_int lo <= x)%Qc /\ (x <= JS.of_int hi)%Qc.

Definition supplied_outside (lo hi : Z) (field : option Qc) : Prop :=
  exists x, field = Some x /\ ~ between lo hi x.

Definition supplied_within (lo hi : Z) (field : option Qc) : Prop :=
  forall x, field = Some x -> between lo hi x.

Definition out_of_range (i : UpdateGoalsInput.t) : Prop :=
  supplied_outside 500 10000 (UpdateGoalsInput.dailyCalories i) \/
  supplied_outside 0 500 (UpdateGoalsInput.dailyProtein i) \/
  supplied_outside 0 500 (UpdateGoalsInput.dailyFats i) \/
  supplied_outside 0 1000 (UpdateGoalsInput.dailyCarbs i).

(** Every supplied goal is in its range, and a supplied [dailyCalories]
    is an integer, as its column is. *)
Definition in_range (i : UpdateGoalsInput.t) : Prop :=
  supplied_within 500 10000 (UpdateGoalsInput.dailyCalories i) /\
  (forall x, UpdateGoalsInput.dailyCalories i = Some x -> JS.isInteger x = true) /\
  supplied_within 0 500 (UpdateGoalsInput.dailyProtein i) /\
  supplied_within 0 500 (UpdateGoalsInput.dailyFats i) /\
  supplied_within 0 1000 (UpdateGoalsInput.dailyCarbs i).

Lemma of_int_le a b : a <= b <-> (JS.of_int a <= JS.of_int b)%Qc.
Proof. unfold JS.of_int, Qcle, Qc_of_Z. cbn [this]. by rewrite Zle_Qle. Qed.

Lemma between_weaken lo hi lo' hi' x :
  lo' <= lo -> hi <= hi' -> between lo hi x -> between lo' hi' x.
Proof.
  intros Hlo Hhi [H1 H2]. split.
  - eapply Qcle_trans; [|exact H1]. by apply (proj1 (of_int_le _ _)).
  - eapply Qcle_trans; [exact H2|]. by apply (proj1 (of_int_le _ _)).
Qed.

Lemma range_issues_outside field lo hi x :
  ~ between lo hi x -> check_min field lo x ++ check_max field hi x <> [].
Proof.
  unfold between, check_min, check_max, check. intros Hn.
  repeat case_bool_decide; simpl; try done. by destruct Hn.
Qed.

Lemma check_min_within field lo hi x :
  between lo hi x -> check_min field lo x = [].
Proof. unfold check_min, check. intros [Hlo _]. by rewrite bool_decide_eq_true_2. Qed.

Lemma check_max_within field lo hi x :
  between lo hi x -> check_max field hi x = [].
Proof. unfold check_max, check. intros [_ Hhi]. by rewrite bool_decide_eq_true_2. Qed.

(** [.int()] passes exactly the safe integers. *)
Lemma check_int_nil field x :
  check_int field x = [] <->
  JS.isInteger x = true /\
  between (- JS.MAX_SAFE_INTEGER) JS.MAX_SAFE_INTEGER x.
Proof.
  unfold check_int, check_max, check_min, check, between.
  destruct (JS.isInteger x); [|by split; [|intros []]].
  repeat case_bool_decide; simpl; split; try done; by intros (_ & ? & ?).
Qed.

Lemma check_int_within field lo hi x :
  JS.isInteger x = true -> between lo hi x ->
  - JS.MAX_SAFE_INTEGER <= lo -> hi <= JS.MAX_SAFE_INTEGER ->
  check_int field x = [].
Proof.
  intros Hint Hx Hlo Hhi. apply check_int_nil. split; [done|].
  by apply (between_weaken lo hi).
Qed.

Lemma app_not_nil_l {A} (l k : list A) : l <> [] -> l ++ k <> [].
Proof. by destruct l. Qed.

Lemma app_not_nil_r {A} (l k : list A) : k <> [] -> l ++ k <> [].
Proof. destruct l; [done|]. by intros. Qed.

Lemma out_of_range_issues i : out_of_range i -> UpdateGoalsInput.issues i <> [].
Proof.
  unfold out_of_range, supplied_outside, UpdateGoalsInput.issues.
  intros [(x & -> & Hx) | [(x & -> & Hx) | [(x & -> & Hx) | (x & -> & Hx)]]];
    simpl.
  - apply app_not_nil_r. rewrite (assoc (++)).
    apply app_not_nil_l. by apply range_issues_outside.
  - do 3 apply app_not_nil_r. rewrite (assoc (++)).
    apply app_not_nil_l. by apply range_issues_outside.
  - do 7 apply app_not_nil_r. by apply range_issues_outside.
  - do 5 apply app_not_nil_r. rewrite (assoc (++)).
    apply app_not_nil_l. by apply range_issues_outside.
Qed.

Lemma in_range_issues i : in_range i -> UpdateGoalsInput.issues i = [].
Proof.
  unfold in_range, supplied_within, UpdateGoalsInput.issues.
  intros (Hcal & Hint & Hp & Hf & Hc).
  destruct (UpdateGoalsInput.dailyCalories i) as [cal|];
    destruct (UpdateGoalsInput.dailyProtein i) as [p|];
    destruct (UpdateGoalsInput.dailyCarbs i) as [c|];
    destruct (UpdateGoalsInput.dailyFats i) as [f|]; simpl;
    rewrite ?(check_min_within _ _ _ _ (Hp _ eq_refl)),
            ?(check_max_within _ _ _ _ (Hp _ eq_refl)),
            ?(check_min_within _ _ _ _ (Hf _ eq_refl)),
            ?(check_max_within _ _ _ _ (Hf _ eq_refl)),
            ?(check_min_within _ _ _ _ (Hc _ eq_refl)),
            ?(check_max_within _ _ _ _ (Hc _ eq_refl)); simpl;
    try (rewrite (check_int_within _ 500 10000 _ (Hint _ eq_refl)
                    (Hcal _ eq_refl)) by (unfold JS.MAX_SAFE_INTEGER; lia);
         simpl;
         rewrite (check_min_within _ _ _ _ (Hcal _ eq_refl)),
                 (check_max_within _ _ _ _ (Hcal _ eq_refl)));
    done.
Qed.

Lemma head_filter_map {A} (P : A -> Prop) `{!forall x, Decision (P x)}
    (f : A -> A) (l : list A) :
  (forall x, P (f x) <-> P x) ->
  head (filter P (map f l)) = f <$> head (filter P l).
Proof.
  intros Hf. induction l as [|x l IH]; [done|].
  simpl. rewrite !filter_cons.
  destruct (decide (P x)) as [Hx|Hx].
  - by rewrite decide_True by (by apply Hf).
  - by rewrite decide_False by (by rewrite Hf).
Qed.

Lemma upsertUserGoals_insert s now userId data :
  connected s = true ->
  head (filter (fun g => UserGoals.userId g = userId) (userGoals s)) = None ->
  upsertUserGoals now userId data s =
    (Ok tt,
     mkStore (connected s) (foodEntries s) (foodEntries_autoinc s)
       (dailySummary s) (dailySummary_autoinc s)
       (userGoals s ++ [newGoals now (userGoals_autoinc s) userId data])
       (userGoals_autoinc s + 1)).
Proof.
  intros Hc Hnone. unfold upsertUserGoals.
  rewrite (bind_ok _ _ _ _ _ (requireDb_connected s Hc)).
  rewrite (bind_ok _ _ _ _ _ (getUserGoals_run s userId Hc)).
  by rewrite Hnone.
Qed.

Lemma upsertUserGoals_update s now userId data g0 :
  connected s = true ->
  head (filter (fun g => UserGoals.userId g = userId) (userGoals s)) = Some g0 ->
  PartialUserGoals.noValues data = false ->
  upsertUserGoals now userId data s =
    (Ok tt,
     set_userGoals
       (map (fun g => if decide (UserGoals.userId g = userId)
                      then setGoals now data g else g)
            (userGoals s)) s).
Proof.
  intros Hc Hsome Hdata. unfold upsertUserGoals.
  rewrite (bind_ok _ _ _ _ _ (requireDb_connected s Hc)).
  rewrite (bind_ok _ _ _ _ _ (getUserGoals_run s userId Hc)).
  by rewrite Hsome, Hdata.
Qed.

Lemma upsertUserGoals_noValues s now userId data g0 :
  connected s = true ->
  head (filter (fun g => UserGoals.userId g = userId) (userGoals s)) = Some g0 ->
  PartialUserGoals.noValues data = true ->
  upsertUserGoals now userId data s = (Throw NoValuesToSet, s).
Proof.
  intros Hc Hsome Hdata. unfold upsertUserGoals.
  rewrite (bind_ok _ _ _ _ _ (requireDb_connected s Hc)).
  rewrite (bind_ok _ _ _ _ _ (getUserGoals_run s userId Hc)).
  by rewrite Hsome, Hdata.
Qed.

Lemma isInteger_to_int x : JS.isInteger x = true -> JS.of_int (JS.to_int x) = x.
Proof. unfold JS.isInteger. by intros ?%bool_decide_eq_true. Qed.

(** Every field the input supplies is the field of the row. *)
Definition suppliedStored (i : UpdateGoalsInput.t) (g : UserGoals.t) : Prop :=
  (forall h, UpdateGoalsInput.height i = Some h -> UserGoals.height g = Some h) /\
  (forall w, UpdateGoalsInput.weight i = Some w -> UserGoals.weight g = Some w) /\
  (forall a, UpdateGoalsInput.age i = Some a -> UserGoals.age g = Some a) /\
  (forall x, UpdateGoalsInput.gender i = Some x -> UserGoals.gender g = Some x) /\
  (forall l, UpdateGoalsInput.activityLevel i = Some l ->
     UserGoals.activityLevel g = Some l) /\
  (forall c, UpdateGoalsInput.dailyCalories i = Some c ->
     exists n, UserGoals.dailyCalories g = Some n /\ JS.of_int n = c) /\
  (forall p, UpdateGoalsInput.dailyProtein i = Some p ->
     UserGoals.dailyProtein g = Some p) /\
  (forall c, UpdateGoalsInput.dailyCarbs i = Some c ->
     UserGoals.dailyCarbs g = Some c) /\
  (forall f, UpdateGoalsInput.dailyFats i = Some f ->
     UserGoals.dailyFats g = Some f).

(** Every field the input leaves out is as it was in the row [g0]; the
    row keeps its id, user and creation time. *)
Definition omittedKept (i : UpdateGoalsInput.t) (g0 g : UserGoals.t) : Prop :=
  UserGoals.id g = UserGoals.id g0 /\
  UserGoals.userId g = UserGoals.userId g0 /\
  UserGoals.createdAt g = UserGoals.createdAt g0 /\
  (UpdateGoalsInput.height i = None -> UserGoals.height g = UserGoals.height g0) /\
  (UpdateGoalsInput.weight i = None -> UserGoals.weight g = UserGoals.weight g0) /\
  (UpdateGoalsInput.age i = None -> UserGoals.age g = UserGoals.age g0) /\
  (UpdateGoalsInput.gender i = None -> UserGoals.gender g = UserGoals.gender g0) /\
  (UpdateGoalsInput.activityLevel i = None ->
     UserGoals.activityLevel g = UserGoals.activityLevel g0) /\
  (UpdateGoalsInput.dailyCalories i = None ->
     UserGoals.dailyCalories g = UserGoals.dailyCalories g0) /\
  (UpdateGoalsInput.dailyProtein i = None ->
     UserGoals.dailyProtein g = UserGoals.dailyProtein g0) /\
  (UpdateGoalsInput.dailyCarbs i = None ->
     UserGoals.dailyCarbs g = UserGoals.dailyCarbs g0) /\
  (UpdateGoalsInput.dailyFats i = None ->
     UserGoals.dailyFats g = UserGoals.dailyFats g0).

Lemma suppliedStored_newGoals now id userId i :
  (forall x, UpdateGoalsInput.dailyCalories i = Some x -> JS.isInteger x = true) ->
  suppliedStored i (newGoals now id userId (UpdateGoalsInput.output i)).
Proof.
  intros Hint. unfold suppliedStored. simpl.
  repeat split; try (by intros ? ->).
  intros c Hcal. rewrite Hcal. simpl. eexists; split; [done|].
  by apply isInteger_to_int, Hint.
Qed.

Lemma suppliedStored_setGoals now g0 i :
  (forall x, UpdateGoalsInput.dailyCalories i = Some x -> JS.isInteger x = true) ->
  suppliedStored i (setGoals now (UpdateGoalsInput.output i) g0).
Proof.
  intros Hint. unfold suppliedStored. simpl.
  repeat split; try (by intros ? ->).
  intros c Hcal. rewrite Hcal. simpl. eexists; split; [done|].
  by apply isInteger_to_int, Hint.
Qed.

Lemma omittedKept_setGoals now g0 i :
  omittedKept i g0 (setGoals now (UpdateGoalsInput.output i) g0).
Proof. unfold omittedKept. simpl. repeat split; by intros ->. Qed.

(** What [updateGoals] does keep of its contract.  It rejects with a
    validation error, leaving the store as it was, every input in which a
    supplied [dailyCalories] is outside [500, 10000], a supplied
    [dailyProtein] or [dailyFats] outside [0, 500], or a supplied
    [dailyCarbs] outside [0, 1000].  On a connected store, for an input
    whose supplied goals are in range: when the user has no row, one is
    created from the input, whichever fields it supplies; when the user
    has a row and the input supplies a field, the input is merged into the
    row, supplied fields stored and the others kept; the following
    [getGoals] returns that row.  When the user has a row and the input
    supplies no field, the call throws "No values to set" and writes
    nothing. *)
Theorem updateGoals_contract s now userId i :
  (out_of_range i ->
   exists issues,
     foodRouter.updateGoals now userId i s = (Throw (BAD_REQUEST issues), s)) /\
  (connected s = true ->
   in_range i ->
   match head (filter (fun g => UserGoals.userId g = userId) (userGoals s)) with
   | None =>
       exists s' g,
         foodRouter.updateGoals now userId i s = (Ok tt, s') /\
         foodRouter.getGoals userId s' = (Ok (GoalsRow g), s') /\
         userGoals s' = userGoals s ++ [g] /\
         g = newGoals now (userGoals_autoinc s) userId (UpdateGoalsInput.output i) /\
         suppliedStored i g
   | Some g0 =>
       if PartialUserGoals.noValues (UpdateGoalsInput.output i)
       then foodRouter.updateGoals now userId i s = (Throw NoValuesToSet, s)
       else
         exists s' g,
           foodRouter.updateGoals now userId i s = (Ok tt, s') /\
           foodRouter.getGoals userId s' = (Ok (GoalsRow g), s') /\
           length (userGoals s') = length (userGoals s) /\
           g = setGoals now (UpdateGoalsInput.output i) g0 /\
           suppliedStored i g /\
           omittedKept i g0 g
   end).
Proof.
  split.
  - intros Hout%out_of_range_issues. eexists.
    unfold foodRouter.updateGoals.
    by rewrite (bind_throw _ _ s _ s (parseInput_issues _ s Hout)).
  - intros Hc Hin.
    pose proof (in_range_issues i Hin) as Hv.
    destruct Hin as (_ & Hint & _).
    unfold foodRouter.updateGoals, foodRouter.getGoals. rewrite Hv.
    rewrite (bind_ok _ _ s tt s) by done.
    destruct (head (filter (fun g => UserGoals.userId g = userId) (userGoals s)))
      as [g0|] eqn:Hhead.
    + destruct (PartialUserGoals.noValues (UpdateGoalsInput.output i))
        eqn:Hdata.
      { by rewrite (upsertUserGoals_noValues s now userId _ g0 Hc Hhead Hdata). }
      rewrite (upsertUserGoals_update s now userId _ g0 Hc Hhead Hdata).
      eexists _, (setGoals now (UpdateGoalsInput.output i) g0).
      split; [done|].
      assert (UserGoals.userId g0 = userId) as Hg0.
      { apply head_Some_elem_of in Hhead.
        by apply list_elem_of_filter in Hhead as [? _]. }
      split.
      { erewrite bind_ok by (by apply getUserGoals_run). simpl.
        rewrite (head_filter_map (fun g => UserGoals.userId g = userId)).
        - rewrite Hhead. simpl. by rewrite decide_True.
        - intros x. by case_decide. }
      split; [by simpl; rewrite length_map|].
      split; [done|].
      split; [by apply suppliedStored_setGoals|apply omittedKept_setGoals].
    + rewrite (upsertUserGoals_insert s now userId _ Hc Hhead).
      eexists _, (newGoals now (userGoals_autoinc s) userId
                           (UpdateGoalsInput.output i)).
      split; [done|].
      split.
      { erewrite bind_ok by (by apply getUserGoals_run). simpl.
        rewrite filter_app. apply head_None in Hhead. rewrite Hhead. simpl.
        rewrite filter_cons_True by done. done. }
      split; [done|]. split; [done|].
      by apply suppliedStored_newGoals.
Qed.

(** ** The daily summary *)

Definition sumZ (l : list Z) : Z := foldr Z.add 0 l.
Definition sumQc (l : list Qc) : Qc := foldr Qcplus 0%Qc l.

(** The totals of a list of entries, as sums of the four columns. *)
Definition sums (entries : list FoodEntry.t) : Acc.t :=
  Acc.mk (sumZ (FoodEntry.calories <$> entries))
         (sumQc (FoodEntry.protein <$> entries))
         (sumQc (FoodEntry.carbs <$> entries))
         (sumQc (FoodEntry.fats <$> entries)).

(** The totals a [getDailySummary] answer carries. *)
Definition totalsOf (r : SummaryResult) : Acc.t :=
  match r with
  | SummaryRow row =>
      Acc.mk (DailySummary.totalCalories row) (DailySummary.totalProtein row)
             (DailySummary.totalCarbs row) (DailySummary.totalFats row)
  | SummaryObject c p cb f => Acc.mk c p cb f
  end.

(** The summary of a user's day agrees with the entries of that day. *)
Definition summary_consistent (tz : Z) (s : Store) (userId : UserId)
    (date : Date) : Prop :=
  exists entries summary,
    foodRouter.getFoodsByDate tz userId date s = (Ok entries, s) /\
    foodRouter.getDailySummary tz userId date s = (Ok summary, s) /\
    totalsOf summary = sums entries.

Lemma or_default_zero x : JS.or_default x 0%Qc = x.
Proof. unfold JS.or_default. by case_bool_decide. Qed.

Lemma or_default_int_zero x : JS.or_default_int x 0 = x.
Proof. unfold JS.or_default_int. by case_bool_decide. Qed.

Lemma fold_addToTotals entries acc :
  fold_left addToTotals entries acc =
    Acc.mk (Acc.totalCalories acc + Acc.totalCalories (sums entries))
           (Acc.totalProtein acc + Acc.totalProtein (sums entries))%Qc
           (Acc.totalCarbs acc + Acc.totalCarbs (sums entries))%Qc
           (Acc.totalFats acc + Acc.totalFats (sums entries))%Qc.
Proof.
  revert acc. induction entries as [|e l IH]; intros acc; simpl.
  - destruct acc; simpl. by rewrite Z.add_0_r, !Qcplus_0_r.
  - rewrite IH. unfold addToTotals; simpl.
    rewrite !or_default_zero, Z.add_assoc, !Qcplus_assoc. done.
Qed.

(** The [reduce] of the procedures computes the four column sums. *)
Lemma reduceTotals_sums entries : reduceTotals entries = sums entries.
Proof.
  unfold reduceTotals. rewrite fold_addToTotals. unfold sums. simpl.
  by rewrite !Qcplus_0_l.
Qed.

Lemma upsertDailySummary_stored tz s now userId date a :
  connected s = true ->
  exists s' row,
    upsertDailySummary tz now userId date (asTotals a) s = (Ok tt, s') /\
    connected s' = true /\
    foodEntries s' = foodEntries s /\
    userGoals s' = userGoals s /\
    getDailySummary tz userId date s' = (Ok (Some row), s') /\
    totalsOf (SummaryRow row) = a.
Proof.
  intros Hc. unfold upsertDailySummary.
  rewrite (bind_ok _ _ _ _ _ (requireDb_connected s Hc)).
  rewrite (bind_ok _ _ _ _ _ (getDailySummary_run tz s userId date Hc)).
  set (key := summaryKey userId (setHours tz 0 0 0 0 date)).
  destruct (head (filter key (dailySummary s))) as [row0|] eqn:Hhead.
  - eexists _, (setTotals now (asTotals a) row0).
    split; [done|]. split; [done|]. split; [done|]. split; [done|].
    split; [|by destruct a].
    rewrite getDailySummary_run by done. simpl. fold key.
    rewrite (head_filter_map key).
    + rewrite Hhead. simpl. by rewrite decide_True.
    + intros r. by case_decide.
  - eexists _, _.
    split; [done|]. split; [done|]. split; [done|]. split; [done|].
    split.
    + rewrite getDailySummary_run by done. simpl. fold key.
      rewrite filter_app. apply head_None in Hhead. rewrite Hhead. simpl.
      by rewrite filter_cons_True by done.
    + simpl. rewrite or_default_int_zero, !or_default_zero. by destruct a.
Qed.

(** The "Update daily summary" block makes the summary of the day agree
    with the entries of the day, and touches no other table. *)
Lemma updateDailySummary_consistent tz s now userId date :
  connected s = true ->
  exists s',
    foodRouter.updateDailySummary tz now userId date s = (Ok tt, s') /\
    connected s' = true /\
    foodEntries s' = foodEntries s /\
    userGoals s' = userGoals s /\
    summary_consistent tz s' userId date.
Proof.
  intros Hc. unfold foodRouter.updateDailySummary.
  rewrite (bind_ok _ _ _ _ _ (getFoodEntriesByDate_run tz s userId date Hc)).
  set (entries := orderBy _ _).
  destruct (upsertDailySummary_stored tz s now userId date
              (reduceTotals entries) Hc)
    as (s' & row & Hup & Hc' & Hfe & Hug & Hget & Htot).
  exists s'. split; [done|]. split; [done|]. split; [done|]. split; [done|].
  exists entries, (SummaryRow row).
  unfold foodRouter.getFoodsByDate, foodRouter.getDailySummary.
  rewrite getFoodEntriesByDate_run by done.
  rewrite (bind_ok _ _ _ _ _ Hget), Hfe.
  split; [done|]. split; [done|].
  by rewrite Htot, reduceTotals_sums.
Qed.

Lemma addFoodEntry_run s now entry :
  connected s = true ->
  exists s',
    addFoodEntry now entry s = (Ok (foodEntries_autoinc s), s') /\
    connected s' = true /\
    foodEntries s' =
      foodEntries s ++ [newFoodEntry now (foodEntries_autoinc s) entry].
Proof.
  intros Hc. unfold addFoodEntry.
  rewrite (bind_ok _ _ _ _ _ (requireDb_connected s Hc)).
  by eexists.
Qed.

(** The paths that add an entry keep the summary of the day they touch up
    to date: [addFood] for a well-formed input, and [analyzeImage] and
    [analyzeBarcode] for a reply that carries an analysis. *)
Theorem adding_paths_recompute_summary tz s now userId :
  connected s = true ->
  (forall input,
     AddFoodEntrySchema.issues input = [] ->
     exists id s',
       foodRouter.addFood tz now userId input s = (Ok id, s') /\
       summary_consistent tz s' userId (AddFoodInput.date input)) /\
  (forall input a,
     exists r s',
       foodRouter.analyzeImage tz now userId input (Response (Parsed a)) s
         = (Ok r, s') /\
       summary_consistent tz s' userId (AnalyzeFoodImageInput.date input)) /\
  (forall input a,
     exists r s',
       foodRouter.analyzeBarcode tz now userId input (Response (Parsed a)) s
         = (Ok r, s') /\
       summary_consistent tz s' userId (AnalyzeBarcodeInput.date input)).
Proof.
  intros Hc. split; [|split].
  - intros input Hv. unfold foodRouter.addFood. rewrite Hv.
    rewrite (bind_ok _ _ s tt s) by done.
    destruct (addFoodEntry_run s now
                (AddFoodEntrySchema.output userId input) Hc) as (s1 & Hadd & Hc1 & _).
    destruct (updateDailySummary_consistent tz s1 now userId
                (AddFoodInput.date input) Hc1) as (s2 & Hup & _ & _ & _ & Hcons).
    exists (foodEntries_autoinc s), s2.
    by rewrite (bind_ok _ _ _ _ _ Hadd), (bind_ok _ _ _ _ _ Hup).
  - intros input a. unfold foodRouter.analyzeImage, try_catch.
    rewrite (bind_ok _ _ s a s) by done.
    match goal with |- context [addFoodEntry now ?e] =>
      destruct (addFoodEntry_run s now e Hc) as (s1 & Hadd & Hc1 & _) end.
    destruct (updateDailySummary_consistent tz s1 now userId
                (AnalyzeFoodImageInput.date input) Hc1)
      as (s2 & Hup & _ & _ & _ & Hcons).
    eexists _, s2.
    by rewrite (bind_ok _ _ _ _ _ Hadd), (bind_ok _ _ _ _ _ Hup).
  - intros input a. unfold foodRouter.analyzeBarcode, try_catch.
    rewrite (bind_ok _ _ s a s) by done.
    match goal with |- context [addFoodEntry now ?e] =>
      destruct (addFoodEntry_run s now e Hc) as (s1 & Hadd & Hc1 & _) end.
    destruct (updateDailySummary_consistent tz s1 now userId
                (AnalyzeBarcodeInput.date input) Hc1)
      as (s2 & Hup & _ & _ & _ & Hcons).
    eexists _, s2.
    by rewrite (bind_ok _ _ _ _ _ Hadd), (bind_ok _ _ _ _ _ Hup).
Qed.

(** ** A worked store *)

Module Example.

(** UTC+05:30. *)
Definition tz : Z := 19800000.

Definition alice : UserId := 1.
Definition bob : UserId := 2.

(** 2023-11-14T22:13:20Z, which is 03:43:20 of 15 November local time. *)
Definition day : Date := 1700000000000.

Definition empty : Store := mkStore true [] 1 [] 1 [] 1.

Definition toast : AddFoodInput.t :=
  AddFoodInput.mk "toast" morning (JS.of_int 300) (JS.of_int 9)
    (JS.of_int 45) (JS.of_int 6) None None None None manual day.

(** An analysis with a negative energy and a negative protein value. *)
Definition soup : Analysis.t :=
  Analysis.mk "soup" (JS.num (-1204) 10) (JS.of_int (-3)) (JS.of_int 10)
    (JS.of_int 2) (JS.of_int 1) "bowl".

Definition photo : AnalyzeFoodImageInput.t :=
  AnalyzeFoodImageInput.mk "https://img.example/soup.jpg" noon day.

Definition scan : AnalyzeBarcodeInput.t :=
  AnalyzeBarcodeInput.mk "4006381333931" noon day.

(** An edit that raises the energy of an entry to 500 kcal. *)
Definition richer : UpdateFoodData.t :=
  UpdateFoodData.mk None None (Some (JS.of_int 500)) None None None
    None None None None None None.

(** The store after alice logged [toast]. *)
Definition logged : Store :=
  (foodRouter.addFood tz 1700000001000 alice toast empty).2.

End Example.

(** ** Mutations that skip the recompute *)

Lemma deleteFood_dailySummary s userId id :
  dailySummary (foodRouter.deleteFood userId id s).2 = dailySummary s.
Proof.
  unfold foodRouter.deleteFood, deleteFoodEntry, requireDb.
  unfold bind, get, put, ret, throw. by destruct (connected s).
Qed.

Lemma updateFood_dailySummary s now userId id data :
  dailySummary (foodRouter.updateFood now userId id data s).2 = dailySummary s.
Proof.
  unfold foodRouter.updateFood, updateFoodEntry, requireDb, parseInput.
  rewrite output_has_values. unfold bind, get, put, ret, throw.
  by destruct (UpdateFoodData.issues data), (connected s).
Qed.

(** C1. [deleteFood] and [updateFood] never write [dailySummary].  On the
    worked store, where alice has logged one entry of 300 kcal and the
    summary of the day agrees with it, deleting that entry leaves a summary
    of 300 kcal over an empty day, and raising its energy to 500 kcal
    leaves a summary of 300 kcal over a day of 500 kcal: in both stores
    the summary no longer agrees with the entries. *)
Theorem deleteFood_updateFood_leave_summary_stale :
  (forall s userId id,
     dailySummary (foodRouter.deleteFood userId id s).2 = dailySummary s) /\
  (forall s now userId id data,
     dailySummary (foodRouter.updateFood now userId id data s).2
       = dailySummary s) /\
  let tz := Example.tz in
  let s1 := Example.logged in
  let s2 := (foodRouter.deleteFood Example.alice 1 s1).2 in
  let s3 := (foodRouter.updateFood 1700000002000 Example.alice 1
               Example.richer s1).2 in
  summary_consistent tz s1 Example.alice Example.day /\
  (exists row,
     foodRouter.getFoodsByDate tz Example.alice Example.day s2 = (Ok [], s2) /\
     foodRouter.getDailySummary tz Example.alice Example.day s2
       = (Ok (SummaryRow row), s2) /\
     DailySummary.totalCalories row = 300) /\
  ~ summary_consistent tz s2 Example.alice Example.day /\
  (exists e row,
     foodRouter.getFoodsByDate tz Example.alice Example.day s3 = (Ok [e], s3) /\
     FoodEntry.calories e = 500 /\
     foodRouter.getDailySummary tz Example.alice Example.day s3
       = (Ok (SummaryRow row), s3) /\
     DailySummary.totalCalories row = 300) /\
  ~ summary_consistent tz s3 Example.alice Example.day.
Proof.
  split; [exact deleteFood_dailySummary|].
  split; [exact updateFood_dailySummary|].
  intros tz s1 s2 s3.
  split; [|split; [|split; [|split]]].
  - destruct (adding_paths_recompute_summary tz Example.empty 1700000001000
                Example.alice eq_refl) as [Hadd _].
    destruct (Hadd Example.toast eq_refl) as (id & s' & Hrun & Hcons).
    unfold s1, Example.logged. fold tz. by rewrite Hrun.
  - eexists. split; [|split]; [vm_compute; reflexivity ..].
  - intros (entries & summary & Hentries & Hsummary & Htotals).
    vm_compute in Hentries. vm_compute in Hsummary.
    injection Hentries as <-. injection Hsummary as <-.
    vm_compute in Htotals. discriminate.
  - eexists _, _. split; [|split; [|split]]; [vm_compute; reflexivity ..].
  - intros (entries & summary & Hentries & Hsummary & Htotals).
    vm_compute in Hentries. vm_compute in Hsummary.
    injection Hentries as <-. injection Hsummary as <-.
    vm_compute in Htotals. discriminate.
Qed.

(** ** Non-negative entries *)

Definition nonnegative (e : FoodEntry.t) : Prop :=
  0 <= FoodEntry.calories e /\
  (0 <= FoodEntry.protein e)%Qc /\
  (0 <= FoodEntry.carbs e)%Qc /\
  (0 <= FoodEntry.fats e)%Qc.

Lemma of_int_0 : JS.of_int 0 = 0%Qc.
Proof. by apply Qc_is_canon. Qed.

Lemma check_min_0_nil field x : check_min field 0 x = [] -> (0 <= x)%Qc.
Proof.
  unfold check_min, check. rewrite of_int_0.
  by case_bool_decide.
Qed.

Lemma to_int_nonneg x : (0 <= x)%Qc -> 0 <= JS.to_int x.
Proof. intros Hx. by apply (Qfloor_resp_le 0 x). Qed.

Lemma AddFoodEntrySchema_nonnegative userId input now id :
  AddFoodEntrySchema.issues input = [] ->
  nonnegative (newFoodEntry now id (AddFoodEntrySchema.output userId input)).
Proof.
  unfold AddFoodEntrySchema.issues. rewrite !app_nil.
  intros (_ & _ & Hcal & Hp & Hc & Hf).
  repeat split; simpl.
  - by apply to_int_nonneg, (check_min_0_nil "calories").
  - by apply (check_min_0_nil "protein").
  - by apply (check_min_0_nil "carbs").
  - by apply (check_min_0_nil "fats").
Qed.

Lemma UpdateFoodData_nonnegative data now e :
  UpdateFoodData.issues data = [] ->
  nonnegative e ->
  nonnegative (setFoodEntry now (UpdateFoodData.output data) e).
Proof.
  unfold UpdateFoodData.issues. rewrite !app_nil.
  intros (_ & _ & Hcal & Hp & Hc & Hf) (Hecal & Hep & Hec & Hef).
  repeat split; simpl.
  - destruct (UpdateFoodData.calories data) as [x|]; simpl in *; [|done].
    by apply to_int_nonneg, (check_min_0_nil "calories").
  - destruct (UpdateFoodData.protein data) as [x|]; simpl in *; [|done].
    by apply (check_min_0_nil "protein").
  - destruct (UpdateFoodData.carbs data) as [x|]; simpl in *; [|done].
    by apply (check_min_0_nil "carbs").
  - destruct (UpdateFoodData.fats data) as [x|]; simpl in *; [|done].
    by apply (check_min_0_nil "fats").
Qed.

(** X30. The validated paths keep every stored entry non-negative: [addFood]
    and [updateFood] parse their input with [AddFoodEntrySchema] before
    they write. *)
Theorem validated_paths_keep_nonnegative tz s now userId :
  connected s = true ->
  Forall nonnegative (foodEntries s) ->
  (forall input,
     Forall nonnegative (foodEntries (foodRouter.addFood tz now userId input s).2)) /\
  (forall id data,
     Forall nonnegative (foodEntries (foodRouter.updateFood now userId id data s).2)).
Proof.
  intros Hc Hs. split.
  - intros input. unfold foodRouter.addFood.
    destruct (AddFoodEntrySchema.issues input) as [|i l] eqn:Hv.
    + rewrite (bind_ok _ _ s tt s) by done.
      destruct (addFoodEntry_run s now
                  (AddFoodEntrySchema.output userId input) Hc)
        as (s1 & Hadd & Hc1 & Hrows).
      destruct (updateDailySummary_consistent tz s1 now userId
                  (AddFoodInput.date input) Hc1) as (s2 & Hup & _ & Hfe & _).
      rewrite (bind_ok _ _ _ _ _ Hadd), (bind_ok _ _ _ _ _ Hup). simpl.
      rewrite Hfe, Hrows. apply Forall_app. split; [done|].
      apply Forall_singleton. by apply AddFoodEntrySchema_nonnegative.
    + by rewrite (bind_throw _ _ s (BAD_REQUEST (i :: l)) s).
  - intros id data.
    destruct (UpdateFoodData.issues data) as [|i l] eqn:Hv.
    + rewrite updateFood_run by done. simpl.
      induction Hs as [|e rows He Hrows IH]; simpl; constructor; [|done].
      case_decide; [|done]. by apply UpdateFoodData_nonnegative.
    + unfold foodRouter.updateFood. rewrite Hv.
      by rewrite (bind_throw _ _ s (BAD_REQUEST (i :: l)) s).
Qed.

(** C2. An analysis with negative values is stored as it is: on the
    worked store, [analyzeImage] and [analyzeBarcode] given the analysis
    [soup] (-120.4 kcal, -3 g of protein) succeed and store an entry with
    [calories = -120] and [protein = -3], which is not non-negative. *)
Theorem analyzed_entries_can_be_negative :
  let now := 1700000001000 in
  let reply := Response (Parsed Example.soup) in
  let byImage := foodRouter.analyzeImage Example.tz now Example.alice
                   Example.photo reply Example.empty in
  let byBarcode := foodRouter.analyzeBarcode Example.tz now Example.alice
                     Example.scan reply Example.empty in
  (exists e,
     byImage.1 = Ok (mkAnalyzed true Example.soup 1) /\
     foodEntries byImage.2 = [e] /\
     FoodEntry.calories e = -120 /\
     FoodEntry.protein e = JS.of_int (-3) /\
     ~ nonnegative e) /\
  (exists e,
     byBarcode.1 = Ok (mkAnalyzed true Example.soup 1) /\
     foodEntries byBarcode.2 = [e] /\
     FoodEntry.calories e = -120 /\
     FoodEntry.protein e = JS.of_int (-3) /\
     ~ nonnegative e).
Proof.
  intros now reply byImage byBarcode.
  split; eexists; (split; [vm_compute; reflexivity|]);
    (split; [vm_compute; reflexivity|]);
    (split; [vm_compute; reflexivity|]);
    (split; [vm_compute; reflexivity|]);
    intros [Hcal _]; vm_compute in Hcal; by apply Hcal.
Qed.

(** ** The BMI/TDEE derivation *)

(** The derivation as the contract words it. *)
Module Derivation.

Definition BMR (weight height : Qc) (age : Z) (gender : Gender) : Qc :=
  (JS.of_int 10 * weight + JS.num 625 100 * height
   - JS.of_int 5 * JS.of_int age
   + match gender with male => JS.of_int 5 | _ => JS.of_int (-161) end)%Qc.

Definition multiplier (level : string) : Qc :=
  if String.eqb level "sedentary" then JS.num 12 10
  else if String.eqb level "light" then JS.num 1375 1000
  else if String.eqb level "moderate" then JS.num 155 100
  else if String.eqb level "active" then JS.num 1725 1000
  else if String.eqb level "veryActive" then JS.num 19 10
  else JS.num 155 100.

Definition TDEE (weight height : Qc) (age : Z) (gender : Gender)
    (level : string) : Qc :=
  (BMR weight height age gender * multiplier level)%Qc.

Definition goalFactor (goal : string) : Qc :=
  if String.eqb goal "lose" then JS.num 85 100
  else if String.eqb goal "gain" then JS.num 110 100
  else 1%Qc.

(** (protein, carbohydrate, fat) shares of the calories. *)
Definition ratios (goal : string) : Qc * Qc * Qc :=
  if String.eqb goal "lose" then (JS.num 35 100, JS.num 40 100, JS.num 25 100)
  else if String.eqb goal "gain" then (JS.num 30 100, JS.num 50 100, JS.num 20 100)
  else (JS.num 30 100, JS.num 45 100, JS.num 25 100).

Definition calories (weight height : Qc) (age : Z) (gender : Gender)
    (level goal : string) : Qc :=
  (TDEE weight height age gender level * goalFactor goal)%Qc.

(** Grams of a macro: its share of the calories over its kcal per gram. *)
Definition grams (calories ratio : Qc) (kcalPerGram : Z) : Z :=
  JS.Math_round (calories * ratio / JS.of_int kcalPerGram)%Qc.

End Derivation.

Lemma multiplier_of_table level :
  BMICalculator.multiplier_of level = Derivation.multiplier level.
Proof.
  unfold BMICalculator.multiplier_of, BMICalculator.ACTIVITY_MULTIPLIERS,
    Derivation.multiplier.
  repeat match goal with
         | |- context [String.eqb level ?k] =>
             destruct (String.eqb_spec level k) as [->|?]; [by vm_compute|]
         end.
  by rewrite !lookup_insert_ne, lookup_empty by done.
Qed.

Lemma bmr_of_BMR w h a gender :
  BMICalculator.bmr_of w h a gender = Derivation.BMR w h a gender.
Proof.
  assert (JS.of_int (-161) = (- JS.of_int 161)%Qc) as Hneg
    by (by apply Qc_is_canon).
  unfold BMICalculator.bmr_of, Derivation.BMR.
  destruct gender; rewrite ?Hneg; ring.
Qed.

Lemma adjust_goalFactor x goal :
  BMICalculator.adjust x goal = (x * Derivation.goalFactor goal)%Qc.
Proof.
  assert (JS.num 11 10 = JS.num 110 100) as H11 by (by apply Qc_is_canon).
  unfold BMICalculator.adjust, Derivation.goalFactor.
  destruct (String.eqb goal "lose"); [done|].
  destruct (String.eqb goal "gain"); [by rewrite H11|].
  by rewrite Qcmult_1_r.
Qed.

Lemma calculateMacros_grams kcal goal :
  BMICalculator.calculateMacros kcal goal =
    let '(pr, cr, fr) := Derivation.ratios goal in
    BMICalculator.mkMacros (Derivation.grams kcal pr 4)
      (Derivation.grams kcal cr 4) (Derivation.grams kcal fr 9).
Proof.
  assert (JS.num 4 10 = JS.num 40 100) as H4 by (by apply Qc_is_canon).
  assert (JS.num 3 10 = JS.num 30 100) as H3 by (by apply Qc_is_canon).
  assert (JS.num 5 10 = JS.num 50 100) as H5 by (by apply Qc_is_canon).
  assert (JS.num 2 10 = JS.num 20 100) as H2 by (by apply Qc_is_canon).
  unfold BMICalculator.calculateMacros, Derivation.ratios, Derivation.grams.
  rewrite H4, H3, H5, H2.
  by destruct (String.eqb goal "lose"), (String.eqb goal "gain").
Qed.

Lemma guard_positive (h w : Qc) (a : Z) :
  bool_decide (h <= 0)%Qc || bool_decide (w <= 0)%Qc || bool_decide (a <= 0)
  = negb (bool_decide (0 < h)%Qc && bool_decide (0 < w)%Qc
          && bool_decide (0 < a)).
Proof.
  repeat case_bool_decide; simpl; try done;
    repeat match goal with
           | H : ¬ (_ <= _)%Qc |- _ => apply Qcnot_le_lt in H
           | H : ¬ (_ < _)%Qc |- _ => apply Qcnot_lt_le in H
           | H1 : (?x < ?y)%Qc, H2 : (?y <= ?x)%Qc |- _ =>
               destruct (Qclt_not_le _ _ H1 H2)
           end; lia.
Qed.

(** C8, amended.  For every height, weight, age, gender, activity level
    and goal, [calculateBMI] yields nothing unless the three numbers are
    positive, and otherwise yields: BMR = 10 weight + 6.25 height - 5 age,
    plus 5 for male and minus 161 otherwise; TDEE = BMR times the activity
    multiplier (1.55 for an unknown level); calories = TDEE times 0.85 for
    lose, 1.10 for gain and 1 otherwise, reported rounded to an integer;
    each macro in grams = calories times its ratio over 4, 4 and 9,
    rounded to the nearest integer.  For height 175, weight 75, age 28,
    male, moderate, maintain: BMR = 1708.75, calories = 2648.5625 reported
    as 2649, protein 199 g, carbs 298 g, fats 74 g. *)
Theorem calculateBMI_derivation :
  (forall (h w : Qc) (a : Z) gender level goal,
     BMICalculator.calculateBMI (Some h) (Some w) (Some a) gender level goal =
       if bool_decide (0 < h)%Qc && bool_decide (0 < w)%Qc
          && bool_decide (0 < a)
       then
         let kcal := Derivation.calories w h a gender level goal in
         let '(pr, cr, fr) := Derivation.ratios goal in
         let protein := Derivation.grams kcal pr 4 in
         let carbs := Derivation.grams kcal cr 4 in
         let fats := Derivation.grams kcal fr 9 in
         Some (BMICalculator.mkCalculated
                 (JS.toFixed1 (w / (h / JS.of_int 100 * (h / JS.of_int 100)))%Qc)
                 (JS.toFixed0 kcal)
                 (BMICalculator.mkMacros protein carbs fats)
                 h w a gender level
                 (JS.Math_round kcal) protein carbs fats)
       else None) /\
  (exists r,
     BMICalculator.calculateBMI (Some (JS.of_int 175)) (Some (JS.of_int 75))
       (Some 28) male "moderate" "maintain" = Some r /\
     Derivation.BMR (JS.of_int 75) (JS.of_int 175) 28 male = JS.num 170875 100 /\
     Derivation.calories (JS.of_int 75) (JS.of_int 175) 28 male
       "moderate" "maintain" = JS.num 26485625 10000 /\
     BMICalculator.tdee r = 2649 /\
     BMICalculator.dailyCalories r = 2649 /\
     BMICalculator.dailyProtein r = 199 /\
     BMICalculator.dailyCarbs r = 298 /\
     BMICalculator.dailyFats r = 74).
Proof.
  split.
  - intros h w a gender level goal.
    unfold BMICalculator.calculateBMI. rewrite guard_positive.
    destruct (_ && _); simpl; [|done].
    rewrite calculateMacros_grams, adjust_goalFactor, bmr_of_BMR,
      multiplier_of_table.
    fold (Derivation.TDEE w h a gender level).
    fold (Derivation.calories w h a gender level goal).
    by destruct (Derivation.ratios goal) as [[pr cr] fr].
  - eexists. split; [by vm_compute|].
    split; [by apply Qc_is_canon|].
    split; [by apply Qc_is_canon|].
    by vm_compute.
Qed.

(** C8 as first stated fails on its own example: the derivation does not
    yield 2742 kcal, 206 g, 309 g and 76 g there, because the BMR of the
    example is 1708.75, not 1768.75. *)
Lemma calculateBMI_example_not_2742 :
  exists r,
    BMICalculator.calculateBMI (Some (JS.of_int 175)) (Some (JS.of_int 75))
      (Some 28) male "moderate" "maintain" = Some r /\
    BMICalculator.bmr_of (JS.of_int 75) (JS.of_int 175) 28 male
      <> JS.num 176875 100 /\
    BMICalculator.tdee r <> 2742 /\
    BMICalculator.dailyCalories r <> 2742 /\
    BMICalculator.dailyProtein r <> 206 /\
    BMICalculator.dailyCarbs r <> 309 /\
    BMICalculator.dailyFats r <> 76.
Proof.
  eexists. split; [by vm_compute|].
  split; [intros H; apply (f_equal this) in H; vm_compute in H; discriminate|].
  by vm_compute.
Qed.

(** ** Instances on the worked store *)

Module Witness.

(** The row alice's [toast] became. *)
Definition toastRow : FoodEntry.t :=
  newFoodEntry 1700000001000 1
    (AddFoodEntrySchema.output Example.alice Example.toast).

Definition tooLow : UpdateGoalsInput.t :=
  UpdateGoalsInput.mk None None None None None (Some (JS.of_int 100))
    None None None.

Definition goal2500 : UpdateGoalsInput.t :=
  UpdateGoalsInput.mk None None None None None (Some (JS.of_int 2500))
    None None None.

(** The input [{}]: the empty subset of the fields. *)
Definition noGoals : UpdateGoalsInput.t :=
  UpdateGoalsInput.mk None None None None None None None None None.

(** The worked store after alice set her calorie goal to 2500. *)
Definition withGoals : Store :=
  (foodRouter.updateGoals 1700000002000 Example.alice goal2500
     Example.logged).2.

End Witness.

(** America/New_York around the start of daylight saving time in 2023:
    UTC-5 until 2023-03-12T07:00:00Z, when 02:00 local time becomes 03:00,
    and UTC-4 from then on. *)
Module Eastern.

Definition zone : Zone.t :=
  Zone.shifting (-18000000) (-14400000) 1678604400000.

(** 2023-03-12T05:00:00Z, local midnight of the day of the change. *)
Definition midnight : Date := 1678597200000.

(** 2023-03-12T15:00:00Z, 11:00 local time of that day. *)
Definition date : Date := 1678633200000.

(** A snack alice logs for 2023-03-13T04:30:00Z, which is 00:30 local
    time of the next day. *)
Definition snack : InsertFoodEntry.t :=
  InsertFoodEntry.mk Example.alice "snack" lateNight 120 (JS.of_int 3)
    (JS.of_int 20) (JS.of_int 4) (Some (JS.of_int 1))
    (Some "serving"%string) None None manual 1678681800000.


Definition store : Store := (addFoodEntry 1678681900000 snack Example.empty).2.

End Eastern.



Lemma getFoodEntriesByDate_day_window_witness :
  exists midnight rows,
    (midnight + Example.tz) `mod` MS_PER_DAY = 0 /\
    midnight <= Example.day < midnight + MS_PER_DAY /\
    getFoodEntriesByDate Example.tz Example.alice Example.day Example.logged
      = (Ok rows, Example.logged) /\
    (forall e, e ∈ rows <->
       e ∈ foodEntries Example.logged /\ FoodEntry.userId e = Example.alice /\
       midnight <= FoodEntry.date e <= midnight + 24 * 60 * 60 * 1000 - 1) /\
    rows ≡ₚ filter (inDay Example.alice midnight
                          (midnight + 24 * 60 * 60 * 1000 - 1))
                   (foodEntries Example.logged) /\
    StronglySorted (key_le FoodEntry.createdAt) rows /\
    (StronglySorted (key_le FoodEntry.createdAt) (foodEntries Example.logged) ->
     rows = filter (inDay Example.alice midnight
                          (midnight + 24 * 60 * 60 * 1000 - 1))
                   (foodEntries Example.logged)).
Proof.
  apply (getFoodEntriesByDate_day_window Example.tz Example.logged
           Example.alice Example.day).
  reflexivity.
Defined.

Lemma getGoals_defaults_witness :
  foodRouter.getGoals Example.alice Example.logged =
    (Ok (GoalsObject 2000 (JS.of_int 150) (JS.of_int 250) (JS.of_int 65)),
     Example.logged).
Proof.
  apply (getGoals_defaults Example.logged Example.alice).
  - reflexivity.
  - intros g Hg. vm_compute in Hg. inversion Hg.
Defined.

Lemma getDailySummary_zero_when_absent_witness :
  foodRouter.getDailySummary Example.tz Example.bob Example.day Example.logged
    = (Ok (SummaryObject 0 0%Qc 0%Qc 0%Qc), Example.logged).
Proof.
  apply (getDailySummary_zero_when_absent Example.tz Example.logged
           Example.bob Example.day).
  - reflexivity.
  - intros r Hr [Hu _]. vm_compute in Hr.
    apply list_elem_of_singleton in Hr. subst r. discriminate Hu.
Defined.

Lemma deleteFood_updateFood_always_succeed_witness :
  (foodRouter.deleteFood Example.bob 7 Example.logged).1 = Ok (mkSuccess true) /\
  (foodRouter.updateFood 1700000002000 Example.bob 7 Example.richer
     Example.logged).1 = Ok (mkSuccess true).
Proof.
  apply (deleteFood_updateFood_always_succeed Example.logged 1700000002000
           Example.bob 7 Example.richer).
  - reflexivity.
  - reflexivity.
Defined.

Lemma foreign_delete_update_noop_witness :
  foodRouter.deleteFood Example.bob 1 Example.logged
    = (Ok (mkSuccess true), Example.logged) /\
  (foodRouter.updateFood 1700000002000 Example.bob 1 Example.richer
     Example.logged).2 = Example.logged /\
  (forall j,
     let s' := (foodRouter.updateFood 1700000002000 Example.bob j
                  Example.richer Example.logged).2 in
     dailySummary s' = dailySummary Example.logged /\
     Forall2 (fun old new => FoodEntry.userId old <> Example.bob -> new = old)
             (foodEntries Example.logged) (foodEntries s')).
Proof.
  apply (foreign_delete_update_noop Example.logged 1700000002000
           Example.alice Example.bob 1 Witness.toastRow Example.richer).
  - reflexivity.
  - vm_compute. apply NoDup_singleton.
  - vm_compute. left.
  - reflexivity.
  - reflexivity.
  - discriminate.
Defined.

Lemma estimator_failure_handling_witness :
  foodRouter.calculateMacros "apple" InvokeThrows Example.logged =
    (Ok (Macros.mk 0%Qc 0%Qc 0%Qc 0%Qc), Example.logged) /\
  foodRouter.analyzeImage Example.tz 1700000002000 Example.alice Example.photo
    (Response NoContent) Example.logged
    = (Throw NoResponseFromLLM, Example.logged) /\
  foodRouter.analyzeBarcode Example.tz 1700000002000 Example.alice Example.scan
    (Response NoContent) Example.logged
    = (Throw NoResponseFromLLM, Example.logged).
Proof.
  apply (estimator_failure_handling Example.tz 1700000002000 Example.alice
           "apple" InvokeThrows (Response NoContent)
           LLMInvokeFailed NoResponseFromLLM).
  - simpl. lia.
  - constructor.
  - constructor.
Defined.

Lemma updateGoals_contract_instance :
  (exists issues,
     foodRouter.updateGoals 1700000002000 Example.alice Witness.tooLow
       Example.logged = (Throw (BAD_REQUEST issues), Example.logged)) /\
  (exists s' g,
     foodRouter.updateGoals 1700000002000 Example.alice Witness.goal2500
       Example.logged = (Ok tt, s') /\
     foodRouter.getGoals Example.alice s' = (Ok (GoalsRow g), s') /\
     userGoals s' = [g] /\
     UserGoals.dailyCalories g = Some 2500).
Proof.
  split.
  - apply (proj1 (updateGoals_contract Example.logged 1700000002000
                    Example.alice Witness.tooLow)).
    left. exists (JS.of_int 100). split; [reflexivity|].
    intros [Hlo _]. vm_compute in Hlo. by apply Hlo.
  - pose proof (proj2 (updateGoals_contract Example.logged 1700000002000
                         Example.alice Witness.goal2500)) as Hok.
    destruct Hok as (s' & g & Hup & Hget & Hrows & -> & _).
    + reflexivity.
    + unfold in_range, supplied_within. simpl.
      split; [|split; [|split; [|split]]]; intros x Hx;
        try discriminate Hx; injection Hx as <-.
      * split; vm_compute; discriminate.
      * reflexivity.
    + eexists s', _. split; [exact Hup|]. split; [exact Hget|].
      split; [exact Hrows|]. reflexivity.
Qed.

(** C3. [updateGoals] does not take every subset of the fields on a later
    call.  The input that supplies no field passes the validation.  As a
    user's first call it creates the row, with the default goals.  Once
    the user has a row, the same input makes [upsertUserGoals] call
    [update(userGoals).set({})], which throws "No values to set": the call
    fails and nothing is merged.  On the worked store, where alice has set
    her calorie goal to 2500, the empty input throws and her goal stays
    2500; had she no row, it would have created one with 2000. *)
Theorem updateGoals_empty_update_throws :
  UpdateGoalsInput.issues Witness.noGoals = [] /\
  (forall s now userId,
     connected s = true ->
     head (filter (fun g => UserGoals.userId g = userId) (userGoals s)) = None ->
     exists s' g,
       foodRouter.updateGoals now userId Witness.noGoals s = (Ok tt, s') /\
       foodRouter.getGoals userId s' = (Ok (GoalsRow g), s') /\
       UserGoals.dailyCalories g = Some 2000) /\
  (forall s now userId g0,
     connected s = true ->
     head (filter (fun g => UserGoals.userId g = userId) (userGoals s)) = Some g0 ->
     foodRouter.updateGoals now userId Witness.noGoals s
       = (Throw NoValuesToSet, s)) /\
  (exists g,
     foodRouter.getGoals Example.alice Witness.withGoals
       = (Ok (GoalsRow g), Witness.withGoals) /\
     UserGoals.dailyCalories g = Some 2500) /\
  foodRouter.updateGoals 1700000003000 Example.alice Witness.noGoals
    Witness.withGoals = (Throw NoValuesToSet, Witness.withGoals).
Proof.
  assert (in_range Witness.noGoals) as Hin.
  { unfold in_range, supplied_within. simpl. repeat split; discriminate. }
  split; [reflexivity|]. split; [|split; [|split]].
  - intros s now userId Hc Hnone.
    pose proof (proj2 (updateGoals_contract s now userId Witness.noGoals)
                  Hc Hin) as Hok.
    rewrite Hnone in Hok. destruct Hok as (s' & g & Hup & Hget & _ & -> & _).
    by eexists s', _.
  - intros s now userId g0 Hc Hsome.
    pose proof (proj2 (updateGoals_contract s now userId Witness.noGoals)
                  Hc Hin) as Hok.
    by rewrite Hsome in Hok.
  - eexists. split; vm_compute; reflexivity.
  - vm_compute. reflexivity.
Qed.

(** * Further properties of the food log *)

(** ** An unavailable database *)

Lemma requireDb_bind_disconnected {A} (k : unit -> M A) s :
  connected s = false ->
  bind requireDb k s = (Throw DatabaseNotAvailable, s).
Proof.
  intros Hc. by rewrite (bind_throw _ _ _ _ _ (requireDb_disconnected s Hc)).
Qed.

(** X1. Every procedure that reaches the database fails closed when [getDb]
    yields [null]: it throws "Database not available" and writes
    nothing.  The inputs are well-formed and the estimator has answered,
    so that the database is what the procedure fails on. *)
Theorem unavailable_database_fails_closed tz s now userId id date
    (food : AddFoodInput.t) (data : UpdateFoodData.t)
    (goals : UpdateGoalsInput.t)
    (photo : AnalyzeFoodImageInput.t) (scan : AnalyzeBarcodeInput.t)
    (a : Analysis.t) :
  connected s = false ->
  AddFoodEntrySchema.issues food = [] ->
  UpdateFoodData.issues data = [] ->
  UpdateGoalsInput.issues goals = [] ->
  foodRouter.addFood tz now userId food s = (Throw DatabaseNotAvailable, s) /\
  foodRouter.getFoodsByDate tz userId date s = (Throw DatabaseNotAvailable, s) /\
  foodRouter.deleteFood userId id s = (Throw DatabaseNotAvailable, s) /\
  foodRouter.updateFood now userId id data s = (Throw DatabaseNotAvailable, s) /\
  foodRouter.getDailySummary tz userId date s = (Throw DatabaseNotAvailable, s) /\
  foodRouter.analyzeImage tz now userId photo (Response (Parsed a)) s
    = (Throw DatabaseNotAvailable, s) /\
  foodRouter.analyzeBarcode tz now userId scan (Response (Parsed a)) s
    = (Throw DatabaseNotAvailable, s) /\
  foodRouter.getGoals userId s = (Throw DatabaseNotAvailable, s) /\
  foodRouter.updateGoals now userId goals s = (Throw DatabaseNotAvailable, s).
Proof.
  intros Hc Hfood Hdata Hgoals.
  unfold foodRouter.addFood, foodRouter.getFoodsByDate, foodRouter.deleteFood,
    foodRouter.updateFood, foodRouter.getDailySummary, foodRouter.analyzeImage,
    foodRouter.analyzeBarcode, foodRouter.getGoals, foodRouter.updateGoals.
  rewrite Hfood, Hdata, Hgoals.
  unfold try_catch.
  rewrite !(bind_ok _ _ s tt s (parseInput_nil s)).
  rewrite !(bind_ok _ _ s a s eq_refl).
  unfold addFoodEntry, getFoodEntriesByDate, deleteFoodEntry, updateFoodEntry,
    getDailySummary, getUserGoals, upsertUserGoals.
  repeat split;
    repeat first
      [ rewrite (requireDb_bind_disconnected _ s Hc)
      | erewrite bind_throw by (by apply requireDb_bind_disconnected) ];
    reflexivity.
Qed.

(** ** The writes of the procedures, as store transformers *)

(** The store [addFoodEntry] leaves behind. *)
Definition insertedFood (now : Date) (entry : InsertFoodEntry.t) (s : Store)
    : Store :=
  mkStore (connected s)
    (foodEntries s ++ [newFoodEntry now (foodEntries_autoinc s) entry])
    (foodEntries_autoinc s + 1)
    (dailySummary s) (dailySummary_autoinc s)
    (userGoals s) (userGoals_autoinc s).

(** The rows [getFoodEntriesByDate] returns. *)
Definition dayEntries (tz : Z) (userId : UserId) (date : Date) (s : Store)
    : list FoodEntry.t :=
  orderBy FoodEntry.createdAt
    (filter (inDay userId (setHours tz 0 0 0 0 date)
                   (setHours tz 23 59 59 999 date)) (foodEntries s)).

(** The row [upsertDailySummary] inserts when the day has none. *)
Definition newSummary (now : Date) (id : Z) (userId : UserId)
    (startOfDay : Date) (a : Acc.t) : DailySummary.t :=
  DailySummary.mk id userId startOfDay
    (Acc.totalCalories a) (Acc.totalProtein a) (Acc.totalCarbs a)
    (Acc.totalFats a) now now.

(** The store [upsertDailySummary] leaves behind, given complete totals. *)
Definition upsertedSummary (tz : Z) (now : Date) (userId : UserId)
    (date : Date) (a : Acc.t) (s : Store) : Store :=
  match head (filter (summaryKey userId (setHours tz 0 0 0 0 date))
                     (dailySummary s)) with
  | Some row =>
      set_dailySummary
        (map (fun r => if decide (DailySummary.id r = DailySummary.id row)
                       then setTotals now (asTotals a) r else r)
             (dailySummary s)) s
  | None =>
      mkStore (connected s) (foodEntries s) (foodEntries_autoinc s)
        (dailySummary s ++
           [newSummary now (dailySummary_autoinc s) userId
                       (setHours tz 0 0 0 0 date) a])
        (dailySummary_autoinc s + 1)
        (userGoals s) (userGoals_autoinc s)
  end.

(** The store the "Update daily summary" block leaves behind. *)
Definition recomputed (tz : Z) (now : Date) (userId : UserId) (date : Date)
    (s : Store) : Store :=
  upsertedSummary tz now userId date (reduceTotals (dayEntries tz userId date s)) s.

(** The store [upsertUserGoals] leaves behind when it writes. *)
Definition upsertedGoals (now : Date) (userId : UserId)
    (data : PartialUserGoals.t) (s : Store) : Store :=
  match head (filter (fun g => UserGoals.userId g = userId) (userGoals s)) with
  | Some _ =>
      set_userGoals
        (map (fun g => if decide (UserGoals.userId g = userId)
                       then setGoals now data g else g)
             (userGoals s)) s
  | None =>
      mkStore (connected s) (foodEntries s) (foodEntries_autoinc s)
        (dailySummary s) (dailySummary_autoinc s)
        (userGoals s ++ [newGoals now (userGoals_autoinc s) userId data])
        (userGoals_autoinc s + 1)
  end.

Lemma addFoodEntry_store s now entry :
  connected s = true ->
  addFoodEntry now entry s = (Ok (foodEntries_autoinc s), insertedFood now entry s).
Proof.
  intros Hc. unfold addFoodEntry.
  by rewrite (bind_ok _ _ _ _ _ (requireDb_connected s Hc)).
Qed.

Lemma upsertDailySummary_store tz s now userId date a :
  connected s = true ->
  upsertDailySummary tz now userId date (asTotals a) s =
    (Ok tt, upsertedSummary tz now userId date a s).
Proof.
  intros Hc. unfold upsertDailySummary, upsertedSummary, newSummary.
  rewrite (bind_ok _ _ _ _ _ (requireDb_connected s Hc)).
  rewrite (bind_ok _ _ _ _ _ (getDailySummary_run tz s userId date Hc)).
  destruct (head _); [done|].
  simpl. by rewrite or_default_int_zero, !or_default_zero.
Qed.

Lemma updateDailySummary_store tz s now userId date :
  connected s = true ->
  foodRouter.updateDailySummary tz now userId date s =
    (Ok tt, recomputed tz now userId date s).
Proof.
  intros Hc. unfold foodRouter.updateDailySummary.
  rewrite (bind_ok _ _ _ _ _ (getFoodEntriesByDate_run tz s userId date Hc)).
  by apply upsertDailySummary_store.
Qed.

Lemma upsertUserGoals_store s now userId data :
  connected s = true ->
  PartialUserGoals.noValues data = false ->
  upsertUserGoals now userId data s = (Ok tt, upsertedGoals now userId data s).
Proof.
  intros Hc Hdata. unfold upsertedGoals.
  destruct (head _) as [g0|] eqn:Hhead.
  - by eapply upsertUserGoals_update.
  - by apply upsertUserGoals_insert.
Qed.

(** [upsertUserGoals] writes, or throws and leaves the store as it was. *)
Lemma upsertUserGoals_cases s now userId data :
  connected s = true ->
  upsertUserGoals now userId data s = (Throw NoValuesToSet, s) \/
  upsertUserGoals now userId data s = (Ok tt, upsertedGoals now userId data s).
Proof.
  intros Hc. unfold upsertedGoals.
  destruct (head _) as [g0|] eqn:Hhead.
  - destruct (PartialUserGoals.noValues data) eqn:Hdata.
    + left. by eapply upsertUserGoals_noValues.
    + right. by eapply upsertUserGoals_update.
  - right. by apply upsertUserGoals_insert.
Qed.

Lemma addFood_store tz s now userId input :
  connected s = true ->
  AddFoodEntrySchema.issues input = [] ->
  foodRouter.addFood tz now userId input s =
    (Ok (foodEntries_autoinc s),
     recomputed tz now userId (AddFoodInput.date input)
       (insertedFood now (AddFoodEntrySchema.output userId input) s)).
Proof.
  intros Hc Hv. unfold foodRouter.addFood. rewrite Hv.
  rewrite (bind_ok _ _ s tt s) by done.
  rewrite (bind_ok _ _ _ _ _ (addFoodEntry_store s now _ Hc)).
  by rewrite (bind_ok _ _ _ _ _
       (updateDailySummary_store tz (insertedFood now _ s) now userId _ Hc)).
Qed.

(** The entry [analyzeImage] builds from an analysis. *)
Definition imageEntry (userId : UserId) (input : AnalyzeFoodImageInput.t)
    (a : Analysis.t) : InsertFoodEntry.t :=
  InsertFoodEntry.mk userId (Analysis.foodName a)
    (AnalyzeFoodImageInput.mealTime input)
    (JS.Math_round (Analysis.calories a))
    (Analysis.protein a) (Analysis.carbs a) (Analysis.fats a)
    (Some (Analysis.quantity a)) (Some (Analysis.unit a))
    (Some (AnalyzeFoodImageInput.imageUrl input)) None image
    (AnalyzeFoodImageInput.date input).

(** The entry [analyzeBarcode] builds from an analysis. *)
Definition barcodeEntry (userId : UserId) (input : AnalyzeBarcodeInput.t)
    (a : Analysis.t) : InsertFoodEntry.t :=
  InsertFoodEntry.mk userId (Analysis.foodName a)
    (AnalyzeBarcodeInput.mealTime input)
    (JS.Math_round (Analysis.calories a))
    (Analysis.protein a) (Analysis.carbs a) (Analysis.fats a)
    (Some (Analysis.quantity a)) (Some (Analysis.unit a))
    None (Some (AnalyzeBarcodeInput.barcode input)) barcode
    (AnalyzeBarcodeInput.date input).

Lemma analyzeImage_store tz s now userId input a :
  connected s = true ->
  foodRouter.analyzeImage tz now userId input (Response (Parsed a)) s =
    (Ok (mkAnalyzed true a (foodEntries_autoinc s)),
     recomputed tz now userId (AnalyzeFoodImageInput.date input)
       (insertedFood now (imageEntry userId input a) s)).
Proof.
  intros Hc. unfold foodRouter.analyzeImage, try_catch.
  rewrite (bind_ok _ _ s a s) by done.
  fold (imageEntry userId input a).
  rewrite (bind_ok _ _ _ _ _ (addFoodEntry_store s now _ Hc)).
  by rewrite (bind_ok _ _ _ _ _
       (updateDailySummary_store tz (insertedFood now _ s) now userId _ Hc)).
Qed.

Lemma analyzeBarcode_store tz s now userId input a :
  connected s = true ->
  foodRouter.analyzeBarcode tz now userId input (Response (Parsed a)) s =
    (Ok (mkAnalyzed true a (foodEntries_autoinc s)),
     recomputed tz now userId (AnalyzeBarcodeInput.date input)
       (insertedFood now (barcodeEntry userId input a) s)).
Proof.
  intros Hc. unfold foodRouter.analyzeBarcode, try_catch.
  rewrite (bind_ok _ _ s a s) by done.
  fold (barcodeEntry userId input a).
  rewrite (bind_ok _ _ _ _ _ (addFoodEntry_store s now _ Hc)).
  by rewrite (bind_ok _ _ _ _ _
       (updateDailySummary_store tz (insertedFood now _ s) now userId _ Hc)).
Qed.

Lemma analyze_unparsed_store tz s now userId image scan
    (reply : LLMReply Analysis.t) :
  (forall a, reply <> Response (Parsed a)) ->
  (foodRouter.analyzeImage tz now userId image reply s).2 = s /\
  (foodRouter.analyzeBarcode tz now userId scan reply s).2 = s.
Proof.
  intros Hr. unfold foodRouter.analyzeImage, foodRouter.analyzeBarcode, try_catch.
  destruct reply as [|[| |a]]; try done. by destruct (Hr a).
Qed.

(** ** Histories of requests *)

(** A mutating call of the food router, with the inputs it runs on. *)
Inductive Request :=
| AddFood (now : Date) (userId : UserId) (input : AddFoodInput.t)
| DeleteFood (userId : UserId) (id : Z)
| UpdateFood (now : Date) (userId : UserId) (id : Z) (data : UpdateFoodData.t)
| AnalyzeImage (now : Date) (userId : UserId) (input : AnalyzeFoodImageInput.t)
    (reply : LLMReply Analysis.t)
| AnalyzeBarcode (now : Date) (userId : UserId) (input : AnalyzeBarcodeInput.t)
    (reply : LLMReply Analysis.t)
| UpdateGoals (now : Date) (userId : UserId) (input : UpdateGoalsInput.t).

(** The store a request leaves behind, whether it succeeds or throws. *)
Definition exec (tz : Z) (r : Request) (s : Store) : Store :=
  match r with
  | AddFood now u input => (foodRouter.addFood tz now u input s).2
  | DeleteFood u id => (foodRouter.deleteFood u id s).2
  | UpdateFood now u id data => (foodRouter.updateFood now u id data s).2
  | AnalyzeImage now u input reply =>
      (foodRouter.analyzeImage tz now u input reply s).2
  | AnalyzeBarcode now u input reply =>
      (foodRouter.analyzeBarcode tz now u input reply s).2
  | UpdateGoals now u input => (foodRouter.updateGoals now u input s).2
  end.

Definition execAll (tz : Z) (rs : list Request) (s : Store) : Store :=
  fold_left (fun s r => exec tz r s) rs s.

(** The server clock a request reads, if it reads it. *)
Definition clockOf (r : Request) : option Date :=
  match r with
  | AddFood now _ _ | UpdateFood now _ _ _ | AnalyzeImage now _ _ _
  | AnalyzeBarcode now _ _ _ | UpdateGoals now _ _ => Some now
  | DeleteFood _ _ => None
  end.

(** What a request can do to the store at server time [now]: nothing, or
    one of five writes. *)
Inductive step (tz : Z) (now : Date) (s : Store) : Store -> Prop :=
| step_none : step tz now s s
| step_log u date entry :
    connected s = true ->
    InsertFoodEntry.userId entry = u ->
    InsertFoodEntry.date entry = date ->
    step tz now s (recomputed tz now u date (insertedFood now entry s))
| step_delete u id :
    step tz now s (set_foodEntries
                     (filter (fun e => ~ ownedRow id u e) (foodEntries s)) s)
| step_update u id data :
    step tz now s (set_foodEntries
                     (map (fun e => if decide (ownedRow id u e)
                                    then setFoodEntry now data e else e)
                          (foodEntries s)) s)
| step_goals u data :
    step tz now s (upsertedGoals now u data s).

Lemma exec_disconnected tz r s : connected s = false -> exec tz r s = s.
Proof.
  intros Hc.
  destruct r as [t u input|u id|t u id data|t u input reply
                |t u input reply|t u input]; simpl.
  + unfold foodRouter.addFood.
    destruct (AddFoodEntrySchema.issues input) as [|i l] eqn:Hv.
    * rewrite (bind_ok _ _ s tt s) by done.
      unfold addFoodEntry.
      by erewrite bind_throw by (by apply requireDb_bind_disconnected).
    * by rewrite (bind_throw _ _ s (BAD_REQUEST (i :: l)) s).
  + unfold foodRouter.deleteFood, deleteFoodEntry.
    by erewrite bind_throw by (by apply requireDb_bind_disconnected).
  + unfold foodRouter.updateFood.
    destruct (UpdateFoodData.issues data) as [|i l] eqn:Hv.
    * rewrite (bind_ok _ _ s tt s) by done.
      unfold updateFoodEntry.
      by erewrite bind_throw by (by apply requireDb_bind_disconnected).
    * by rewrite (bind_throw _ _ s (BAD_REQUEST (i :: l)) s).
  + destruct reply as [|[| |a]]; try done.
    unfold foodRouter.analyzeImage, try_catch.
    rewrite (bind_ok _ _ s a s) by done. unfold addFoodEntry.
    by erewrite bind_throw by (by apply requireDb_bind_disconnected).
  + destruct reply as [|[| |a]]; try done.
    unfold foodRouter.analyzeBarcode, try_catch.
    rewrite (bind_ok _ _ s a s) by done. unfold addFoodEntry.
    by erewrite bind_throw by (by apply requireDb_bind_disconnected).
  + unfold foodRouter.updateGoals.
    destruct (UpdateGoalsInput.issues input) as [|i l] eqn:Hv.
    * rewrite (bind_ok _ _ s tt s) by done.
      unfold upsertUserGoals.
      by rewrite requireDb_bind_disconnected.
    * by rewrite (bind_throw _ _ s (BAD_REQUEST (i :: l)) s).
Qed.

Lemma exec_step tz r s now :
  (forall t, clockOf r = Some t -> t = now) ->
  step tz now s (exec tz r s).
Proof.
  intros Hnow.
  assert (forall t, clockOf r = Some t -> now = t) as Hclock
    by (intros t Ht; symmetry; by apply Hnow).
  clear Hnow.
  destruct (connected s) eqn:Hc.
  - destruct r as [t u input|u id|t u id data|t u input reply
                  |t u input reply|t u input]; simpl;
      try (rewrite <- (Hclock t eq_refl)).
    + destruct (AddFoodEntrySchema.issues input) as [|i l] eqn:Hv.
      * rewrite addFood_store by done. by eapply step_log.
      * unfold foodRouter.addFood. rewrite Hv.
        rewrite (bind_throw _ _ s (BAD_REQUEST (i :: l)) s) by done.
        constructor.
    + rewrite deleteFood_run by done. constructor.
    + destruct (updateFood_store s now u id data Hc) as [->| ->];
        constructor.
    + destruct reply as [|[| |a]]; try apply step_none.
      rewrite analyzeImage_store by done. by eapply step_log.
    + destruct reply as [|[| |a]]; try apply step_none.
      rewrite analyzeBarcode_store by done. by eapply step_log.
    + unfold foodRouter.updateGoals.
      destruct (UpdateGoalsInput.issues input) as [|i l] eqn:Hv.
      * rewrite (bind_ok _ _ s tt s) by done.
        destruct (upsertUserGoals_cases s now u
                    (UpdateGoalsInput.output input) Hc) as [-> | ->];
          constructor.
      * rewrite (bind_throw _ _ s (BAD_REQUEST (i :: l)) s) by done.
        constructor.
  - rewrite exec_disconnected by done. constructor.
Qed.

(** ** Keys *)

(** The key constraints of [drizzle/schema.ts] and the auto-increment
    counters: [id] is a primary key of each table and lies below the
    table's counter, [userId] is unique in [userGoals], and
    [dailySummary] holds one row per user and day start. *)
Record wellKeyed (s : Store) : Prop := mkWellKeyed {
  food_ids : primaryKey (foodEntries s);
  food_fresh :
    Forall (fun e => FoodEntry.id e < foodEntries_autoinc s) (foodEntries s);
  summary_ids : NoDup (DailySummary.id <$> dailySummary s);
  summary_fresh :
    Forall (fun r => DailySummary.id r < dailySummary_autoinc s)
           (dailySummary s);
  summary_days :
    NoDup ((fun r => (DailySummary.userId r, DailySummary.date r))
             <$> dailySummary s);
  goals_ids : NoDup (UserGoals.id <$> userGoals s);
  goals_fresh :
    Forall (fun g => UserGoals.id g < userGoals_autoinc s) (userGoals s);
  goals_users : NoDup (UserGoals.userId <$> userGoals s)
}.

Lemma fmap_map_same {A B} (f : A -> B) (g : A -> A) (l : list A) :
  (forall x, f (g x) = f x) -> f <$> map g l = f <$> l.
Proof.
  intros Hfg. induction l as [|x l IH]; [done|].
  cbn [map]. by rewrite !fmap_cons, Hfg, IH.
Qed.

Lemma NoDup_fmap_filter {A B} (f : A -> B) (P : A -> Prop)
    `{!forall x, Decision (P x)} (l : list A) :
  NoDup (f <$> l) -> NoDup (f <$> filter P l).
Proof.
  induction l as [|x l IH]; [done|].
  rewrite fmap_cons, NoDup_cons. intros [Hx Hl].
  rewrite filter_cons. case_decide; [|by apply IH].
  rewrite fmap_cons, NoDup_cons. split; [|by apply IH].
  intros (y & Hy & [_ Hin]%list_elem_of_filter)%list_elem_of_fmap.
  apply Hx. rewrite Hy. by apply list_elem_of_fmap_2.
Qed.

Lemma NoDup_fmap_snoc {A B} (f : A -> B) (l : list A) (x : A) :
  NoDup (f <$> l) -> (forall y, y ∈ l -> f y <> f x) ->
  NoDup (f <$> (l ++ [x])).
Proof.
  intros Hl Hx. rewrite fmap_app. apply NoDup_app.
  split; [done|]. split; [|apply NoDup_singleton].
  intros b (y & -> & Hy)%list_elem_of_fmap Hb.
  apply list_elem_of_singleton in Hb. by apply (Hx y).
Qed.

Lemma fresh_snoc {A} (key : A -> Z) (n : Z) (l : list A) (x : A) :
  Forall (fun y => key y < n) l -> key x = n ->
  NoDup (key <$> l) ->
  NoDup (key <$> (l ++ [x])) /\ Forall (fun y => key y < n + 1) (l ++ [x]).
Proof.
  intros Hl Hx Hnd. split.
  - apply NoDup_fmap_snoc; [done|].
    intros y Hy. rewrite Forall_forall in Hl. specialize (Hl y Hy). lia.
  - apply Forall_app. split.
    + eapply Forall_impl; [exact Hl|]. intros y Hy. simpl in Hy. lia.
    + apply Forall_singleton. lia.
Qed.

Lemma Forall_map_same {A} (P : A -> Prop) (g : A -> A) (l : list A) :
  (forall x, P x -> P (g x)) -> Forall P l -> Forall P (map g l).
Proof.
  intros Hg Hl. induction Hl; simpl; constructor; auto.
Qed.

Lemma Forall_filter_same {A} (P Q : A -> Prop) `{!forall x, Decision (Q x)}
    (l : list A) :
  Forall P l -> Forall P (filter Q l).
Proof.
  rewrite !Forall_forall. intros Hl x [_ Hx]%list_elem_of_filter. by apply Hl.
Qed.

Lemma head_filter_None {A} (P : A -> Prop) `{!forall x, Decision (P x)}
    (l : list A) x :
  head (filter P l) = None -> x ∈ l -> ~ P x.
Proof.
  intros Hnone%head_None Hx HP.
  assert (x ∈ filter P l) as Hin by (by apply list_elem_of_filter).
  rewrite Hnone in Hin. by apply elem_of_nil in Hin.
Qed.

Lemma upsertedSummary_wellKeyed tz now u date a s :
  wellKeyed s -> wellKeyed (upsertedSummary tz now u date a s).
Proof.
  intros [F1 F2 S1 S2 S3 G1 G2 G3]. unfold upsertedSummary.
  destruct (head _) as [row|] eqn:Hhead.
  - constructor; simpl; try done.
    + rewrite fmap_map_same; [done|]. intros r. by case_decide.
    + apply Forall_map_same; [|done]. intros r Hr. by case_decide.
    + rewrite fmap_map_same; [done|]. intros r. by case_decide.
  - destruct (fresh_snoc DailySummary.id (dailySummary_autoinc s)
                (dailySummary s)
                (newSummary now (dailySummary_autoinc s) u
                            (setHours tz 0 0 0 0 date) a) S2 eq_refl S1)
      as [S1' S2'].
    constructor; simpl; try done.
    apply NoDup_fmap_snoc; [done|].
    intros r Hr Heq. simpl in Heq.
    apply (head_filter_None _ _ r Hhead Hr).
    injection Heq as Hu Hd. by split.
Qed.

Lemma upsertedGoals_wellKeyed now u data s :
  wellKeyed s -> wellKeyed (upsertedGoals now u data s).
Proof.
  intros [F1 F2 S1 S2 S3 G1 G2 G3]. unfold upsertedGoals.
  destruct (head _) as [row|] eqn:Hhead.
  - constructor; simpl; try done.
    + rewrite fmap_map_same; [done|]. intros g. by case_decide.
    + apply Forall_map_same; [|done]. intros g Hg. by case_decide.
    + rewrite fmap_map_same; [done|]. intros g. by case_decide.
  - destruct (fresh_snoc UserGoals.id (userGoals_autoinc s) (userGoals s)
                (newGoals now (userGoals_autoinc s) u data) G2 eq_refl G1)
      as [G1' G2'].
    constructor; simpl; try done.
    apply NoDup_fmap_snoc; [done|].
    intros g Hg Heq. simpl in Heq.
    by apply (head_filter_None _ _ g Hhead Hg).
Qed.

Lemma insertedFood_wellKeyed now entry s :
  wellKeyed s -> wellKeyed (insertedFood now entry s).
Proof.
  intros [F1 F2 S1 S2 S3 G1 G2 G3].
  destruct (fresh_snoc FoodEntry.id (foodEntries_autoinc s) (foodEntries s)
              (newFoodEntry now (foodEntries_autoinc s) entry) F2 eq_refl F1)
    as [F1' F2'].
  by constructor.
Qed.

Lemma step_wellKeyed tz now s s' : step tz now s s' -> wellKeyed s -> wellKeyed s'.
Proof.
  intros Hstep Hs. destruct Hstep as [|u date entry _ _ _|u id|u id data|u data].
  - done.
  - by apply upsertedSummary_wellKeyed, insertedFood_wellKeyed.
  - destruct Hs as [F1 F2 S1 S2 S3 G1 G2 G3]. constructor; simpl; try done.
    + by apply NoDup_fmap_filter.
    + by apply Forall_filter_same.
  - destruct Hs as [F1 F2 S1 S2 S3 G1 G2 G3]. constructor; simpl; try done.
    + unfold primaryKey. rewrite fmap_map_same; [done|].
      intros e. by case_decide.
    + apply Forall_map_same; [|done]. intros e He. by case_decide.
  - by apply upsertedGoals_wellKeyed.
Qed.

(** X2. Every mutating procedure, whatever its input and whether it succeeds
    or throws, keeps the key constraints of the three tables: ids stay
    unique and below the auto-increment counters, a user keeps at most
    one goals row, and a user's day keeps at most one summary row. *)
Theorem requests_keep_keys tz (rs : list Request) s :
  wellKeyed s -> wellKeyed (execAll tz rs s).
Proof.
  revert s. induction rs as [|r rs IH]; intros s Hs; [done|].
  simpl. apply IH.
  destruct (clockOf r) as [t|] eqn:Hr.
  - apply (step_wellKeyed tz t s); [|done].
    apply exec_step. intros t' Ht'. congruence.
  - apply (step_wellKeyed tz 0 s); [|done].
    apply exec_step. intros t' Ht'. congruence.
Qed.

(** A request either leaves the store as it is, or performs the write of
    its procedure. *)
Lemma exec_cases tz r s :
  exec tz r s = s \/
  match r with
  | AddFood now u input =>
      connected s = true /\ AddFoodEntrySchema.issues input = [] /\
      exec tz r s =
        recomputed tz now u (AddFoodInput.date input)
          (insertedFood now (AddFoodEntrySchema.output u input) s)
  | DeleteFood u id =>
      connected s = true /\
      exec tz r s =
        set_foodEntries (filter (fun e => ~ ownedRow id u e) (foodEntries s)) s
  | UpdateFood now u id data =>
      connected s = true /\ UpdateFoodData.issues data = [] /\
      exec tz r s =
        set_foodEntries
          (map (fun e => if decide (ownedRow id u e)
                         then setFoodEntry now (UpdateFoodData.output data) e
                         else e) (foodEntries s)) s
  | AnalyzeImage now u input reply =>
      exists a,
        reply = Response (Parsed a) /\ connected s = true /\
        exec tz r s =
          recomputed tz now u (AnalyzeFoodImageInput.date input)
            (insertedFood now (imageEntry u input a) s)
  | AnalyzeBarcode now u input reply =>
      exists a,
        reply = Response (Parsed a) /\ connected s = true /\
        exec tz r s =
          recomputed tz now u (AnalyzeBarcodeInput.date input)
            (insertedFood now (barcodeEntry u input a) s)
  | UpdateGoals now u input =>
      connected s = true /\ UpdateGoalsInput.issues input = [] /\
      exec tz r s = upsertedGoals now u (UpdateGoalsInput.output input) s
  end.
Proof.
  destruct (connected s) eqn:Hc.
  - destruct r as [t u input|u id|t u id data|t u input reply
                  |t u input reply|t u input]; simpl.
    + destruct (AddFoodEntrySchema.issues input) as [|i l] eqn:Hv.
      * right. by rewrite addFood_store.
      * left. unfold foodRouter.addFood. rewrite Hv.
        by rewrite (bind_throw _ _ s (BAD_REQUEST (i :: l)) s).
    + right. by rewrite deleteFood_run.
    + destruct (UpdateFoodData.issues data) as [|i l] eqn:Hv.
      * right. by rewrite updateFood_run.
      * left. unfold foodRouter.updateFood. rewrite Hv.
        by rewrite (bind_throw _ _ s (BAD_REQUEST (i :: l)) s).
    + destruct reply as [|[| |a]]; try (by left).
      right. exists a. by rewrite analyzeImage_store.
    + destruct reply as [|[| |a]]; try (by left).
      right. exists a. by rewrite analyzeBarcode_store.
    + unfold foodRouter.updateGoals.
      destruct (UpdateGoalsInput.issues input) as [|i l] eqn:Hv.
      * rewrite (bind_ok _ _ s tt s) by done.
        destruct (upsertUserGoals_cases s t u
                    (UpdateGoalsInput.output input) Hc) as [-> | ->];
          [by left|by right].
      * left. by rewrite (bind_throw _ _ s (BAD_REQUEST (i :: l)) s).
  - left. by apply exec_disconnected.
Qed.

Lemma upsertedSummary_frame tz now u date a s :
  connected (upsertedSummary tz now u date a s) = connected s /\
  foodEntries (upsertedSummary tz now u date a s) = foodEntries s /\
  foodEntries_autoinc (upsertedSummary tz now u date a s)
    = foodEntries_autoinc s /\
  userGoals (upsertedSummary tz now u date a s) = userGoals s.
Proof. unfold upsertedSummary. by destruct (head _). Qed.

Lemma step_connected tz now s s' : step tz now s s' -> connected s' = connected s.
Proof.
  intros [|u date entry _ _ _|u id|u id data|u data]; try done.
  - unfold recomputed. by rewrite (proj1 (upsertedSummary_frame _ _ _ _ _ _)).
  - unfold upsertedGoals. by destruct (head _).
Qed.

Lemma execAll_connected tz rs s : connected (execAll tz rs s) = connected s.
Proof.
  revert s. induction rs as [|r rs IH]; intros s; [done|].
  simpl. rewrite IH.
  apply (step_connected tz (default 0 (clockOf r))), exec_step.
  by intros t ->.
Qed.

(** ** Creation order *)

(** The table is in creation order and no row was created after [t]. *)
Definition chronological (t : Date) (s : Store) : Prop :=
  StronglySorted (key_le FoodEntry.createdAt) (foodEntries s) /\
  Forall (fun e => FoodEntry.createdAt e <= t) (foodEntries s).

(** The requests read a clock that does not run backwards from [t]. *)
Fixpoint paced (t : Date) (rs : list Request) : Prop :=
  match rs with
  | [] => True
  | r :: rs' =>
      match clockOf r with
      | Some now => t <= now /\ paced now rs'
      | None => paced t rs'
      end
  end.

Lemma sorted_map_same {A} (key : A -> Z) (g : A -> A) (l : list A) :
  (forall x, key (g x) = key x) ->
  StronglySorted (key_le key) l -> StronglySorted (key_le key) (map g l).
Proof.
  intros Hg Hl. induction Hl as [|x l Hl IH Hx]; simpl; constructor; [done|].
  rewrite Forall_forall in Hx |- *.
  intros y (z & -> & Hz)%list_elem_of_fmap.
  unfold key_le. rewrite !Hg. by apply Hx.
Qed.

Lemma sorted_snoc {A} (key : A -> Z) (l : list A) (x : A) :
  StronglySorted (key_le key) l ->
  Forall (fun y => key y <= key x) l ->
  StronglySorted (key_le key) (l ++ [x]).
Proof.
  intros Hl Hx. apply StronglySorted_app.
  split; [|split; [done|repeat constructor]].
  intros y z Hy ->%list_elem_of_singleton.
  rewrite Forall_forall in Hx. by apply Hx.
Qed.

Lemma step_chronological tz t now s s' :
  step tz now s s' -> t <= now -> chronological t s -> chronological now s'.
Proof.
  intros Hstep Ht [Hsorted Hold].
  assert (Forall (fun e => FoodEntry.createdAt e <= now) (foodEntries s))
    as Hold'.
  { eapply Forall_impl; [exact Hold|]. intros e He. simpl in He. lia. }
  destruct Hstep as [|u date entry _ _ _|u id|u id data|u data].
  - by split.
  - unfold chronological, recomputed.
    rewrite (proj1 (proj2 (upsertedSummary_frame _ _ _ _ _ _))). simpl.
    split.
    + by apply sorted_snoc.
    + apply Forall_app. split; [done|]. by apply Forall_singleton.
  - split; simpl.
    + by apply filter_sorted.
    + by apply Forall_filter_same.
  - split; simpl.
    + apply sorted_map_same; [|done]. intros e. by case_decide.
    + apply Forall_map_same; [|done]. intros e He. by case_decide.
  - unfold chronological, upsertedGoals. by destruct (head _).
Qed.

Lemma execAll_chronological tz rs t s :
  paced t rs -> chronological t s ->
  exists t', chronological t' (execAll tz rs s).
Proof.
  revert t s. induction rs as [|r rs IH]; intros t s Hp Hs; [by exists t|].
  simpl in *. destruct (clockOf r) as [now|] eqn:Hr.
  - destruct Hp as [Ht Hp]. apply (IH now); [done|].
    apply (step_chronological tz t now s); [|done..].
    apply exec_step. intros t' Ht'. congruence.
  - apply (IH t); [done|].
    apply (step_chronological tz t t s); [|lia|done].
    apply exec_step. intros t' Ht'. congruence.
Qed.

(** X3. After any history of requests whose clock does not run backwards,
    started on a store in creation order, [getFoodsByDate] returns the
    caller's entries of the day in the order of the table, which is the
    order in which they were inserted. *)
Theorem history_in_insertion_order tz (rs : list Request) t s userId date :
  connected s = true ->
  chronological t s ->
  paced t rs ->
  let s' := execAll tz rs s in
  foodRouter.getFoodsByDate tz userId date s' =
    (Ok (filter (inDay userId (setHours tz 0 0 0 0 date)
                       (setHours tz 23 59 59 999 date)) (foodEntries s')), s').
Proof.
  intros Hc Hs Hp s'.
  destruct (execAll_chronological tz rs t s Hp Hs) as (t' & Hsorted & _).
  unfold foodRouter.getFoodsByDate.
  rewrite getFoodEntriesByDate_run by (by unfold s'; rewrite execAll_connected).
  rewrite orderBy_id; [done|]. by apply filter_sorted.
Qed.

(** ** Summaries along histories that only add *)

(** What the [getDailySummary] procedure answers on a connected store. *)
Definition summaryView (tz : Z) (userId : UserId) (date : Date) (s : Store)
    : SummaryResult :=
  match head (filter (summaryKey userId (setHours tz 0 0 0 0 date))
                     (dailySummary s)) with
  | Some row => SummaryRow row
  | None => SummaryObject 0 0%Qc 0%Qc 0%Qc
  end.

Lemma summary_consistent_iff tz s userId date :
  connected s = true ->
  summary_consistent tz s userId date <->
  totalsOf (summaryView tz userId date s) = sums (dayEntries tz userId date s).
Proof.
  intros Hc. unfold summary_consistent, foodRouter.getFoodsByDate,
    foodRouter.getDailySummary.
  rewrite getFoodEntriesByDate_run by done.
  rewrite (bind_ok _ _ _ _ _ (getDailySummary_run tz s userId date Hc)).
  fold (dayEntries tz userId date s). unfold summaryView.
  split.
  - intros (entries & summary & [= <-] & Hsum & Htot).
    destruct (head _); by injection Hsum as <-.
  - intros Htot. eexists _, _. split; [done|]. split; [|exact Htot].
    by destruct (head _).
Qed.

Lemma setHours_unique tz m d :
  (m + tz) `mod` MS_PER_DAY = 0 ->
  m <= d < m + MS_PER_DAY ->
  setHours tz 0 0 0 0 d = m.
Proof.
  unfold setHours, MS_PER_DAY. intros Hm Hd.
  apply Z.mod_divide in Hm as [q Hq]; [|lia].
  replace (d + tz) with ((d - m) + q * 86400000) by lia.
  rewrite Z.mod_add by lia. rewrite Z.mod_small by lia. lia.
Qed.

Lemma inDay_midnight tz u d e :
  inDay u (setHours tz 0 0 0 0 d) (setHours tz 23 59 59 999 d) e ->
  FoodEntry.userId e = u /\
  setHours tz 0 0 0 0 (FoodEntry.date e) = setHours tz 0 0 0 0 d.
Proof.
  rewrite setHours_end_of_day. intros (Hu & Hlo & Hhi). split; [done|].
  destruct (setHours_midnight tz d) as [Hm _].
  apply setHours_unique; [done|]. unfold MS_PER_DAY. lia.
Qed.

Lemma dayEntries_same_midnight tz u d d' s :
  setHours tz 0 0 0 0 d' = setHours tz 0 0 0 0 d ->
  dayEntries tz u d' s = dayEntries tz u d s.
Proof.
  intros Hm. unfold dayEntries. by rewrite !setHours_end_of_day, Hm.
Qed.

Lemma filter_snoc_False {A} (P : A -> Prop) `{!forall x, Decision (P x)}
    (l : list A) x :
  ~ P x -> filter P (l ++ [x]) = filter P l.
Proof.
  intros Hx. rewrite filter_app, (filter_cons_False _ _ _ Hx).
  by rewrite filter_nil, app_nil_r.
Qed.

Lemma filter_map_untouched {A} (P : A -> Prop) `{!forall x, Decision (P x)}
    (g : A -> A) (l : list A) :
  (forall x, x ∈ l -> g x = x \/ (~ P x /\ ~ P (g x))) ->
  filter P (map g l) = filter P l.
Proof.
  induction l as [|x l IH]; intros Hg; [done|].
  simpl. rewrite !filter_cons.
  rewrite IH by (intros y Hy; apply Hg; by right).
  destruct (Hg x ltac:(left)) as [->|[Hx Hgx]]; [done|].
  by rewrite !decide_False.
Qed.

(** A recompute of one user's day leaves the entries and the summary of
    every other user and day as they were. *)
Lemma recomputed_other_day tz now u date u' d' s :
  wellKeyed s ->
  ~ (u' = u /\ setHours tz 0 0 0 0 d' = setHours tz 0 0 0 0 date) ->
  summaryView tz u' d' (recomputed tz now u date s) = summaryView tz u' d' s.
Proof.
  intros Hs Hother. unfold summaryView, recomputed, upsertedSummary.
  destruct (head (filter (summaryKey u _) _)) as [row0|] eqn:Hhead.
  - simpl. rewrite filter_map_untouched; [done|].
    intros r Hr. case_decide as Hid; [right|by left].
    pose proof (head_Some_elem_of _ _ Hhead) as Hrow0.
    apply list_elem_of_filter in Hrow0 as [[Hu Hd] Hin].
    assert (DailySummary.userId r = u /\
            DailySummary.date r = setHours tz 0 0 0 0 date) as [Hru Hrd].
    { clear Hother. destruct Hs as [_ _ S1 _ _ _ _ _].
      revert Hr Hin Hid S1. generalize (dailySummary s). intros l.
      induction l as [|x l IH]; [by intros ?%elem_of_nil|].
      rewrite fmap_cons, NoDup_cons.
      intros [->|Hr]%elem_of_cons [->|Hin]%elem_of_cons Hid [Hx Hl]; try done.
      - destruct Hx. rewrite Hid. by apply list_elem_of_fmap_2.
      - destruct Hx. rewrite <- Hid. by apply list_elem_of_fmap_2.
      - by apply IH. }
    split; intros [Hk1 Hk2]; simpl in *; apply Hother; split; congruence.
  - simpl. rewrite filter_snoc_False; [done|].
    intros [Hk1 Hk2]. simpl in *. apply Hother. split; congruence.
Qed.

Lemma insertedFood_other_day tz now entry u' d' s :
  ~ (u' = InsertFoodEntry.userId entry /\
     setHours tz 0 0 0 0 d' = setHours tz 0 0 0 0 (InsertFoodEntry.date entry)) ->
  dayEntries tz u' d' (insertedFood now entry s) = dayEntries tz u' d' s.
Proof.
  intros Hother. unfold dayEntries, insertedFood. simpl.
  rewrite filter_snoc_False; [done|].
  intros [Hu Hd]%inDay_midnight. simpl in *. apply Hother. by split.
Qed.

Definition all_consistent (tz : Z) (s : Store) : Prop :=
  forall userId date, summary_consistent tz s userId date.

Lemma logged_all_consistent tz now u date entry s :
  connected s = true ->
  wellKeyed s ->
  InsertFoodEntry.userId entry = u ->
  InsertFoodEntry.date entry = date ->
  all_consistent tz s ->
  all_consistent tz (recomputed tz now u date (insertedFood now entry s)).
Proof.
  intros Hc Hs Hu Hd Hall u' d'.
  set (s1 := insertedFood now entry s).
  assert (connected s1 = true) as Hc1 by done.
  destruct (decide (u' = u /\
              setHours tz 0 0 0 0 d' = setHours tz 0 0 0 0 date))
    as [[-> Hm]|Hother].
  - destruct (updateDailySummary_consistent tz s1 now u date Hc1)
      as (s2 & Hrun & Hc2 & _ & _ & Hcons).
    rewrite updateDailySummary_store in Hrun by done.
    injection Hrun as <-.
    apply summary_consistent_iff in Hcons; [|done].
    apply summary_consistent_iff; [done|].
    rewrite (dayEntries_same_midnight tz u date d') by done.
    unfold summaryView in *. by rewrite Hm.
  - assert (connected (recomputed tz now u date s1) = true) as Hc2.
    { unfold recomputed.
      by rewrite (proj1 (upsertedSummary_frame _ _ _ _ _ _)). }
    apply summary_consistent_iff; [done|].
    rewrite recomputed_other_day;
      [|by apply insertedFood_wellKeyed|done].
    unfold dayEntries at 1, recomputed.
    rewrite (proj1 (proj2 (upsertedSummary_frame _ _ _ _ _ _))).
    fold (dayEntries tz u' d' s1).
    unfold s1. rewrite insertedFood_other_day by (by rewrite Hu, Hd).
    change (summaryView tz u' d' (insertedFood now entry s))
      with (summaryView tz u' d' s).
    apply summary_consistent_iff; [done|]. apply Hall.
Qed.

Lemma goals_all_consistent tz now u data s :
  connected s = true ->
  all_consistent tz s -> all_consistent tz (upsertedGoals now u data s).
Proof.
  intros Hc Hall u' d'.
  assert (connected (upsertedGoals now u data s) = true) as Hc'
    by (unfold upsertedGoals; by destruct (head _)).
  apply summary_consistent_iff; [done|].
  specialize (Hall u' d'). apply summary_consistent_iff in Hall; [|done].
  unfold summaryView, dayEntries, upsertedGoals in *.
  by destruct (head (filter _ (userGoals s))).
Qed.

(** The requests that add to the log or set goals. *)
Definition adding (r : Request) : Prop :=
  match r with
  | DeleteFood _ _ | UpdateFood _ _ _ _ => False
  | _ => True
  end.

(** X4. Along any history made of [addFood], [analyzeImage], [analyzeBarcode]
    and [updateGoals] calls, by any users, on any days, with any inputs
    and estimator replies, every summary keeps agreeing with its day:
    for every user and date, the totals [getDailySummary] reports are the
    sums over the entries [getFoodsByDate] returns. *)
Theorem adding_histories_keep_summaries tz (rs : list Request) s :
  connected s = true ->
  wellKeyed s ->
  all_consistent tz s ->
  Forall adding rs ->
  forall userId date, summary_consistent tz (execAll tz rs s) userId date.
Proof.
  revert s. induction rs as [|r rs IH]; intros s Hc Hs Hall Hadd; [done|].
  apply Forall_cons in Hadd as [Hr Hadd].
  simpl. apply IH; [| | |done].
  - rewrite (step_connected tz (default 0 (clockOf r)) s); [done|].
    apply exec_step. by intros t ->.
  - apply (step_wellKeyed tz (default 0 (clockOf r)) s); [|done].
    apply exec_step. by intros t ->.
  - destruct (exec_cases tz r s) as [->|Hcase]; [done|].
    destruct r as [t u input|u id|t u id data|t u input reply
                  |t u input reply|t u input]; try done.
    + destruct Hcase as (_ & _ & ->). by apply logged_all_consistent.
    + destruct Hcase as (a & _ & _ & ->). by apply logged_all_consistent.
    + destruct Hcase as (a & _ & _ & ->). by apply logged_all_consistent.
    + destruct Hcase as (_ & _ & ->). by apply goals_all_consistent.
Qed.

(** ** Adding an entry *)

Lemma sums_app l k :
  sums (l ++ k) =
    Acc.mk (Acc.totalCalories (sums l) + Acc.totalCalories (sums k))
           (Acc.totalProtein (sums l) + Acc.totalProtein (sums k))%Qc
           (Acc.totalCarbs (sums l) + Acc.totalCarbs (sums k))%Qc
           (Acc.totalFats (sums l) + Acc.totalFats (sums k))%Qc.
Proof.
  rewrite <- !reduceTotals_sums. unfold reduceTotals.
  rewrite fold_left_app, !fold_addToTotals. simpl.
  rewrite !Qcplus_0_l. done.
Qed.

Lemma sums_Permutation l k : l ≡ₚ k -> sums l = sums k.
Proof.
  induction 1 as [|x l k _ IH|x y l|l k m _ IH1 _ IH2].
  - done.
  - change (x :: l) with ([x] ++ l). change (x :: k) with ([x] ++ k).
    by rewrite !sums_app, IH.
  - change (y :: x :: l) with ([y] ++ [x] ++ l).
    change (x :: y :: l) with ([x] ++ [y] ++ l).
    rewrite !sums_app. simpl.
    f_equal; [lia | ring | ring | ring].
  - by rewrite IH1.
Qed.

Lemma own_entry_inDay tz now id entry :
  inDay (InsertFoodEntry.userId entry)
        (setHours tz 0 0 0 0 (InsertFoodEntry.date entry))
        (setHours tz 23 59 59 999 (InsertFoodEntry.date entry))
        (newFoodEntry now id entry).
Proof.
  rewrite setHours_end_of_day.
  destruct (setHours_midnight tz (InsertFoodEntry.date entry)) as [_ Hd].
  unfold MS_PER_DAY in Hd. unfold inDay. simpl. lia.
Qed.

Lemma dayEntries_insertedFood tz now entry s :
  dayEntries tz (InsertFoodEntry.userId entry) (InsertFoodEntry.date entry)
             (insertedFood now entry s)
  ≡ₚ dayEntries tz (InsertFoodEntry.userId entry) (InsertFoodEntry.date entry) s
     ++ [newFoodEntry now (foodEntries_autoinc s) entry].
Proof.
  unfold dayEntries, insertedFood. simpl.
  rewrite !orderBy_Permutation, filter_app.
  by rewrite (filter_cons_True _ _ _ (own_entry_inDay tz now _ entry)).
Qed.

Lemma dayEntries_recomputed tz now u date u' d' s :
  dayEntries tz u' d' (recomputed tz now u date s) = dayEntries tz u' d' s.
Proof.
  unfold dayEntries, recomputed.
  by rewrite (proj1 (proj2 (upsertedSummary_frame _ _ _ _ _ _))).
Qed.


(** What an accepted [addFood] input adds to the totals of its day. *)
Definition inputTotals (input : AddFoodInput.t) : Acc.t :=
  Acc.mk (JS.to_int (AddFoodInput.calories input))
         (AddFoodInput.protein input) (AddFoodInput.carbs input)
         (AddFoodInput.fats input).

Definition plusTotals (a b : Acc.t) : Acc.t :=
  Acc.mk (Acc.totalCalories a + Acc.totalCalories b)
         (Acc.totalProtein a + Acc.totalProtein b)%Qc
         (Acc.totalCarbs a + Acc.totalCarbs b)%Qc
         (Acc.totalFats a + Acc.totalFats b)%Qc.

Lemma addFood_summaryView tz s now userId input :
  connected s = true ->
  totalsOf (summaryView tz userId (AddFoodInput.date input)
              (recomputed tz now userId (AddFoodInput.date input)
                 (insertedFood now (AddFoodEntrySchema.output userId input) s)))
  = plusTotals (sums (dayEntries tz userId (AddFoodInput.date input) s))
               (inputTotals input).
Proof.
  intros Hc.
  set (s1 := insertedFood now (AddFoodEntrySchema.output userId input) s).
  destruct (updateDailySummary_consistent tz s1 now userId
              (AddFoodInput.date input) Hc)
    as (s2 & Hrun & Hc2 & _ & _ & Hcons).
  rewrite updateDailySummary_store in Hrun by done.
  injection Hrun as <-.
  apply summary_consistent_iff in Hcons; [|done].
  rewrite Hcons, dayEntries_recomputed.
  assert (dayEntries tz userId (AddFoodInput.date input) s1
          ≡ₚ dayEntries tz userId (AddFoodInput.date input) s
             ++ [newFoodEntry now (foodEntries_autoinc s)
                   (AddFoodEntrySchema.output userId input)]) as Hperm
    by exact (dayEntries_insertedFood tz now
                (AddFoodEntrySchema.output userId input) s).
  rewrite (sums_Permutation _ _ Hperm).
  rewrite sums_app. unfold plusTotals, inputTotals, sums. simpl.
  by rewrite !Qcplus_0_r, Z.add_0_r.
Qed.


Lemma addFood_dayEntries_sums tz s now userId input :
  sums (dayEntries tz userId (AddFoodInput.date input)
          (recomputed tz now userId (AddFoodInput.date input)
             (insertedFood now (AddFoodEntrySchema.output userId input) s)))
  = plusTotals (sums (dayEntries tz userId (AddFoodInput.date input) s))
               (inputTotals input).
Proof.
  rewrite dayEntries_recomputed.
  assert (dayEntries tz userId (AddFoodInput.date input)
            (insertedFood now (AddFoodEntrySchema.output userId input) s)
          ≡ₚ dayEntries tz userId (AddFoodInput.date input) s
             ++ [newFoodEntry now (foodEntries_autoinc s)
                   (AddFoodEntrySchema.output userId input)]) as Hperm
    by exact (dayEntries_insertedFood tz now
                (AddFoodEntrySchema.output userId input) s).
  rewrite (sums_Permutation _ _ Hperm), sums_app.
  unfold plusTotals, inputTotals, sums. simpl.
  by rewrite !Qcplus_0_r, Z.add_0_r.
Qed.

Lemma summaryView_same_midnight tz u d d' s :
  setHours tz 0 0 0 0 d' = setHours tz 0 0 0 0 d ->
  summaryView tz u d' s = summaryView tz u d s.
Proof. intros Hm. unfold summaryView. by rewrite Hm. Qed.

Lemma plusTotals_swap S a b :
  plusTotals (plusTotals S a) b = plusTotals (plusTotals S b) a.
Proof. unfold plusTotals. simpl. f_equal; [lia | ring | ring | ring]. Qed.

Lemma recomputed_connected tz now u date s :
  connected (recomputed tz now u date s) = connected s.
Proof. unfold recomputed. by rewrite (proj1 (upsertedSummary_frame _ _ _ _ _ _)). Qed.

Lemma exec_addFood tz s now userId input :
  connected s = true ->
  AddFoodEntrySchema.issues input = [] ->
  exec tz (AddFood now userId input) s =
    recomputed tz now userId (AddFoodInput.date input)
      (insertedFood now (AddFoodEntrySchema.output userId input) s).
Proof. intros Hc Hv. simpl. by rewrite addFood_store. Qed.

(** X7. The order of two [addFood] calls of one user on one local day does
    not matter to the totals: the summary of the day reports the same
    energy and macros after [a] then [b] as after [b] then [a]. *)
Theorem addFood_order_irrelevant tz s t1 t2 userId a b :
  connected s = true ->
  AddFoodEntrySchema.issues a = [] ->
  AddFoodEntrySchema.issues b = [] ->
  setHours tz 0 0 0 0 (AddFoodInput.date b)
    = setHours tz 0 0 0 0 (AddFoodInput.date a) ->
  let ab := exec tz (AddFood t2 userId b) (exec tz (AddFood t1 userId a) s) in
  let ba := exec tz (AddFood t2 userId a) (exec tz (AddFood t1 userId b) s) in
  exists vab vba,
    foodRouter.getDailySummary tz userId (AddFoodInput.date a) ab = (Ok vab, ab) /\
    foodRouter.getDailySummary tz userId (AddFoodInput.date a) ba = (Ok vba, ba) /\
    totalsOf vab = totalsOf vba.
Proof.
  intros Hc Ha Hb Hday ab ba. subst ab ba.
  set (da := AddFoodInput.date a) in *. set (db := AddFoodInput.date b) in *.
  rewrite (exec_addFood tz s t1 userId a), (exec_addFood tz s t1 userId b)
    by done.
  fold da db.
  set (sa := recomputed tz t1 userId da
               (insertedFood t1 (AddFoodEntrySchema.output userId a) s)).
  set (sb := recomputed tz t1 userId db
               (insertedFood t1 (AddFoodEntrySchema.output userId b) s)).
  assert (connected sa = true) as Hca by (unfold sa; by rewrite recomputed_connected).
  assert (connected sb = true) as Hcb by (unfold sb; by rewrite recomputed_connected).
  rewrite (exec_addFood tz sa t2 userId b), (exec_addFood tz sb t2 userId a)
    by done.
  fold da db.
  set (sab := recomputed tz t2 userId db
                (insertedFood t2 (AddFoodEntrySchema.output userId b) sa)).
  set (sba := recomputed tz t2 userId da
                (insertedFood t2 (AddFoodEntrySchema.output userId a) sb)).
  assert (connected sab = true) as Hcab
    by (unfold sab; by rewrite recomputed_connected).
  assert (connected sba = true) as Hcba
    by (unfold sba; by rewrite recomputed_connected).
  exists (summaryView tz userId da sab), (summaryView tz userId da sba).
  unfold foodRouter.getDailySummary.
  rewrite (bind_ok _ _ _ _ _ (getDailySummary_run tz sab userId da Hcab)).
  rewrite (bind_ok _ _ _ _ _ (getDailySummary_run tz sba userId da Hcba)).
  split; [done|]. split; [done|].
  rewrite <- (summaryView_same_midnight tz userId da db sab) by done.
  unfold sab, sba, da, db.
  rewrite !addFood_summaryView by done. fold da db.
  rewrite (dayEntries_same_midnight tz userId da db sa) by done.
  rewrite <- (dayEntries_same_midnight tz userId da db sb) by done.
  unfold sa, sb, da, db. rewrite !addFood_dayEntries_sums. fold da db.
  rewrite (dayEntries_same_midnight tz userId da db s) by done.
  apply plusTotals_swap.
Qed.

(** ** The owner's delete and update *)

Lemma owned_row_split rows e :
  primaryKey rows -> e ∈ rows ->
  exists l1 l2,
    rows = l1 ++ e :: l2 /\
    (forall x, x ∈ l1 -> FoodEntry.id x <> FoodEntry.id e) /\
    (forall x, x ∈ l2 -> FoodEntry.id x <> FoodEntry.id e).
Proof.
  intros Hpk (l1 & l2 & ->)%list_elem_of_split.
  exists l1, l2. split; [done|].
  unfold primaryKey in Hpk.
  rewrite fmap_app, fmap_cons, NoDup_app, NoDup_cons in Hpk.
  destruct Hpk as (_ & Hl1 & He & _).
  split; intros x Hx Hid.
  - apply (Hl1 (FoodEntry.id x)); [by apply list_elem_of_fmap_2|].
    rewrite Hid. left.
  - apply He. rewrite <- Hid. by apply list_elem_of_fmap_2.
Qed.

(** X8. On a connected store, [deleteFood] called by the owner of the row
    with id [i] removes that row and nothing else: the other rows stay,
    in their order; the call answers [{success: true}]; calling it again
    changes nothing. *)
Theorem deleteFood_removes_own_entry s userId i e :
  connected s = true ->
  primaryKey (foodEntries s) ->
  e ∈ foodEntries s ->
  FoodEntry.id e = i ->
  FoodEntry.userId e = userId ->
  exists l1 l2 s',
    foodEntries s = l1 ++ e :: l2 /\
    foodRouter.deleteFood userId i s = (Ok (mkSuccess true), s') /\
    foodEntries s' = l1 ++ l2 /\
    (e ∉ foodEntries s') /\
    dailySummary s' = dailySummary s /\
    userGoals s' = userGoals s /\
    foodRouter.deleteFood userId i s' = (Ok (mkSuccess true), s').
Proof.
  intros Hc Hpk He <- <-.
  destruct (owned_row_split _ e Hpk He) as (l1 & l2 & Hrows & Hl1 & Hl2).
  assert (filter (fun x => ~ ownedRow (FoodEntry.id e) (FoodEntry.userId e) x)
                 (foodEntries s) = l1 ++ l2) as Hfilter.
  { rewrite Hrows, filter_app, filter_cons_False by (intros Hn; by apply Hn).
    rewrite !filter_all; [done| |].
    - intros x Hx [Hid _]. by apply (Hl2 x).
    - intros x Hx [Hid _]. by apply (Hl1 x). }
  exists l1, l2, (set_foodEntries (l1 ++ l2) s).
  split; [done|].
  split; [by rewrite deleteFood_run, Hfilter|].
  split; [done|].
  split.
  { simpl. intros [Hin|Hin]%elem_of_app.
    - by apply (Hl1 e).
    - by apply (Hl2 e). }
  split; [done|]. split; [done|].
  rewrite deleteFood_run by done. simpl.
  rewrite filter_all; [done|].
  intros x [Hx|Hx]%elem_of_app [Hid _].
  - by apply (Hl1 x).
  - by apply (Hl2 x).
Qed.

(** X9. On a connected store, [updateFood] called by the owner of the row
    with id [i] with well-formed data rewrites that row in place and no
    other.  The row keeps its id, owner and creation time and takes every
    field the data supplies.  Of the fields the data leaves out, name,
    meal time, energy, macros, image, barcode, source and date keep their
    values, but quantity and unit do not: the parsed data carries the
    schema defaults, so they are reset to 1 and "serving".  The daily
    summaries are not touched. *)
Theorem updateFood_rewrites_own_entry s now userId i e data :
  connected s = true ->
  primaryKey (foodEntries s) ->
  e ∈ foodEntries s ->
  FoodEntry.id e = i ->
  FoodEntry.userId e = userId ->
  UpdateFoodData.issues data = [] ->
  exists l1 l2 e' s',
    foodEntries s = l1 ++ e :: l2 /\
    foodRouter.updateFood now userId i data s = (Ok (mkSuccess true), s') /\
    foodEntries s' = l1 ++ e' :: l2 /\
    dailySummary s' = dailySummary s /\
    FoodEntry.id e' = FoodEntry.id e /\
    FoodEntry.userId e' = FoodEntry.userId e /\
    FoodEntry.createdAt e' = FoodEntry.createdAt e /\
    FoodEntry.updatedAt e' = now /\
    FoodEntry.foodName e'
      = default (FoodEntry.foodName e) (UpdateFoodData.foodName data) /\
    FoodEntry.mealTime e'
      = default (FoodEntry.mealTime e) (UpdateFoodData.mealTime data) /\
    JS.of_int (FoodEntry.calories e')
      = default (JS.of_int (FoodEntry.calories e)) (UpdateFoodData.calories data) /\
    FoodEntry.protein e'
      = default (FoodEntry.protein e) (UpdateFoodData.protein data) /\
    FoodEntry.carbs e'
      = default (FoodEntry.carbs e) (UpdateFoodData.carbs data) /\
    FoodEntry.fats e'
      = default (FoodEntry.fats e) (UpdateFoodData.fats data) /\
    FoodEntry.date e'
      = default (FoodEntry.date e) (UpdateFoodData.date data) /\
    FoodEntry.source e'
      = default (FoodEntry.source e) (UpdateFoodData.source data) /\
    FoodEntry.imageUrl e'
      = from_option Some (FoodEntry.imageUrl e) (UpdateFoodData.imageUrl data) /\
    FoodEntry.barcode e'
      = from_option Some (FoodEntry.barcode e) (UpdateFoodData.barcode data) /\
    FoodEntry.quantity e'
      = Some (default 1%Qc (UpdateFoodData.quantity data)) /\
    FoodEntry.unit e'
      = Some (default "serving"%string (UpdateFoodData.unit data)).
Proof.
  intros Hc Hpk He <- <- Hv.
  destruct (owned_row_split _ e Hpk He) as (l1 & l2 & Hrows & Hl1 & Hl2).
  exists l1, l2, (setFoodEntry now (UpdateFoodData.output data) e).
  eexists. split; [done|].
  split; [by apply updateFood_run|].
  split.
  { simpl. rewrite Hrows, map_app. simpl.
    rewrite decide_True by done. f_equal; [|f_equal].
    - rewrite <- (map_id l1) at 2. apply map_ext_in.
      intros x Hx%list_elem_of_In. rewrite decide_False; [done|].
      intros [Hid _]. by apply (Hl1 x).
    - rewrite <- (map_id l2) at 2. apply map_ext_in.
      intros x Hx%list_elem_of_In. rewrite decide_False; [done|].
      intros [Hid _]. by apply (Hl2 x). }
  split; [done|].
  repeat (split; [done|]).
  split; [|done].
  simpl. destruct (UpdateFoodData.calories data) as [c|] eqn:Hcal; [|done].
  simpl. apply isInteger_to_int.
  unfold UpdateFoodData.issues in Hv. rewrite Hcal, !app_nil in Hv.
  destruct Hv as (_ & Hint & _). simpl in Hint.
  by apply check_int_nil in Hint as [Hint _].
Qed.

(** * Custom foods *)

Definition nonnegativeFood (f : CustomFood.t) : Prop :=
  0 <= CustomFood.calories f /\
  (0 <= CustomFood.protein f)%Qc /\
  (0 <= CustomFood.carbs f)%Qc /\
  (0 <= CustomFood.fats f)%Qc.

Lemma addCustomFood_run now userId input db :
  connected (store db) = true ->
  AddCustomFoodInput.issues input = [] ->
  customFoodRouter.addCustomFood now userId input db =
    (Ok (customFoods_autoinc db),
     mkDatabase (store db) (users db) (users_autoinc db)
       (customFoods db ++
          [newCustomFood now (customFoods_autoinc db)
             (AddCustomFoodInput.output userId input)])
       (customFoods_autoinc db + 1)).
Proof.
  intros Hc Hv. unfold customFoodRouter.addCustomFood, addCustomFood.
  by rewrite Hv, Hc.
Qed.

Lemma addCustomFood_rejected now userId input db :
  AddCustomFoodInput.issues input <> [] ->
  customFoodRouter.addCustomFood now userId input db =
    (Throw (BAD_REQUEST (AddCustomFoodInput.issues input)), db).
Proof.
  intros Hv. unfold customFoodRouter.addCustomFood.
  by destruct (AddCustomFoodInput.issues input).
Qed.

Lemma getCustomFoods_run userId db :
  connected (store db) = true ->
  customFoodRouter.getCustomFoods userId db =
    (Ok (filter (fun f => CustomFood.userId f = userId) (customFoods db)), db).
Proof.
  intros Hc. unfold customFoodRouter.getCustomFoods, getCustomFoodsByUser.
  by rewrite Hc.
Qed.

(** X10. Round trip.  On an available database, after [addCustomFood] accepted
    an input, [getCustomFoods] of the same user returns what it returned
    before followed by the new food, which carries the returned id, the
    input's fields and the unit "serving" where the input left it out;
    every other user's list, and the food log, are as they were. *)
Theorem addCustomFood_round_trip now userId input db :
  connected (store db) = true ->
  AddCustomFoodInput.issues input = [] ->
  exists id before db',
    customFoodRouter.getCustomFoods userId db = (Ok before, db) /\
    customFoodRouter.addCustomFood now userId input db = (Ok id, db') /\
    customFoodRouter.getCustomFoods userId db' =
      (Ok (before ++
             [CustomFood.mk id userId
                (AddCustomFoodInput.foodName input)
                (JS.to_int (AddCustomFoodInput.calories input))
                (AddCustomFoodInput.protein input)
                (AddCustomFoodInput.carbs input)
                (AddCustomFoodInput.fats input)
                (Some (default "serving"%string (AddCustomFoodInput.unit input)))
                now now]), db') /\
    JS.of_int (JS.to_int (AddCustomFoodInput.calories input))
      = AddCustomFoodInput.calories input /\
    store db' = store db /\
    (forall other, other <> userId ->
       (customFoodRouter.getCustomFoods other db').1
         = (customFoodRouter.getCustomFoods other db).1).
Proof.
  intros Hc Hv. eexists _, _, _.
  rewrite addCustomFood_run by done.
  split; [by apply getCustomFoods_run|]. split; [done|].
  split.
  { rewrite getCustomFoods_run by done. cbn [customFoods].
    rewrite filter_app, filter_cons_True by done.
    unfold newCustomFood, AddCustomFoodInput.output. cbn.
    by destruct (AddCustomFoodInput.unit input). }
  split.
  { apply isInteger_to_int.
    unfold AddCustomFoodInput.issues in Hv. rewrite !app_nil in Hv.
    destruct Hv as (_ & Hint & _). unfold check_int, check in Hint.
    by destruct (JS.isInteger _). }
  split; [done|].
  intros other Hother. rewrite !getCustomFoods_run by done.
  cbn [customFoods fst].
  rewrite filter_app, filter_cons_False by (simpl; congruence).
  by rewrite filter_nil, app_nil_r.
Qed.

(** X11. Whatever input [addCustomFood] is called with, and whether it succeeds
    or throws, no custom food with a negative energy or macro gets stored:
    an input that fails the schema is rejected before any write. *)
Theorem custom_foods_stay_nonnegative now userId input db :
  Forall nonnegativeFood (customFoods db) ->
  Forall nonnegativeFood
    (customFoods (customFoodRouter.addCustomFood now userId input db).2) /\
  (AddCustomFoodInput.issues input <> [] ->
   customFoodRouter.addCustomFood now userId input db =
     (Throw (BAD_REQUEST (AddCustomFoodInput.issues input)), db)).
Proof.
  intros Hdb. split; [|by apply addCustomFood_rejected].
  destruct (AddCustomFoodInput.issues input) as [|i l] eqn:Hv.
  - destruct (connected (store db)) eqn:Hc.
    + rewrite addCustomFood_run by done. simpl.
      apply Forall_app. split; [done|]. apply Forall_singleton.
      unfold AddCustomFoodInput.issues in Hv. rewrite !app_nil in Hv.
      destruct Hv as (_ & _ & Hcal & Hp & Hcb & Hf).
      repeat split; simpl.
      * by apply to_int_nonneg, (check_min_0_nil "calories").
      * by apply (check_min_0_nil "protein").
      * by apply (check_min_0_nil "carbs").
      * by apply (check_min_0_nil "fats").
    + unfold customFoodRouter.addCustomFood, addCustomFood. by rewrite Hv, Hc.
  - rewrite addCustomFood_rejected by (rewrite Hv; done). done.
Qed.

(** * Users *)

(** The [updateSet] that [upsertUser] hands to [onDuplicateKeyUpdate]. *)
Definition updateSetOf (ownerOpenId : string) (now : Date) (user : InsertUser.t)
    : UserFields :=
  if noFields (assignedFields ownerOpenId user)
  then mkUserFields None None None (Some now) None
  else assignedFields ownerOpenId user.

(** The row [upsertUser] leaves behind for the [openId] of its input:
    the row that was there with [updateSet] applied, or a new row. *)
Definition upsertedUser (ownerOpenId : string) (now : Date)
    (user : InsertUser.t) (db : Database) : User.t :=
  match getUserByOpenId (InsertUser.openId user) db with
  | Some old => setUser now (updateSetOf ownerOpenId now user) old
  | None =>
      newUser now (users_autoinc db) (InsertUser.openId user)
        (assignedFields ownerOpenId user)
        (default now (InsertUser.lastSignedIn user))
  end.

Lemma upsertUser_lookup ownerOpenId now user db :
  connected (store db) = true ->
  InsertUser.openId user <> ""%string ->
  exists db',
    upsertUser ownerOpenId now user db = (Upserted, db') /\
    store db' = store db /\
    customFoods db' = customFoods db /\
    getUserByOpenId (InsertUser.openId user) db'
      = Some (upsertedUser ownerOpenId now user db).
Proof.
  intros Hc Hid. unfold upsertUser, upsertedUser, getUserByOpenId.
  rewrite (proj2 (String.eqb_neq _ _) Hid), Hc. simpl.
  fold (updateSetOf ownerOpenId now user).
  destruct (filter _ (users db)) as [|old rest] eqn:Hf.
  - eexists. split; [done|]. split; [done|]. split; [done|].
    simpl. rewrite Hc, filter_app, Hf. simpl.
    by rewrite filter_cons_True by done.
  - eexists. split; [done|]. split; [done|]. split; [done|].
    simpl. rewrite Hc.
    rewrite (head_filter_map
               (fun u => User.openId u = InsertUser.openId user)).
    + rewrite Hf. simpl.
      assert (User.openId old = InsertUser.openId user) as Hold.
      { assert (old ∈ filter (fun u => User.openId u = InsertUser.openId user)
                             (users db)) as Hin by (rewrite Hf; left).
        by apply list_elem_of_filter in Hin as [? _]. }
      by rewrite decide_True.
    + intros u. by case_decide.
Qed.

(** X12. On an available database, after [upsertUser] with a non-empty
    [openId], [getUserByOpenId] finds a row with that [openId]; every text
    field and sign-in time the input supplies is stored, every one it
    leaves out keeps its old value on an existing row and is NULL on a
    new one.  A sign-in time left out is the old one, except that a call
    that supplies no field at all (and is not the owner's) sets it to the
    current time; on a new row it is the current time. *)
Theorem upsertUser_then_getUserByOpenId ownerOpenId now user db :
  connected (store db) = true ->
  InsertUser.openId user <> ""%string ->
  exists db' u,
    upsertUser ownerOpenId now user db = (Upserted, db') /\
    getUserByOpenId (InsertUser.openId user) db' = Some u /\
    User.openId u = InsertUser.openId user /\
    (forall v, InsertUser.name user = Some v -> User.name u = v) /\
    (forall v, InsertUser.email user = Some v -> User.email u = v) /\
    (forall v, InsertUser.loginMethod user = Some v -> User.loginMethod u = v) /\
    (forall t, InsertUser.lastSignedIn user = Some t -> User.lastSignedIn u = t) /\
    match getUserByOpenId (InsertUser.openId user) db with
    | Some old =>
        User.id u = User.id old /\
        User.createdAt u = User.createdAt old /\
        (InsertUser.name user = None -> User.name u = User.name old) /\
        (InsertUser.email user = None -> User.email u = User.email old) /\
        (InsertUser.loginMethod user = None ->
           User.loginMethod u = User.loginMethod old) /\
        (InsertUser.lastSignedIn user = None ->
           User.lastSignedIn u =
             if noFields (assignedFields ownerOpenId user) then now
             else User.lastSignedIn old)
    | None =>
        User.id u = users_autoinc db /\
        User.createdAt u = now /\
        (InsertUser.name user = None -> User.name u = None) /\
        (InsertUser.email user = None -> User.email u = None) /\
        (InsertUser.loginMethod user = None -> User.loginMethod u = None) /\
        (InsertUser.lastSignedIn user = None -> User.lastSignedIn u = now)
    end.
Proof.
  intros Hc Hid.
  destruct (upsertUser_lookup ownerOpenId now user db Hc Hid)
    as (db' & Hrun & _ & _ & Hget).
  exists db', (upsertedUser ownerOpenId now user db).
  split; [done|]. split; [done|].
  unfold upsertedUser, updateSetOf.
  destruct (getUserByOpenId (InsertUser.openId user) db) as [old|] eqn:Hold.
  - assert (User.openId old = InsertUser.openId user) as Hopen.
    { unfold getUserByOpenId in Hold. rewrite Hc in Hold.
      apply head_Some_elem_of in Hold.
      by apply list_elem_of_filter in Hold as [? _]. }
    destruct user as [oid [n|] [e|] [l|] [r|] [t|]]; simpl in *;
      repeat split; try done; try (by intros ? [= <-]);
      try (by destruct (String.eqb oid ownerOpenId)).
  - destruct user as [oid [n|] [e|] [l|] [r|] [t|]]; simpl in *;
      repeat split; try done; by intros ? [= <-].
Qed.

(** X13. On an available database, the role of the row [upsertUser] leaves
    behind is the role the input supplies; failing that, [admin] when the
    [openId] is the owner's; failing that, the role the row already had,
    or [user] on a new row.  So a call that supplies no role makes nobody
    but the owner an admin. *)
Theorem upsertUser_role ownerOpenId now user db :
  connected (store db) = true ->
  InsertUser.openId user <> ""%string ->
  exists db' u,
    upsertUser ownerOpenId now user db = (Upserted, db') /\
    getUserByOpenId (InsertUser.openId user) db' = Some u /\
    User.role u =
      match InsertUser.role user with
      | Some r => r
      | None =>
          if String.eqb (InsertUser.openId user) ownerOpenId then Role.admin
          else match getUserByOpenId (InsertUser.openId user) db with
               | Some old => User.role old
               | None => Role.user
               end
      end.
Proof.
  intros Hc Hid.
  destruct (upsertUser_lookup ownerOpenId now user db Hc Hid)
    as (db' & Hrun & _ & _ & Hget).
  exists db', (upsertedUser ownerOpenId now user db).
  split; [done|]. split; [done|].
  unfold upsertedUser, updateSetOf, assignedFields.
  destruct (getUserByOpenId (InsertUser.openId user) db) as [old|];
    destruct user as [oid [n|] [e|] [l|] [r|] [t|]]; cbn;
    try done; destruct (String.eqb oid ownerOpenId); cbn; done.
Qed.

(** The key constraints of [users]: [id] is the primary key and lies below
    the counter, [openId] is unique and never empty. *)
Record usersWellKeyed (db : Database) : Prop := mkUsersWellKeyed {
  users_ids : NoDup (User.id <$> users db);
  users_fresh : Forall (fun u => User.id u < users_autoinc db) (users db);
  users_openIds : NoDup (User.openId <$> users db);
  users_named : Forall (fun u => User.openId u <> ""%string) (users db)
}.

Lemma upsertUser_cases ownerOpenId now user db :
  (upsertUser ownerOpenId now user db).2 = db \/
  (InsertUser.openId user <> ""%string /\
   connected (store db) = true /\
   ((exists old, getUserByOpenId (InsertUser.openId user) db = Some old /\
      (upsertUser ownerOpenId now user db).2 =
        mkDatabase (store db)
          (map (fun u => if decide (User.openId u = InsertUser.openId user)
                         then setUser now (updateSetOf ownerOpenId now user) u
                         else u) (users db))
          (users_autoinc db) (customFoods db) (customFoods_autoinc db))
    \/
    (filter (fun u => User.openId u = InsertUser.openId user) (users db) = []
     /\ (upsertUser ownerOpenId now user db).2 =
          mkDatabase (store db)
            (users db ++
               [newUser now (users_autoinc db) (InsertUser.openId user)
                  (assignedFields ownerOpenId user)
                  (default now (InsertUser.lastSignedIn user))])
            (users_autoinc db + 1) (customFoods db) (customFoods_autoinc db)))).
Proof.
  unfold upsertUser, getUserByOpenId.
  destruct (String.eqb_spec (InsertUser.openId user) "") as [Hid|Hid];
    [by left|].
  destruct (connected (store db)) eqn:Hc; [|by left]. simpl.
  right. split; [done|]. split; [done|].
  fold (updateSetOf ownerOpenId now user).
  destruct (filter _ (users db)) as [|old rest] eqn:Hf.
  - right. by split.
  - left. exists old. by split.
Qed.

Lemma upsertUser_wellKeyed ownerOpenId now user db :
  usersWellKeyed db -> usersWellKeyed (upsertUser ownerOpenId now user db).2.
Proof.
  intros Hdb.
  destruct (upsertUser_cases ownerOpenId now user db)
    as [->|(Hid & Hc & [(old & _ & ->)|(Hf & ->)])]; [done| |].
  - destruct Hdb as [U1 U2 U3 U4]. constructor; simpl.
    + rewrite fmap_map_same; [done|]. intros u. by case_decide.
    + apply Forall_map_same; [|done]. intros u Hu. by case_decide.
    + rewrite fmap_map_same; [done|]. intros u. by case_decide.
    + apply Forall_map_same; [|done]. intros u Hu. by case_decide.
  - destruct Hdb as [U1 U2 U3 U4].
    destruct (fresh_snoc User.id (users_autoinc db) (users db)
                (newUser now (users_autoinc db) (InsertUser.openId user)
                   (assignedFields ownerOpenId user)
                   (default now (InsertUser.lastSignedIn user)))
                U2 eq_refl U1) as [U1' U2'].
    constructor; simpl; try done.
    + apply NoDup_fmap_snoc; [done|].
      intros u Hu Heq. simpl in Heq.
      assert (u ∈ filter (fun u => User.openId u = InsertUser.openId user)
                         (users db)) as Hin
        by (by apply list_elem_of_filter).
      rewrite Hf in Hin. by apply elem_of_nil in Hin.
    + apply Forall_app. split; [done|]. by apply Forall_singleton.
Qed.

Lemma authenticateRequest_steps ownerOpenId now signedInAt session reply db :
  exists user1 user2,
    (authenticateRequest ownerOpenId now signedInAt session reply db).2 =
      (upsertUser ownerOpenId now user2
         (upsertUser ownerOpenId now user1 db).2).2 \/
    (authenticateRequest ownerOpenId now signedInAt session reply db).2 =
      (upsertUser ownerOpenId now user1 db).2 \/
    (authenticateRequest ownerOpenId now signedInAt session reply db).2 = db.
Proof.
  unfold authenticateRequest.
  destruct session as [sess|]; [|by exists (InsertUser.mk "" None None None None None),
                                          (InsertUser.mk "" None None None None None);
                                  right; right].
  destruct (getUserByOpenId (session_openId sess) db) as [u|].
  - exists (InsertUser.mk (User.openId u) None None None None (Some signedInAt)),
           (InsertUser.mk "" None None None None None). right. left.
    by destruct (upsertUser _ _ _ db) as [[] ?].
  - destruct reply as [|openId name email loginMethod].
    + exists (InsertUser.mk "" None None None None None),
             (InsertUser.mk "" None None None None None). by right; right.
    + destruct (upsertUser ownerOpenId now
                  (InsertUser.mk openId (Some (nonEmpty name)) (Some email)
                     (Some loginMethod) None (Some signedInAt)) db)
        as [[] db1] eqn:Hup1.
      * destruct (getUserByOpenId openId db1) as [u|].
        -- exists (InsertUser.mk openId (Some (nonEmpty name)) (Some email)
                     (Some loginMethod) None (Some signedInAt)),
                  (InsertUser.mk (User.openId u) None None None None
                     (Some signedInAt)).
           left. rewrite Hup1. simpl.
           by destruct (upsertUser _ _ _ db1) as [[] ?].
        -- exists (InsertUser.mk openId (Some (nonEmpty name)) (Some email)
                     (Some loginMethod) None (Some signedInAt)),
                  (InsertUser.mk "" None None None None None).
           right. left. by rewrite Hup1.
      * exists (InsertUser.mk "" None None None None None),
               (InsertUser.mk "" None None None None None). by right; right.
Qed.

(** X14. [upsertUser], and [authenticateRequest] which calls it, keep the key
    constraints of [users] whatever they are called with: ids stay unique
    and below the counter, no two rows share an [openId], and no row has
    an empty one. *)
Theorem users_keep_keys ownerOpenId now signedInAt user session reply db :
  usersWellKeyed db ->
  usersWellKeyed (upsertUser ownerOpenId now user db).2 /\
  usersWellKeyed
    (authenticateRequest ownerOpenId now signedInAt session reply db).2.
Proof.
  intros Hdb. split; [by apply upsertUser_wellKeyed|].
  destruct (authenticateRequest_steps ownerOpenId now signedInAt session
              reply db) as (u1 & u2 & [->|[->| ->]]).
  - by do 2 apply upsertUser_wellKeyed.
  - by apply upsertUser_wellKeyed.
  - done.
Qed.

Lemma setUser_idem now f u : setUser now f (setUser now f u) = setUser now f u.
Proof. destruct f as [[n|] [e|] [l|] [t|] [r|]], u; reflexivity. Qed.

Lemma newUser_settled ownerOpenId now user id :
  setUser now (updateSetOf ownerOpenId now user)
    (newUser now id (InsertUser.openId user) (assignedFields ownerOpenId user)
       (default now (InsertUser.lastSignedIn user)))
  = newUser now id (InsertUser.openId user) (assignedFields ownerOpenId user)
      (default now (InsertUser.lastSignedIn user)).
Proof.
  unfold updateSetOf, assignedFields.
  destruct user as [oid [n|] [e|] [l|] [r|] [t|]]; cbn; try done;
    destruct (String.eqb oid ownerOpenId); cbn; done.
Qed.

Lemma filter_map_commute {A} (P : A -> Prop) `{!forall x, Decision (P x)}
    (g : A -> A) (l : list A) :
  (forall x, P (g x) <-> P x) -> filter P (map g l) = map g (filter P l).
Proof.
  intros Hg. induction l as [|x l IH]; [done|].
  simpl. rewrite !filter_cons, IH.
  destruct (decide (P x)) as [Hx|Hx].
  - by rewrite decide_True by (by apply Hg).
  - by rewrite decide_False by (by rewrite Hg).
Qed.

Lemma upsertUser_update ownerOpenId now user db :
  connected (store db) = true ->
  InsertUser.openId user <> ""%string ->
  filter (fun u => User.openId u = InsertUser.openId user) (users db) <> [] ->
  upsertUser ownerOpenId now user db =
    (Upserted,
     mkDatabase (store db)
       (map (fun u => if decide (User.openId u = InsertUser.openId user)
                      then setUser now (updateSetOf ownerOpenId now user) u
                      else u) (users db))
       (users_autoinc db) (customFoods db) (customFoods_autoinc db)).
Proof.
  intros Hc Hid Hf. unfold upsertUser.
  rewrite (proj2 (String.eqb_neq _ _) Hid), Hc.
  cbn [negb]. cbv zeta. fold (updateSetOf ownerOpenId now user).
  by destruct (filter _ (users db)).
Qed.

Lemma upsertUser_insert ownerOpenId now user db :
  connected (store db) = true ->
  InsertUser.openId user <> ""%string ->
  filter (fun u => User.openId u = InsertUser.openId user) (users db) = [] ->
  upsertUser ownerOpenId now user db =
    (Upserted,
     mkDatabase (store db)
       (users db ++
          [newUser now (users_autoinc db) (InsertUser.openId user)
             (assignedFields ownerOpenId user)
             (default now (InsertUser.lastSignedIn user))])
       (users_autoinc db + 1) (customFoods db) (customFoods_autoinc db)).
Proof.
  intros Hc Hid Hf. unfold upsertUser.
  rewrite (proj2 (String.eqb_neq _ _) Hid), Hc.
  cbn [negb]. cbv zeta. by rewrite Hf.
Qed.

Lemma upsertUser_again ownerOpenId now user db :
  upsertUser ownerOpenId now user (upsertUser ownerOpenId now user db).2
  = upsertUser ownerOpenId now user db.
Proof.
  destruct (upsertUser_cases ownerOpenId now user db)
    as [->|(Hid & Hc & _)]; [done|].
  set (dup := fun u => User.openId u = InsertUser.openId user).
  set (g := fun u => if decide (dup u)
                     then setUser now (updateSetOf ownerOpenId now user) u
                     else u).
  assert (forall u, dup (g u) <-> dup u) as Hg.
  { intros u. unfold g. by case_decide. }
  destruct (filter dup (users db)) as [|old rest] eqn:Hf.
  - rewrite (upsertUser_insert _ _ _ db) by done. cbn [snd].
    rewrite upsertUser_update; cbn [store users]; try done.
    + f_equal. f_equal. rewrite map_app. cbn [map]. f_equal.
      * rewrite <- (map_id (users db)) at 2. apply map_ext_in.
        intros u Hu%list_elem_of_In.
        rewrite decide_False; [done|]. intros Hd.
        assert (u ∈ filter dup (users db)) as Hin
          by (by apply list_elem_of_filter).
        rewrite Hf in Hin. by apply elem_of_nil in Hin.
      * f_equal. rewrite decide_True by done. apply newUser_settled.
    + fold dup. rewrite filter_app, Hf. cbn [app].
      by rewrite filter_cons_True by done.
  - assert (filter dup (users db) <> []) as Hne by (by rewrite Hf).
    rewrite (upsertUser_update _ _ _ db) by done. cbn [snd].
    rewrite upsertUser_update; cbn [store users]; try done.
    + f_equal. f_equal. rewrite map_map. apply map_ext.
      intros u.
      destruct (decide (User.openId u = InsertUser.openId user)) as [Hu|Hu].
      * rewrite decide_True by done. apply setUser_idem.
      * by rewrite decide_False.
    + fold dup. fold g. rewrite filter_map_commute, Hf by done. done.
Qed.

(** X15. [upsertUser] is idempotent: with the same input and clock, a second
    call ends as the first did and leaves every table as the first left
    it. *)
Theorem upsertUser_idempotent ownerOpenId now user db :
  let once := upsertUser ownerOpenId now user db in
  let twice := upsertUser ownerOpenId now user (snd once) in
  fst twice = fst once /\
  users (snd twice) = users (snd once) /\
  customFoods (snd twice) = customFoods (snd once) /\
  store (snd twice) = store (snd once).
Proof. intros once twice. unfold twice, once. by rewrite upsertUser_again. Qed.

(** X16. When the database is unavailable the two user functions do not
    throw: [upsertUser] returns without writing (it still throws on an
    empty [openId]) and [getUserByOpenId] yields [undefined].  So
    [authenticateRequest] authenticates nobody, [createContext] yields no
    user, and every protected procedure is refused as unauthorized before
    it runs, with the database untouched. *)
Theorem unavailable_database_authenticates_nobody {A} ownerOpenId now
    signedInAt user openId session reply (resolver : UserId -> M A) db :
  connected (store db) = false ->
  upsertUser ownerOpenId now user db =
    (if String.eqb (InsertUser.openId user) "" then OpenIdRequired
     else Upserted, db) /\
  getUserByOpenId openId db = None /\
  (forall u db',
     authenticateRequest ownerOpenId now signedInAt session reply db
       <> (Authenticated u, db')) /\
  createContext ownerOpenId now signedInAt session reply db = (None, db) /\
  protectedRequest ownerOpenId now signedInAt session reply resolver db
    = (UNAUTHORIZED, db).
Proof.
  intros Hc.
  assert (forall user,
            upsertUser ownerOpenId now user db =
              (if String.eqb (InsertUser.openId user) "" then OpenIdRequired
               else Upserted, db)) as Hup.
  { intros x. unfold upsertUser. rewrite Hc.
    by destruct (String.eqb (InsertUser.openId x) ""). }
  assert (forall x, getUserByOpenId x db = None) as Hget
    by (intros x; unfold getUserByOpenId; by rewrite Hc).
  assert (exists msg,
            authenticateRequest ownerOpenId now signedInAt session reply db
              = (Forbidden msg, db)) as [msg Hauth].
  { unfold authenticateRequest.
    destruct session as [sess|]; [|by eexists].
    rewrite Hget. destruct reply as [|oid name email loginMethod];
      [by eexists|].
    rewrite Hup. simpl. destruct (String.eqb oid ""); [by eexists|].
    rewrite Hget. by eexists. }
  split; [apply Hup|]. split; [apply Hget|].
  split; [intros u db'; by rewrite Hauth|].
  unfold protectedRequest, createContext. by rewrite Hauth.
Qed.

(** The row [upsertUser { openId, lastSignedIn }] leaves behind for a row
    [u] it finds: a new sign-in time and, for the owner, the admin role. *)
Definition signedIn (ownerOpenId : string) (now signedInAt : Date) (u : User.t)
    : User.t :=
  User.mk (User.id u) (User.openId u) (User.name u) (User.email u)
    (User.loginMethod u)
    (if String.eqb (User.openId u) ownerOpenId then Role.admin
     else User.role u)
    (User.createdAt u) now signedInAt.

Lemma getUserByOpenId_openId openId db u :
  getUserByOpenId openId db = Some u -> User.openId u = openId.
Proof.
  unfold getUserByOpenId. destruct (connected (store db)); [|done].
  intros Hu%head_Some_elem_of. by apply list_elem_of_filter in Hu as [? _].
Qed.

Lemma refresh_known_user ownerOpenId now signedInAt db u :
  connected (store db) = true ->
  User.openId u <> ""%string ->
  getUserByOpenId (User.openId u) db = Some u ->
  exists db',
    upsertUser ownerOpenId now
      (InsertUser.mk (User.openId u) None None None None (Some signedInAt)) db
      = (Upserted, db') /\
    store db' = store db /\
    customFoods db' = customFoods db /\
    getUserByOpenId (User.openId u) db'
      = Some (signedIn ownerOpenId now signedInAt u).
Proof.
  intros Hc Hid Hget.
  destruct (upsertUser_lookup ownerOpenId now
              (InsertUser.mk (User.openId u) None None None None
                 (Some signedInAt)) db Hc Hid)
    as (db' & Hrun & Hs & Hf & Hget').
  exists db'. split; [done|]. split; [done|]. split; [done|].
  cbn [InsertUser.openId] in Hget'. rewrite Hget'. f_equal.
  unfold upsertedUser. cbn [InsertUser.openId]. rewrite Hget.
  unfold updateSetOf, assignedFields, signedIn, setUser. cbn.
  by destruct (String.eqb (User.openId u) ownerOpenId).
Qed.

(** X17. A request with a valid session whose user is already in [users] is
    authenticated without the OAuth server being consulted.  The user
    handed to the procedures is the row as it was read, before the
    sign-in; the stored row then carries the new sign-in time (and the
    admin role if it is the owner's), all else unchanged.  A protected
    procedure behind it runs its resolver with that user's id on the
    tables as they are. *)
Theorem known_user_is_authenticated {A} ownerOpenId now signedInAt sess reply
    (resolver : UserId -> M A) db u :
  connected (store db) = true ->
  session_openId sess <> ""%string ->
  getUserByOpenId (session_openId sess) db = Some u ->
  exists db',
    authenticateRequest ownerOpenId now signedInAt (Some sess) reply db
      = (Authenticated u, db') /\
    store db' = store db /\
    customFoods db' = customFoods db /\
    getUserByOpenId (session_openId sess) db'
      = Some (signedIn ownerOpenId now signedInAt u) /\
    protectedRequest ownerOpenId now signedInAt (Some sess) reply resolver db
      = (Resolved (resolver (User.id u) (store db)).1,
         mkDatabase (resolver (User.id u) (store db)).2 (users db')
           (users_autoinc db') (customFoods db') (customFoods_autoinc db')).
Proof.
  intros Hc Hid Hget.
  pose proof (getUserByOpenId_openId _ _ _ Hget) as Hopen.
  rewrite <- Hopen in Hid, Hget |- *.
  destruct (refresh_known_user ownerOpenId now signedInAt db u Hc Hid Hget)
    as (db' & Hrun & Hs & Hf & Hget').
  assert (authenticateRequest ownerOpenId now signedInAt (Some sess) reply db
          = (Authenticated u, db')) as Hauth.
  { unfold authenticateRequest. rewrite <- Hopen, Hget.
    cbv beta iota zeta. by rewrite Hrun. }
  exists db'. split; [done|]. split; [done|]. split; [done|].
  split; [done|].
  unfold protectedRequest, createContext. rewrite Hauth.
  unfold protectedProcedure, onStore. rewrite Hs.
  by destruct (resolver (User.id u) (store db)).
Qed.

(** X18. A request with a valid session whose user is not yet in [users] is
    authenticated from the OAuth server's reply: the user handed on is
    stored under the reply's [openId] with the reply's name (an empty one
    as NULL), email and login method and the time of the request as its
    sign-in time.  If no row had that [openId] the account is new: it gets
    the next id and the role [user], or [admin] for the owner. *)
Theorem unknown_user_is_synced ownerOpenId now signedInAt sess openId name
    email loginMethod db :
  connected (store db) = true ->
  getUserByOpenId (session_openId sess) db = None ->
  openId <> ""%string ->
  exists u db',
    authenticateRequest ownerOpenId now signedInAt (Some sess)
      (UserInfo openId name email loginMethod) db = (Authenticated u, db') /\
    getUserByOpenId openId db'
      = Some (signedIn ownerOpenId now signedInAt u) /\
    User.openId u = openId /\
    User.name u = nonEmpty name /\
    User.email u = email /\
    User.loginMethod u = loginMethod /\
    User.lastSignedIn u = signedInAt /\
    (getUserByOpenId openId db = None ->
       User.id u = users_autoinc db /\
       User.createdAt u = now /\
       User.role u = if String.eqb openId ownerOpenId then Role.admin
                     else Role.user).
Proof.
  intros Hc Hnone Hid.
  set (info := InsertUser.mk openId (Some (nonEmpty name)) (Some email)
                 (Some loginMethod) None (Some signedInAt)).
  destruct (upsertUser_lookup ownerOpenId now info db Hc Hid)
    as (db1 & Hrun1 & Hs1 & _ & Hget1).
  set (u := upsertedUser ownerOpenId now info db) in *.
  cbn [InsertUser.openId info] in Hget1.
  pose proof (getUserByOpenId_openId _ _ _ Hget1) as Hopen.
  assert (connected (store db1) = true) as Hc1 by (by rewrite Hs1).
  destruct (refresh_known_user ownerOpenId now signedInAt db1 u)
    as (db2 & Hrun2 & _ & _ & Hget2); [done|by rewrite Hopen|by rewrite Hopen|].
  exists u, db2. split.
  { unfold authenticateRequest. rewrite Hnone. cbv beta iota zeta.
    fold info. rewrite Hrun1. cbv beta iota zeta. rewrite Hget1.
    cbv beta iota zeta. by rewrite Hrun2. }
  split; [by rewrite <- Hopen|]. split; [done|].
  unfold u, upsertedUser, updateSetOf, assignedFields. cbn.
  destruct (getUserByOpenId openId db) as [old|]; cbn.
  - by destruct (String.eqb openId ownerOpenId).
  - repeat split; try done. by destruct (String.eqb openId ownerOpenId).
Qed.

(** * The server's port and the storage keys *)

Lemma scanPorts_Some available port n p :
  scanPorts available port n = Some p <->
  port <= p < port + Z.of_nat n /\ available p = true /\
  forall q, port <= q < p -> available q = false.
Proof.
  revert port. induction n as [|n IH]; intros port.
  - simpl. split; [done|]. lia.
  - cbn [scanPorts]. destruct (available port) eqn:Hp.
    + split.
      * intros [= <-]. split; [lia|]. split; [done|]. lia.
      * intros (Hr & Hav & Hleast). f_equal.
        destruct (decide (port = p)) as [|Hne]; [done|].
        rewrite Hleast in Hp by lia. done.
    + rewrite IH. split.
      * intros (Hr & Hav & Hleast). split; [lia|]. split; [done|].
        intros q Hq. destruct (decide (q = port)) as [->|]; [done|].
        apply Hleast. lia.
      * intros (Hr & Hav & Hleast).
        assert (p <> port) by (intros ->; congruence).
        split; [lia|]. split; [done|]. intros q Hq. apply Hleast. lia.
Qed.

Lemma scanPorts_None available port n :
  scanPorts available port n = None <->
  forall q, port <= q < port + Z.of_nat n -> available q = false.
Proof.
  revert port. induction n as [|n IH]; intros port.
  - simpl. split; [|done]. lia.
  - cbn [scanPorts]. destruct (available port) eqn:Hp.
    + split; [done|]. intros Hall. rewrite Hall in Hp by lia. done.
    + rewrite IH. split.
      * intros Hall q Hq. destruct (decide (q = port)) as [->|]; [done|].
        apply Hall. lia.
      * intros Hall q Hq. apply Hall. lia.
Qed.

(** X19. [findAvailablePort] returns the lowest available port among the
    twenty from [startPort] on, and throws exactly when none of the
    twenty is available; ports from [startPort + 20] on are never
    tried. *)
Theorem findAvailablePort_lowest available startPort :
  (forall p,
     findAvailablePort available startPort = Some p <->
     startPort <= p < startPort + 20 /\ available p = true /\
     forall q, startPort <= q < p -> available q = false) /\
  (findAvailablePort available startPort = None <->
   forall q, startPort <= q < startPort + 20 -> available q = false).
Proof.
  unfold findAvailablePort. split.
  - intros p. by rewrite scanPorts_Some.
  - by rewrite scanPorts_None.
Qed.

Module StorageFacts.
Import Storage.

(** No character of the string is a slash. *)
Fixpoint noSlash (s : string) : bool :=
  match s with
  | EmptyString => true
  | String c rest => negb (Ascii.eqb c slash) && noSlash rest
  end.

(** The string does not start with a slash. *)
Definition noLeadingSlash (s : string) : bool :=
  match s with
  | String c _ => negb (Ascii.eqb c slash)
  | EmptyString => true
  end.

Lemma append_cons x (a b : string) :
  (String x a ++ b)%string = String x (a ++ b)%string.
Proof. reflexivity. Qed.

Lemma append_assoc (a b c : string) :
  ((a ++ b) ++ c = a ++ (b ++ c))%string.
Proof.
  induction a as [|x a IH]; [done|]. by rewrite !append_cons, IH.
Qed.

Lemma append_empty_r (a : string) : (a ++ "")%string = a.
Proof. induction a as [|x a IH]; [done|]. by rewrite append_cons, IH. Qed.

Lemma normalizeKey_noLeadingSlash key :
  noLeadingSlash (normalizeKey key) = true.
Proof.
  induction key as [|c rest IH]; [done|].
  cbn [normalizeKey]. destruct (Ascii.eqb c slash) eqn:Hc; [done|].
  cbn [noLeadingSlash]. by rewrite Hc.
Qed.

Lemma normalizeKey_id key :
  noLeadingSlash key = true -> normalizeKey key = key.
Proof.
  destruct key as [|c rest]; [done|]. cbn [noLeadingSlash normalizeKey].
  by destruct (Ascii.eqb c slash).
Qed.

Lemma lastSegment_slash a acc b :
  lastSegment acc (a ++ String slash b) = lastSegment "" b.
Proof.
  revert acc. induction a as [|c a IH]; intros acc.
  - change ("" ++ String slash b)%string with (String slash b).
    cbn [lastSegment]. by rewrite Ascii.eqb_refl.
  - rewrite append_cons. cbn [lastSegment].
    destruct (Ascii.eqb c slash); apply IH.
Qed.

Lemma lastSegment_noSlash b acc :
  noSlash b = true -> lastSegment acc b = (acc ++ b)%string.
Proof.
  revert acc. induction b as [|c b IH]; intros acc; cbn [lastSegment noSlash].
  - by rewrite append_empty_r.
  - intros [Hc Hb]%andb_prop. apply negb_true_iff in Hc. rewrite Hc.
    rewrite IH by done. by rewrite append_assoc.
Qed.

Lemma noSlash_app a b :
  noSlash a = true -> noSlash b = true -> noSlash (a ++ b) = true.
Proof.
  induction a as [|c a IH]; [done|]. rewrite append_cons. cbn [noSlash].
  intros [Hc Ha]%andb_prop Hb. rewrite Hc. by apply IH.
Qed.

End StorageFacts.

(** X20. [normalizeKey] strips every leading slash and nothing else: its
    result never starts with a slash, a key without a leading slash is
    returned as it is, and normalising twice, as [storagePut] followed by
    [buildUploadUrl] does, is the same as normalising once. *)
Theorem normalizeKey_idempotent key :
  StorageFacts.noLeadingSlash (Storage.normalizeKey key) = true /\
  (StorageFacts.noLeadingSlash key = true -> Storage.normalizeKey key = key) /\
  Storage.normalizeKey (Storage.normalizeKey key) = Storage.normalizeKey key.
Proof.
  split; [apply StorageFacts.normalizeKey_noLeadingSlash|].
  split; [apply StorageFacts.normalizeKey_id|].
  apply StorageFacts.normalizeKey_id, StorageFacts.normalizeKey_noLeadingSlash.
Qed.

(** X21. The key [uploadImage] builds is stored as it is, whatever the user
    id, and the file is uploaded under the name [<id>.jpg], provided the
    generated id has no slash (nanoid draws from letters, digits, [_] and
    [-]). *)
Theorem uploadImage_key user id :
  StorageFacts.noSlash id = true ->
  Storage.normalizeKey (Storage.fileKey user id) = Storage.fileKey user id /\
  Storage.fileName (Storage.normalizeKey (Storage.fileKey user id))
    = (id ++ ".jpg")%string.
Proof.
  intros Hid.
  assert (Storage.normalizeKey (Storage.fileKey user id)
          = Storage.fileKey user id) as -> by reflexivity.
  split; [done|].
  unfold Storage.fileName, Storage.fileKey.
  change ("food-images/" ++ user ++ "/" ++ id ++ ".jpg")%string
    with ("food-images/" ++ (user ++ String Storage.slash (id ++ ".jpg")))%string.
  rewrite <- StorageFacts.append_assoc, StorageFacts.lastSegment_slash.
  rewrite StorageFacts.lastSegment_noSlash; [done|].
  by apply StorageFacts.noSlash_app.
Qed.

(** * The client *)

(** The calendar day, counted from the epoch, of an instant on the
    server's clock. *)
Definition localDay (tz : Z) (d : Date) : Z := (d + tz) `div` MS_PER_DAY.

Lemma inDay_localDay tz u d e :
  inDay u (setHours tz 0 0 0 0 d) (setHours tz 23 59 59 999 d) e <->
  FoodEntry.userId e = u /\ localDay tz (FoodEntry.date e) = localDay tz d.
Proof.
  rewrite setHours_end_of_day. unfold inDay, setHours, localDay, MS_PER_DAY.
  pose proof (Z.mod_pos_bound (d + tz) 86400000 ltac:(lia)) as Hb.
  pose proof (Z.div_mod (d + tz) 86400000 ltac:(lia)) as Hq.
  pose proof (Z.mod_pos_bound (FoodEntry.date e + tz) 86400000 ltac:(lia))
    as Hb'.
  pose proof (Z.div_mod (FoodEntry.date e + tz) 86400000 ltac:(lia)) as Hq'.
  split.
  - intros (Hu & Hlo & Hhi). split; [done|]. nia.
  - intros (Hu & Hday). split; [done|]. nia.
Qed.

(** X22. Picking day [k] in the date box of the history tab selects midnight
    UTC of that day, which the box shows again as day [k].  The entries
    then listed are the caller's entries of the calendar day, on the
    server's clock, that contains that instant: day [k] itself when the
    server's zone is UTC or east of it, and the day before [k] when it is
    west of UTC. *)
Theorem history_date_box_day tz userId k s :
  connected s = true ->
  - MS_PER_DAY < tz < MS_PER_DAY ->
  HistoryTab.dateString (HistoryTab.handleDateInput k) = k /\
  exists entries,
    foodRouter.getFoodsByDate tz userId (HistoryTab.handleDateInput k) s
      = (Ok entries, s) /\
    forall e,
      e ∈ entries <->
      e ∈ foodEntries s /\ FoodEntry.userId e = userId /\
      localDay tz (FoodEntry.date e) = if 0 <=? tz then k else k - 1.
Proof.
  intros Hc Htz. unfold HistoryTab.dateString, HistoryTab.handleDateInput.
  split; [unfold MS_PER_DAY; by rewrite Z.div_mul by lia|].
  unfold foodRouter.getFoodsByDate.
  rewrite getFoodEntriesByDate_run by done. eexists. split; [done|].
  intros e. rewrite orderBy_Permutation, list_elem_of_filter, inDay_localDay.
  assert (localDay tz (k * MS_PER_DAY) = if 0 <=? tz then k else k - 1) as ->.
  { unfold localDay, MS_PER_DAY in *. destruct (Z.leb_spec 0 tz).
    - rewrite Z.add_comm, Z.div_add by lia. rewrite Z.div_small by lia. lia.
    - replace (k * 86400000 + tz) with ((tz + 86400000) + (k - 1) * 86400000)
        by lia.
      rewrite Z.div_add by lia. rewrite Z.div_small by lia. lia. }
  tauto.
Qed.

Lemma foodsByMealTime_cons e l m :
  Dashboard.foodsByMealTime (e :: l) m =
    if decide (FoodEntry.mealTime e = m)
    then e :: Dashboard.foodsByMealTime l m
    else Dashboard.foodsByMealTime l m.
Proof. unfold Dashboard.foodsByMealTime. by rewrite filter_cons. Qed.

(** X23. The four meal cards of the dashboard and of the history tab split the
    entries they are given: every entry is on the card of its own meal
    time and on no other, each card keeps the order of the list, and
    taken together the cards hold every entry exactly once. *)
Theorem meal_cards_partition foodEntries :
  (forall e m,
     e ∈ Dashboard.foodsByMealTime foodEntries m <->
     e ∈ foodEntries /\ FoodEntry.mealTime e = m) /\
  (forall m, Dashboard.foodsByMealTime foodEntries m `sublist_of` foodEntries) /\
  concat (Dashboard.cards foodEntries) ≡ₚ foodEntries.
Proof.
  split; [|split].
  - intros e m. unfold Dashboard.foodsByMealTime.
    rewrite list_elem_of_filter. tauto.
  - intros m. apply sublist_filter.
  - unfold Dashboard.cards. cbn [map concat]. rewrite app_nil_r.
    induction foodEntries as [|e l IH]; [done|].
    rewrite !foodsByMealTime_cons.
    destruct (FoodEntry.mealTime e); repeat case_decide; try done.
    + cbn [app]. by rewrite IH.
    + cbn [app]. rewrite <- Permutation_middle. by rewrite IH.
    + cbn [app]. rewrite app_assoc, <- Permutation_middle, <- app_assoc.
      by rewrite IH.
    + cbn [app]. rewrite !app_assoc, <- Permutation_middle, <- !app_assoc.
      by rewrite IH.
Qed.

(** The goals row of a user once [upsertUserGoals] has run. *)
Definition goalsRow (now : Date) (userId : UserId) (data : PartialUserGoals.t)
    (s : Store) : UserGoals.t :=
  match head (filter (fun g => UserGoals.userId g = userId) (userGoals s)) with
  | Some g0 => setGoals now data g0
  | None => newGoals now (userGoals_autoinc s) userId data
  end.

Lemma upsertedGoals_row now userId data s :
  head (filter (fun g => UserGoals.userId g = userId)
          (userGoals (upsertedGoals now userId data s)))
  = Some (goalsRow now userId data s).
Proof.
  unfold upsertedGoals, goalsRow.
  destruct (head (filter _ (userGoals s))) as [g0|] eqn:Hhead.
  - cbn [userGoals set_userGoals].
    rewrite (head_filter_map (fun g => UserGoals.userId g = userId)).
    + rewrite Hhead. cbn [fmap option_fmap option_map].
      apply head_Some_elem_of in Hhead.
      apply list_elem_of_filter in Hhead as [Hu _].
      by rewrite decide_True.
    + intros g. by case_decide.
  - cbn [userGoals]. rewrite filter_app.
    destruct (filter _ (userGoals s)); [|done].
    by rewrite filter_cons_True by done.
Qed.

Lemma check_min_nil field lo x :
  check_min field lo x = [] -> (JS.of_int lo <= x)%Qc.
Proof. unfold check_min, check. by case_bool_decide. Qed.

Lemma of_int_le_to_int lo x : (JS.of_int lo <= x)%Qc -> lo <= JS.to_int x.
Proof.
  intros Hle. unfold JS.to_int.
  rewrite <- (Qfloor_Z lo). apply Qfloor_resp_le.
  exact Hle.
Qed.

(** X24. What the dashboard shows after goals have been saved with all four
    values, as both dialogs send them: the saved calorie goal, and each
    saved macro goal except a goal of zero, in whose place the built-in
    default (150, 250 or 65 g) is shown. *)
Theorem dashboard_shows_saved_goals now userId input c p cb f s :
  connected s = true ->
  UpdateGoalsInput.issues input = [] ->
  UpdateGoalsInput.dailyCalories input = Some c ->
  UpdateGoalsInput.dailyProtein input = Some p ->
  UpdateGoalsInput.dailyCarbs input = Some cb ->
  UpdateGoalsInput.dailyFats input = Some f ->
  exists s' goals,
    foodRouter.updateGoals now userId input s = (Ok tt, s') /\
    foodRouter.getGoals userId s' = (Ok goals, s') /\
    Dashboard.dailyCalorieGoal (Some goals) = JS.to_int c /\
    Dashboard.dailyProteinGoal (Some goals)
      = (if decide (p = 0%Qc) then JS.of_int 150 else p) /\
    Dashboard.dailyCarbsGoal (Some goals)
      = (if decide (cb = 0%Qc) then JS.of_int 250 else cb) /\
    Dashboard.dailyFatsGoal (Some goals)
      = (if decide (f = 0%Qc) then JS.of_int 65 else f).
Proof.
  intros Hc Hv Hcal Hp Hcb Hf.
  assert (connected (upsertedGoals now userId (UpdateGoalsInput.output input) s)
          = true) as Hc'
    by (unfold upsertedGoals; by destruct (head _)).
  exists (upsertedGoals now userId (UpdateGoalsInput.output input) s),
         (GoalsRow (goalsRow now userId (UpdateGoalsInput.output input) s)).
  split.
  { unfold foodRouter.updateGoals. rewrite Hv.
    rewrite (bind_ok _ _ s tt s) by done.
    apply upsertUserGoals_store; [done|].
    unfold UpdateGoalsInput.output. rewrite Hcal.
    by destruct (UpdateGoalsInput.height input),
         (UpdateGoalsInput.weight input), (UpdateGoalsInput.age input),
         (UpdateGoalsInput.gender input),
         (UpdateGoalsInput.activityLevel input). }
  split.
  { unfold foodRouter.getGoals.
    rewrite (bind_ok _ _ _ _ _ (getUserGoals_run _ userId Hc')).
    by rewrite upsertedGoals_row. }
  assert (500 <= JS.to_int c) as Hc500.
  { apply of_int_le_to_int. unfold UpdateGoalsInput.issues in Hv.
    rewrite Hcal in Hv. cbn [optional from_option] in Hv.
    apply app_eq_nil in Hv as [_ Hv]. apply app_eq_nil in Hv as [Hv _].
    by apply (check_min_nil "dailyCalories"). }
  unfold Dashboard.dailyCalorieGoal, Dashboard.dailyProteinGoal,
    Dashboard.dailyCarbsGoal, Dashboard.dailyFatsGoal,
    Dashboard.DEFAULT_CALORIE_GOAL, Dashboard.DEFAULT_PROTEIN_GOAL,
    Dashboard.DEFAULT_CARBS_GOAL, Dashboard.DEFAULT_FATS_GOAL,
    JS.or_default, JS.or_default_int, goalsRow, UpdateGoalsInput.output.
  rewrite Hcal, Hp, Hcb, Hf.
  destruct (head (filter _ (userGoals s))) as [g0|]; cbn;
    (split; [rewrite bool_decide_eq_false_2 by lia; done|]);
    repeat split; by case_bool_decide; case_decide.
Qed.

(** ** Rounding *)

(** Turns a goal on [Qc] into one on [Q]. *)
Ltac qc2q :=
  unfold JS.num, JS.of_int in *;
  unfold Qcle, Qclt, Qcdiv, Qcminus in *;
  unfold Qcplus, Qcmult, Qcopp, Qcinv, Q2Qc, Qc_of_Z in *;
  cbn [this] in *;
  rewrite ?Qred_correct in *.

Ltac qc_lra := qc2q; unfold inject_Z, Qinv in *; cbn [Qnum Qden] in *; lra.

Lemma Math_round_error (x : Qc) :
  (inject_Z (JS.Math_round x) <= x + (1 # 2))%Q /\
  (x - (1 # 2) < inject_Z (JS.Math_round x))%Q.
Proof.
  unfold JS.Math_round.
  pose proof (Qfloor_le (x + JS.num 1 2)%Qc) as Hfl.
  pose proof (Qlt_floor (x + JS.num 1 2)%Qc) as Hlt.
  assert (this (x + JS.num 1 2)%Qc == x + (1 # 2))%Q as Hy
    by (unfold JS.num, Qcplus, Q2Qc; cbn [this]; by rewrite !Qred_correct).
  set (y := this (x + JS.num 1 2)%Qc) in *.
  rewrite inject_Z_plus in Hlt. change (inject_Z 1) with 1%Q in Hlt.
  split; lra.
Qed.

Lemma Math_round_between (x : Qc) lo hi :
  (JS.of_int lo <= x)%Qc -> (x <= JS.of_int hi)%Qc ->
  lo <= JS.Math_round x <= hi.
Proof.
  intros Hlo Hhi. destruct (Math_round_error x) as [Hle Hlt].
  unfold JS.of_int, Qcle, Qc_of_Z in Hlo, Hhi. cbn [this] in Hlo, Hhi.
  split.
  - apply Z.lt_pred_le. rewrite Zlt_Qlt. unfold Z.pred.
    rewrite inject_Z_plus. change (inject_Z (-1)) with (-1)%Q. lra.
  - apply Z.lt_succ_r. rewrite Zlt_Qlt. unfold Z.succ.
    rewrite inject_Z_plus. change (inject_Z 1) with 1%Q. lra.
Qed.

Lemma isInteger_of_int n : JS.isInteger (JS.of_int n) = true.
Proof.
  unfold JS.isInteger, JS.to_int, JS.of_int. apply bool_decide_eq_true_2.
  unfold Qc_of_Z at 2. cbn [this]. by rewrite Qfloor_Z.
Qed.

Lemma between_of_int lo hi n : lo <= n <= hi -> between lo hi (JS.of_int n).
Proof. intros [Hlo Hhi]. split; by apply (proj1 (of_int_le _ _)). Qed.

Lemma roundTenth_between x hi :
  between 0 hi x -> between 0 hi (GoalsSettingsModal.roundTenth x).
Proof.
  intros [Hlo Hhi]. unfold between, GoalsSettingsModal.roundTenth.
  destruct (Math_round_between (x * JS.of_int 10)%Qc 0 (hi * 10)) as [Hl Hh].
  - qc_lra.
  - unfold JS.of_int, Qc_of_Z, Qcle, Qcmult, Q2Qc in *. cbn [this] in *.
    rewrite Qred_correct, inject_Z_mult.
    change (inject_Z 10) with 10%Q. nra.
  - set (m := JS.Math_round _) in *.
    rewrite Zle_Qle in Hl, Hh. rewrite inject_Z_mult in Hh.
    unfold JS.of_int, Qc_of_Z, Qcle, Qcdiv, Qcmult, Qcinv, Q2Qc in *.
    cbn [this] in *. rewrite !Qred_correct.
    change (inject_Z 10) with 10%Q in *. change (inject_Z 0) with 0%Q in *.
    change (/ 10)%Q with (1 # 10)%Q.
    split; lra.
Qed.

(** X25. Whatever state the four sliders of the goals dialog are in, within
    the ranges the server accepts (the sliders themselves stop at 5000
    kcal), the goals [handleSaveGoals] sends after rounding pass the
    validation of [updateGoals]: saving from the sliders is never
    rejected for its values. *)
Theorem handleSaveGoals_accepted st :
  between 500 10000 (GoalsSettingsModal.dailyCalories st) ->
  between 0 500 (GoalsSettingsModal.dailyProtein st) ->
  between 0 1000 (GoalsSettingsModal.dailyCarbs st) ->
  between 0 500 (GoalsSettingsModal.dailyFats st) ->
  UpdateGoalsInput.issues (GoalsSettingsModal.handleSaveGoals st) = [].
Proof.
  intros [Hc1 Hc2] Hp Hcb Hf. apply in_range_issues.
  unfold in_range, supplied_within, GoalsSettingsModal.handleSaveGoals.
  cbn [UpdateGoalsInput.dailyCalories UpdateGoalsInput.dailyProtein
       UpdateGoalsInput.dailyCarbs UpdateGoalsInput.dailyFats].
  split; [|split; [|split; [|split]]].
  - intros x [= <-]. apply between_of_int. by apply Math_round_between.
  - intros x [= <-]. apply isInteger_of_int.
  - intros x [= <-]. by apply roundTenth_between.
  - intros x [= <-]. by apply roundTenth_between.
  - intros x [= <-]. by apply roundTenth_between.
Qed.

Lemma toFixed0_between x hi :
  1 <= JS.toFixed0 x <= hi -> between 0 (hi + 1) x.
Proof.
  unfold JS.toFixed0, between. intros [Hlo Hhi]. case_bool_decide as Hneg.
  - exfalso.
    assert (0 <= Qfloor (- x + JS.num 1 2)%Qc); [|lia].
    rewrite <- (Qfloor_Z 0). apply Qfloor_resp_le.
    change (inject_Z 0 <= (- x + JS.num 1 2)%Qc)%Q. qc_lra.
  - apply Qcnot_lt_le in Hneg. split; [exact Hneg|].
    destruct (Math_round_error x) as [_ Hlt].
    fold (JS.Math_round x) in Hhi. rewrite Zle_Qle in Hhi.
    unfold JS.of_int, Qcle, Qc_of_Z. cbn [this].
    rewrite inject_Z_plus. change (inject_Z 1) with 1%Q. lra.
Qed.

Lemma calculateBMI_Some height weight age gender activityLevel goal r :
  BMICalculator.calculateBMI height weight age gender activityLevel goal
    = Some r ->
  exists kcal,
    BMICalculator.tdee r = JS.toFixed0 kcal /\
    BMICalculator.dailyCalories r = JS.Math_round kcal /\
    BMICalculator.suggestedMacros r = BMICalculator.calculateMacros kcal goal.
Proof.
  unfold BMICalculator.calculateBMI.
  destruct height as [h|], weight as [w|], age as [a|]; try done.
  destruct (_ || _); [done|]. intros [= <-]. by eexists.
Qed.

Lemma calculateMacros_between kcal goal hi :
  hi <= 5701 -> between 0 hi kcal ->
  let m := BMICalculator.calculateMacros kcal goal in
  0 <= BMICalculator.protein m <= 500 /\
  0 <= BMICalculator.carbs m <= 1000 /\
  0 <= BMICalculator.fats m <= 500.
Proof.
  intros Hhi [Hlo Hle].
  assert (kcal <= JS.of_int 5701)%Qc as Hmax
    by (eapply Qcle_trans; [exact Hle|by apply (proj1 (of_int_le _ _))]).
  clear Hle Hhi. unfold BMICalculator.calculateMacros.
  destruct (String.eqb goal "lose"); [|destruct (String.eqb goal "gain")];
    cbn [BMICalculator.protein BMICalculator.carbs BMICalculator.fats];
    (split; [|split]); apply Math_round_between; qc_lra.
Qed.

(** X26. "Apply as Daily Goal" sends the calorie figure the calculator shows
    and its three macro suggestions.  The server accepts them whenever
    the figure shown is between 500 and 5700 kcal, and rejects them, with
    the goals left as they were, whenever it is below 500 or above 10000
    kcal. *)
Theorem applied_BMI_goals_validation height weight age gender activityLevel
    goal r :
  BMICalculator.calculateBMI height weight age gender activityLevel goal
    = Some r ->
  (500 <= BMICalculator.tdee r <= 5700 ->
   UpdateGoalsInput.issues (GoalsSettingsModal.handleApplyBMIGoals r) = []) /\
  (BMICalculator.tdee r < 500 \/ 10000 < BMICalculator.tdee r ->
   forall now userId s,
     exists issues,
       foodRouter.updateGoals now userId
         (GoalsSettingsModal.handleApplyBMIGoals r) s
       = (Throw (BAD_REQUEST issues), s)).
Proof.
  intros (kcal & Htdee & _ & Hm)%calculateBMI_Some. split.
  - intros Hr. apply in_range_issues.
    destruct (calculateMacros_between kcal goal 5701) as (Hp & Hcb & Hf);
      [lia|apply (toFixed0_between kcal 5700); lia|].
    rewrite <- Hm in Hp, Hcb, Hf.
    unfold in_range, supplied_within, GoalsSettingsModal.handleApplyBMIGoals.
    cbn [UpdateGoalsInput.dailyCalories UpdateGoalsInput.dailyProtein
         UpdateGoalsInput.dailyCarbs UpdateGoalsInput.dailyFats].
    split; [|split; [|split; [|split]]]; intros x [= <-];
      try apply isInteger_of_int; apply between_of_int; lia.
  - intros Hout now userId s.
    assert (UpdateGoalsInput.issues (GoalsSettingsModal.handleApplyBMIGoals r)
            <> []) as Hissues.
    { apply out_of_range_issues. left. eexists. split; [done|].
      intros [Hlo Hhi]. apply (proj2 (of_int_le _ _)) in Hlo, Hhi. lia. }
    unfold foodRouter.updateGoals.
    destruct (UpdateGoalsInput.issues _) as [|i issues]; [done|].
    by eexists.
Qed.

(** X27. The macro suggestion of the calculator accounts for the calories it is
    made for: at 4 kcal per gram of protein and of carbohydrate and 9 per
    gram of fat, the suggested grams add up to the calorie figure within
    8.5 kcal, whatever the goal. *)
Theorem calculateMacros_energy calories goal :
  let m := BMICalculator.calculateMacros calories goal in
  let energy := 4 * BMICalculator.protein m + 4 * BMICalculator.carbs m
                + 9 * BMICalculator.fats m in
  (calories - JS.num 17 2 <= JS.of_int energy)%Qc /\
  (JS.of_int energy <= calories + JS.num 17 2)%Qc.
Proof.
  intros m energy. subst energy m. unfold BMICalculator.calculateMacros.
  destruct (String.eqb goal "lose"); [|destruct (String.eqb goal "gain")];
    cbn [BMICalculator.protein BMICalculator.carbs BMICalculator.fats];
    match goal with
    | |- context [4 * JS.Math_round ?p + 4 * JS.Math_round ?c
                  + 9 * JS.Math_round ?f] =>
        destruct (Math_round_error p) as [Hp1 Hp2];
        destruct (Math_round_error c) as [Hc1 Hc2];
        destruct (Math_round_error f) as [Hf1 Hf2];
        set (P := JS.Math_round p) in *;
        set (C := JS.Math_round c) in *;
        set (F := JS.Math_round f) in *
    end;
    assert (inject_Z (4 * P + 4 * C + 9 * F)
            == 4 * inject_Z P + 4 * inject_Z C + 9 * inject_Z F)%Q as Heq
      by (by rewrite !inject_Z_plus, !inject_Z_mult);
    qc2q; rewrite Heq;
    set (qp := inject_Z P) in *; set (qc := inject_Z C) in *;
    set (qf := inject_Z F) in *; clearbody qp qc qf;
    unfold inject_Z, Qinv in *; cbn [Qnum Qden] in *; lra.
Qed.

(** ** The food dialogs *)

(** X28. The estimate of the add-food dialog never throws for a named food,
    and its spinner always stops.  A failed estimate, and one of zero
    calories, leaves the four number boxes as the user has them; any
    other estimate overwrites all four with its rounded values. *)
Theorem estimate_fills_form toString foodName (reply : LLMReply Macros.t)
    form s :
  (1 <= String.length foodName)%nat ->
  exists data,
    foodRouter.calculateMacros foodName reply s = (Ok data, s) /\
    let form' := AddFoodModal.onSuccess toString data form in
    AddFoodModal.isCalculating form' = false /\
    match reply with
    | Response (Parsed estimate) =>
        if decide (Macros.calories estimate = 0%Qc)
        then form' = AddFoodModal.mkForm
                       (AddFoodModal.calories form) (AddFoodModal.protein form)
                       (AddFoodModal.carbs form) (AddFoodModal.fats form) false
        else form' = AddFoodModal.mkForm
               (toString (JS.of_int (JS.Math_round (Macros.calories estimate))))
               (toString (GoalsSettingsModal.roundTenth (Macros.protein estimate)))
               (toString (GoalsSettingsModal.roundTenth (Macros.carbs estimate)))
               (toString (GoalsSettingsModal.roundTenth (Macros.fats estimate)))
               false
    | _ =>
        form' = AddFoodModal.mkForm
                  (AddFoodModal.calories form) (AddFoodModal.protein form)
                  (AddFoodModal.carbs form) (AddFoodModal.fats form) false
    end.
Proof.
  intros Hname. unfold foodRouter.calculateMacros.
  rewrite (bool_decide_eq_true_2 _ Hname). cbn [check].
  rewrite (bind_ok _ _ s tt s) by done.
  unfold AddFoodModal.onSuccess.
  destruct reply as [|[| |estimate]]; eexists; (split; [reflexivity|]);
    cbn [Macros.calories]; try by rewrite bool_decide_eq_true_2.
  case_bool_decide; [by rewrite decide_True|by rewrite decide_False].
Qed.

Lemma check_min_iff field lo x :
  check_min field lo x = [] <-> (JS.of_int lo <= x)%Qc.
Proof. unfold check_min, check. by case_bool_decide. Qed.

Lemma Math_round_nonneg x :
  (JS.of_int 0 <= JS.of_int (JS.Math_round x))%Qc <-> (JS.num (-1) 2 <= x)%Qc.
Proof.
  rewrite <- of_int_le. destruct (Math_round_error x) as [Hle Hlt]. split.
  - intros Hm. rewrite Zle_Qle in Hm. change (inject_Z 0) with 0%Q in Hm.
    qc_lra.
  - intros Hx. apply Z.lt_pred_le. rewrite Zlt_Qlt.
    change (inject_Z (Z.pred 0)) with (-1)%Q. qc_lra.
Qed.

(** X29. For a named entry whose five number boxes parse to numbers, the
    edit dialog sends an update with the calories rounded to an integer,
    which is the value handed to the database, together with the
    quantity and the unit of the dialog.  The server accepts the update
    exactly when protein, carbohydrates and fats are not negative and the
    rounded calories are between 0 and the largest safe integer, 2^53 - 1
    (so the calories typed are at least -0.5). *)
Theorem handleSave_validation foodName cal prot carb fat qty unit mealTime :
  foodName <> ""%string ->
  exists data,
    EditFoodModal.handleSave foodName (Some cal) (Some prot) (Some carb)
      (Some fat) (Some qty) unit mealTime = Some data /\
    PartialFoodEntry.calories (UpdateFoodData.output data)
      = Some (JS.Math_round cal) /\
    PartialFoodEntry.quantity (UpdateFoodData.output data) = Some qty /\
    PartialFoodEntry.unit (UpdateFoodData.output data) = Some unit /\
    (UpdateFoodData.issues data = [] <->
     (JS.num (-1) 2 <= cal)%Qc /\
     JS.Math_round cal <= JS.MAX_SAFE_INTEGER /\
     (0 <= prot)%Qc /\ (0 <= carb)%Qc /\ (0 <= fat)%Qc).
Proof.
  intros Hname. unfold EditFoodModal.handleSave.
  rewrite (proj2 (String.eqb_neq _ _) Hname).
  eexists. split; [reflexivity|]. split.
  { cbn [UpdateFoodData.output UpdateFoodData.calories
         PartialFoodEntry.calories fmap option_fmap option_map].
    f_equal. exact (Qfloor_Z _). }
  split; [reflexivity|]. split; [reflexivity|].
  unfold UpdateFoodData.issues.
  cbn [UpdateFoodData.foodName UpdateFoodData.calories UpdateFoodData.protein
       UpdateFoodData.carbs UpdateFoodData.fats optional from_option].
  assert (1 <= String.length foodName)%nat as Hlen
    by (destruct foodName; [done|simpl; lia]).
  rewrite (bool_decide_eq_true_2 _ Hlen). cbn [check app].
  rewrite !app_nil, check_int_nil, !check_min_iff, Math_round_nonneg, of_int_0.
  rewrite isInteger_of_int. unfold between.
  rewrite <- !of_int_le.
  pose proof (proj2 (Math_round_nonneg cal)) as Hnonneg.
  rewrite <- of_int_le in Hnonneg.
  unfold JS.MAX_SAFE_INTEGER in *.
  split.
  - intros ((_ & _ & Hmax) & Hcal & Hrest). tauto.
  - intros (Hcal & Hmax & Hrest). specialize (Hnonneg Hcal).
    repeat split; try tauto; lia.
Qed.

(** * Instances *)

Module Sample.

(** The worked store with the database unreachable. *)
Definition down : Store := mkStore false [] 1 [] 1 [] 1.

Definition jam : AddFoodInput.t :=
  AddFoodInput.mk "jam" morning (JS.of_int 50) (JS.of_int 0)
    (JS.of_int 13) (JS.of_int 0) None None None None manual Example.day.

(** Two slices of bread. *)
Definition slices : AddFoodInput.t :=
  AddFoodInput.mk "bread" morning (JS.of_int 160) (JS.of_int 6)
    (JS.of_int 30) (JS.of_int 2) (Some (JS.of_int 2)) (Some "slice"%string)
    None None manual Example.day.

(** The row they become, and the store after alice logged them. *)
Definition slicesRow : FoodEntry.t :=
  newFoodEntry 1700000001000 1
    (AddFoodEntrySchema.output Example.alice slices).

Definition sliced : Store :=
  (foodRouter.addFood Example.tz 1700000001000 Example.alice slices
     Example.empty).2.

(** Goals with a protein goal of zero. *)
Definition goals : UpdateGoalsInput.t :=
  UpdateGoalsInput.mk None None None None None (Some (JS.of_int 2200))
    (Some (JS.of_int 0)) (Some (JS.of_int 300)) (Some (JS.of_int 70)).

(** Alice logs toast, then jam, then sets her goals. *)
Definition morning_requests : list Request :=
  [AddFood 1700000001000 Example.alice Example.toast;
   AddFood 1700000002000 Example.alice jam;
   UpdateGoals 1700000003000 Example.alice goals].

End Sample.

Lemma empty_wellKeyed : wellKeyed Example.empty.
Proof. constructor; simpl; constructor. Qed.

Lemma empty_all_consistent : all_consistent Example.tz Example.empty.
Proof.
  intros u d. exists [], (SummaryObject 0 0%Qc 0%Qc 0%Qc).
  repeat split; reflexivity.
Qed.

Lemma unavailable_database_fails_closed_witness :
  foodRouter.addFood Example.tz 1700000001000 Example.alice Example.toast
    Sample.down = (Throw DatabaseNotAvailable, Sample.down) /\
  foodRouter.getFoodsByDate Example.tz Example.alice Example.day Sample.down
    = (Throw DatabaseNotAvailable, Sample.down) /\
  foodRouter.deleteFood Example.alice 1 Sample.down
    = (Throw DatabaseNotAvailable, Sample.down) /\
  foodRouter.updateFood 1700000001000 Example.alice 1 Example.richer
    Sample.down = (Throw DatabaseNotAvailable, Sample.down) /\
  foodRouter.getDailySummary Example.tz Example.alice Example.day Sample.down
    = (Throw DatabaseNotAvailable, Sample.down) /\
  foodRouter.analyzeImage Example.tz 1700000001000 Example.alice Example.photo
    (Response (Parsed Example.soup)) Sample.down
    = (Throw DatabaseNotAvailable, Sample.down) /\
  foodRouter.analyzeBarcode Example.tz 1700000001000 Example.alice
    Example.scan (Response (Parsed Example.soup)) Sample.down
    = (Throw DatabaseNotAvailable, Sample.down) /\
  foodRouter.getGoals Example.alice Sample.down
    = (Throw DatabaseNotAvailable, Sample.down) /\
  foodRouter.updateGoals 1700000001000 Example.alice Sample.goals Sample.down
    = (Throw DatabaseNotAvailable, Sample.down).
Proof.
  apply (unavailable_database_fails_closed Example.tz Sample.down
           1700000001000 Example.alice 1 Example.day Example.toast
           Example.richer Sample.goals Example.photo Example.scan
           Example.soup); reflexivity.
Defined.

Lemma requests_keep_keys_witness :
  wellKeyed (execAll Example.tz Sample.morning_requests Example.empty).
Proof.
  apply (requests_keep_keys Example.tz Sample.morning_requests Example.empty).
  apply empty_wellKeyed.
Defined.

Lemma history_in_insertion_order_witness :
  foodRouter.getFoodsByDate Example.tz Example.alice Example.day
    (execAll Example.tz Sample.morning_requests Example.empty) =
  (Ok (filter (inDay Example.alice
                 (setHours Example.tz 0 0 0 0 Example.day)
                 (setHours Example.tz 23 59 59 999 Example.day))
         (foodEntries
            (execAll Example.tz Sample.morning_requests Example.empty))),
   execAll Example.tz Sample.morning_requests Example.empty).
Proof.
  apply (history_in_insertion_order Example.tz Sample.morning_requests 0
           Example.empty Example.alice Example.day).
  - reflexivity.
  - split; constructor.
  - simpl. lia.
Defined.

Lemma adding_histories_keep_summaries_witness :
  summary_consistent Example.tz
    (execAll Example.tz Sample.morning_requests Example.empty)
    Example.alice Example.day.
Proof.
  apply (adding_histories_keep_summaries Example.tz Sample.morning_requests
           Example.empty).
  - reflexivity.
  - apply empty_wellKeyed.
  - apply empty_all_consistent.
  - repeat constructor.
Defined.



Lemma addFood_order_irrelevant_witness :
  exists vab vba,
    foodRouter.getDailySummary Example.tz Example.alice Example.day
      (exec Example.tz (AddFood 1700000002000 Example.alice Sample.jam)
         (exec Example.tz (AddFood 1700000001000 Example.alice Example.toast)
            Example.empty))
    = (Ok vab,
       exec Example.tz (AddFood 1700000002000 Example.alice Sample.jam)
         (exec Example.tz (AddFood 1700000001000 Example.alice Example.toast)
            Example.empty)) /\
    foodRouter.getDailySummary Example.tz Example.alice Example.day
      (exec Example.tz (AddFood 1700000002000 Example.alice Example.toast)
         (exec Example.tz (AddFood 1700000001000 Example.alice Sample.jam)
            Example.empty))
    = (Ok vba,
       exec Example.tz (AddFood 1700000002000 Example.alice Example.toast)
         (exec Example.tz (AddFood 1700000001000 Example.alice Sample.jam)
            Example.empty)) /\
    totalsOf vab = totalsOf vba.
Proof.
  apply (addFood_order_irrelevant Example.tz Example.empty 1700000001000
           1700000002000 Example.alice Example.toast Sample.jam);
    reflexivity.
Defined.

Lemma deleteFood_removes_own_entry_witness :
  exists s',
    foodRouter.deleteFood Example.alice 1 Example.logged
      = (Ok (mkSuccess true), s') /\
    (Witness.toastRow ∉ foodEntries s') /\
    dailySummary s' = dailySummary Example.logged /\
    foodRouter.deleteFood Example.alice 1 s' = (Ok (mkSuccess true), s').
Proof.
  destruct (deleteFood_removes_own_entry Example.logged Example.alice 1
              Witness.toastRow)
    as (l1 & l2 & s' & _ & Hdel & _ & Hgone & Hsum & _ & Hagain).
  - reflexivity.
  - vm_compute. apply NoDup_singleton.
  - vm_compute. left.
  - reflexivity.
  - reflexivity.
  - exists s'. repeat split; assumption.
Defined.

Lemma updateFood_rewrites_own_entry_witness :
  FoodEntry.quantity Sample.slicesRow = Some (JS.of_int 2) /\
  FoodEntry.unit Sample.slicesRow = Some "slice"%string /\
  exists l1 l2 e' s',
    foodEntries Sample.sliced = l1 ++ Sample.slicesRow :: l2 /\
    foodRouter.updateFood 1700000002000 Example.alice 1 Example.richer
      Sample.sliced = (Ok (mkSuccess true), s') /\
    foodEntries s' = l1 ++ e' :: l2 /\
    dailySummary s' = dailySummary Sample.sliced /\
    FoodEntry.foodName e' = "bread"%string /\
    JS.of_int (FoodEntry.calories e') = JS.of_int 500 /\
    FoodEntry.quantity e' = Some 1%Qc /\
    FoodEntry.unit e' = Some "serving"%string.
Proof.
  split; [reflexivity|]. split; [reflexivity|].
  destruct (updateFood_rewrites_own_entry Sample.sliced 1700000002000
              Example.alice 1 Sample.slicesRow Example.richer)
    as (l1 & l2 & e' & s' & Hrows & Hup & Hrows' & Hsum & _ & _ & _ & _
        & Hname & _ & Hcal & _ & _ & _ & _ & _ & _ & _ & Hqty & Hunit).
  - reflexivity.
  - vm_compute. apply NoDup_singleton.
  - vm_compute. left.
  - reflexivity.
  - reflexivity.
  - reflexivity.
  - exists l1, l2, e', s'. repeat split; assumption.
Defined.

Module People.

Definition db : Database := mkDatabase Example.empty [] 1 [] 1.

(** The same with the database unreachable. *)
Definition offline : Database := mkDatabase Sample.down [] 1 [] 1.

Definition hummus : AddCustomFoodInput.t :=
  AddCustomFoodInput.mk "hummus" (JS.of_int 166) (JS.of_int 8)
    (JS.of_int 14) (JS.of_int 10) None.

Definition owner : string := "owner-1".

Definition visitor : InsertUser.t :=
  InsertUser.mk "visitor-7" (Some (Some "Vi"%string)) None None None None.

(** The row [visitor] becomes. *)
Definition vi : User.t :=
  User.mk 1 "visitor-7" (Some "Vi"%string) None None Role.user
    1700000000000 1700000000000 1700000000000.

(** The database once [visitor] has been stored. *)
Definition member : Database := (upsertUser owner 1700000000000 visitor db).2.

Definition session : Session := mkSession "visitor-7" "calcount" "Vi".

Definition info : UserInfoReply :=
  UserInfo "visitor-7" (Some "Vi"%string) None (Some "google"%string).

End People.

Lemma addCustomFood_round_trip_witness :
  exists id db',
    customFoodRouter.addCustomFood 1700000001000 Example.alice People.hummus
      People.db = (Ok id, db') /\
    customFoodRouter.getCustomFoods Example.alice db' =
      (Ok [CustomFood.mk id Example.alice "hummus" 166 (JS.of_int 8)
             (JS.of_int 14) (JS.of_int 10) (Some "serving"%string)
             1700000001000 1700000001000], db') /\
    store db' = store People.db.
Proof.
  destruct (addCustomFood_round_trip 1700000001000 Example.alice
              People.hummus People.db)
    as (id & before & db' & Hbefore & Hadd & Hafter & _ & Hstore & _).
  - reflexivity.
  - reflexivity.
  - injection Hbefore as <-. exists id, db'. repeat split; assumption.
Defined.

Lemma custom_foods_stay_nonnegative_witness :
  Forall nonnegativeFood
    (customFoods
       (customFoodRouter.addCustomFood 1700000001000 Example.alice
          People.hummus People.db).2).
Proof.
  apply (custom_foods_stay_nonnegative 1700000001000 Example.alice
           People.hummus People.db).
  constructor.
Defined.

Lemma upsertUser_then_getUserByOpenId_witness :
  exists db' u,
    upsertUser People.owner 1700000000000 People.visitor People.db
      = (Upserted, db') /\
    getUserByOpenId "visitor-7" db' = Some u /\
    User.openId u = "visitor-7"%string /\
    User.name u = Some "Vi"%string /\
    User.id u = 1 /\
    User.email u = None.
Proof.
  destruct (upsertUser_then_getUserByOpenId People.owner 1700000000000
              People.visitor People.db)
    as (db' & u & Hup & Hget & Hid & Hname & _ & _ & _ & Hnew).
  - reflexivity.
  - discriminate.
  - exists db', u. split; [exact Hup|]. split; [exact Hget|].
    split; [exact Hid|]. split; [exact (Hname _ eq_refl)|].
    destruct Hnew as (Hnum & _ & _ & Hemail & _).
    split; [exact Hnum|exact (Hemail eq_refl)].
Defined.

Lemma upsertUser_role_witness :
  exists db' u,
    upsertUser People.owner 1700000000000 People.visitor People.db
      = (Upserted, db') /\
    getUserByOpenId "visitor-7" db' = Some u /\
    User.role u = Role.user.
Proof.
  destruct (upsertUser_role People.owner 1700000000000 People.visitor
              People.db) as (db' & u & Hup & Hget & Hrole).
  - reflexivity.
  - discriminate.
  - exists db', u. split; [exact Hup|]. split; [exact Hget|exact Hrole].
Defined.

Lemma people_wellKeyed : usersWellKeyed People.db.
Proof. constructor; simpl; constructor. Qed.

Lemma users_keep_keys_witness :
  usersWellKeyed
    (upsertUser People.owner 1700000000000 People.visitor People.db).2 /\
  usersWellKeyed
    (authenticateRequest People.owner 1700000000000 1700000000500
       (Some People.session) People.info People.db).2.
Proof.
  apply (users_keep_keys People.owner 1700000000000 1700000000500
           People.visitor (Some People.session) People.info People.db).
  apply people_wellKeyed.
Defined.

Lemma unavailable_database_authenticates_nobody_witness :
  upsertUser People.owner 1700000000000 People.visitor People.offline
    = (Upserted, People.offline) /\
  getUserByOpenId "visitor-7" People.offline = None /\
  createContext People.owner 1700000000000 1700000000500
    (Some People.session) People.info People.offline
    = (None, People.offline) /\
  protectedRequest People.owner 1700000000000 1700000000500
    (Some People.session) People.info
    (fun userId => foodRouter.getGoals userId) People.offline
    = (UNAUTHORIZED, People.offline).
Proof.
  destruct (unavailable_database_authenticates_nobody People.owner
              1700000000000 1700000000500 People.visitor "visitor-7"
              (Some People.session) People.info
              (fun userId => foodRouter.getGoals userId) People.offline)
    as (Hup & Hget & _ & Hctx & Hreq).
  - reflexivity.
  - repeat split; assumption.
Defined.

Lemma known_user_is_authenticated_witness :
  exists db',
    authenticateRequest People.owner 1700000001000 1700000001500
      (Some People.session) UserInfoThrows People.member
      = (Authenticated People.vi, db') /\
    getUserByOpenId "visitor-7" db'
      = Some (signedIn People.owner 1700000001000 1700000001500 People.vi) /\
    protectedRequest People.owner 1700000001000 1700000001500
      (Some People.session) UserInfoThrows
      (fun userId => foodRouter.getGoals userId) People.member
      = (Resolved
           (Ok (GoalsObject 2000 (JS.of_int 150) (JS.of_int 250)
                  (JS.of_int 65))),
         db').
Proof.
  destruct (known_user_is_authenticated People.owner 1700000001000
              1700000001500 People.session UserInfoThrows
              (fun userId => foodRouter.getGoals userId) People.member
              People.vi)
    as (db' & Hauth & Hstore & _ & Hget & Hreq).
  - reflexivity.
  - discriminate.
  - reflexivity.
  - exists db'. split; [exact Hauth|]. split; [exact Hget|].
    rewrite Hreq. f_equal. destruct db'. simpl in Hstore. by subst.
Defined.

Lemma unknown_user_is_synced_witness :
  exists u db',
    authenticateRequest People.owner 1700000000000 1700000000500
      (Some People.session) People.info People.db = (Authenticated u, db') /\
    User.openId u = "visitor-7"%string /\
    User.name u = Some "Vi"%string /\
    User.loginMethod u = Some "google"%string /\
    User.lastSignedIn u = 1700000000500 /\
    User.id u = 1 /\
    User.role u = Role.user.
Proof.
  destruct (unknown_user_is_synced People.owner 1700000000000 1700000000500
              People.session "visitor-7" (Some "Vi"%string) None
              (Some "google"%string) People.db)
    as (u & db' & Hauth & _ & Hid & Hname & _ & Hlogin & Hlast & Hnew).
  - reflexivity.
  - reflexivity.
  - discriminate.
  - destruct (Hnew eq_refl) as (Hnum & _ & Hrole).
    exists u, db'. repeat split; assumption.
Defined.

Lemma uploadImage_key_witness :
  Storage.normalizeKey (Storage.fileKey "1" "V1StGXR8_Z5jdHi6B-myT")
    = Storage.fileKey "1" "V1StGXR8_Z5jdHi6B-myT" /\
  Storage.fileName
    (Storage.normalizeKey (Storage.fileKey "1" "V1StGXR8_Z5jdHi6B-myT"))
    = "V1StGXR8_Z5jdHi6B-myT.jpg"%string.
Proof.
  apply (uploadImage_key "1" "V1StGXR8_Z5jdHi6B-myT"). reflexivity.
Defined.

Lemma history_date_box_day_witness :
  HistoryTab.dateString (HistoryTab.handleDateInput 19676) = 19676 /\
  exists entries,
    foodRouter.getFoodsByDate Example.tz Example.alice
      (HistoryTab.handleDateInput 19676) Example.logged
      = (Ok entries, Example.logged) /\
    forall e,
      e ∈ entries <->
      e ∈ foodEntries Example.logged /\ FoodEntry.userId e = Example.alice /\
      localDay Example.tz (FoodEntry.date e) = 19676.
Proof.
  apply (history_date_box_day Example.tz Example.alice 19676 Example.logged).
  - reflexivity.
  - unfold MS_PER_DAY, Example.tz. lia.
Defined.

Lemma dashboard_shows_saved_goals_witness :
  exists s' goals,
    foodRouter.updateGoals 1700000003000 Example.alice Sample.goals
      Example.logged = (Ok tt, s') /\
    foodRouter.getGoals Example.alice s' = (Ok goals, s') /\
    Dashboard.dailyCalorieGoal (Some goals) = 2200 /\
    Dashboard.dailyProteinGoal (Some goals) = JS.of_int 150 /\
    Dashboard.dailyCarbsGoal (Some goals) = JS.of_int 300 /\
    Dashboard.dailyFatsGoal (Some goals) = JS.of_int 70.
Proof.
  destruct (dashboard_shows_saved_goals 1700000003000 Example.alice
              Sample.goals (JS.of_int 2200) (JS.of_int 0) (JS.of_int 300)
              (JS.of_int 70) Example.logged)
    as (s' & goals & Hup & Hget & Hcal & Hp & Hcb & Hf);
    try reflexivity.
  exists s', goals. split; [exact Hup|]. split; [exact Hget|].
  split; [exact Hcal|].
  rewrite decide_True in Hp by (by apply Qc_is_canon).
  rewrite decide_False in Hcb
    by (intros H; apply (f_equal this) in H; vm_compute in H; discriminate).
  rewrite decide_False in Hf
    by (intros H; apply (f_equal this) in H; vm_compute in H; discriminate).
  split; [exact Hp|]. split; [exact Hcb|exact Hf].
Defined.

Lemma handleSaveGoals_accepted_witness :
  UpdateGoalsInput.issues
    (GoalsSettingsModal.handleSaveGoals
       (GoalsSettingsModal.mkSliders (JS.of_int 2250) (JS.num 275 2)
          (JS.of_int 260) (JS.of_int 70))) = [].
Proof.
  apply (handleSaveGoals_accepted
           (GoalsSettingsModal.mkSliders (JS.of_int 2250) (JS.num 275 2)
              (JS.of_int 260) (JS.of_int 70)));
    split; vm_compute; discriminate.
Defined.

Lemma applied_BMI_goals_validation_witness :
  exists r,
    BMICalculator.calculateBMI (Some (JS.of_int 175)) (Some (JS.of_int 75))
      (Some 28) male "moderate" "maintain" = Some r /\
    UpdateGoalsInput.issues (GoalsSettingsModal.handleApplyBMIGoals r) = [].
Proof.
  destruct (BMICalculator.calculateBMI (Some (JS.of_int 175))
              (Some (JS.of_int 75)) (Some 28) male "moderate" "maintain")
    as [r|] eqn:Hr.
  - exists r. split; [reflexivity|].
    apply (proj1 (applied_BMI_goals_validation (Some (JS.of_int 175))
                    (Some (JS.of_int 75)) (Some 28) male "moderate"
                    "maintain" r Hr)).
    vm_compute in Hr. injection Hr as <-. vm_compute. split; discriminate.
  - vm_compute in Hr. discriminate.
Defined.

Lemma estimate_fills_form_witness :
  exists data,
    foodRouter.calculateMacros "apple" InvokeThrows Example.logged
      = (Ok data, Example.logged) /\
    AddFoodModal.onSuccess (fun _ => "n"%string) data
      (AddFoodModal.mkForm "95" "0.5" "" "" true)
    = AddFoodModal.mkForm "95" "0.5" "" "" false.
Proof.
  destruct (estimate_fills_form (fun _ => "n"%string) "apple" InvokeThrows
              (AddFoodModal.mkForm "95" "0.5" "" "" true) Example.logged)
    as (data & Hrun & _ & Hform).
  - simpl. lia.
  - exists data. split; [exact Hrun|exact Hform].
Defined.

Lemma handleSave_validation_witness :
  exists data,
    EditFoodModal.handleSave "toast" (Some (JS.num 3004 10))
      (Some (JS.of_int 9)) (Some (JS.of_int 45)) (Some (JS.of_int 6))
      (Some (JS.of_int 1)) "slice" morning = Some data /\
    PartialFoodEntry.calories (UpdateFoodData.output data) = Some 300 /\
    UpdateFoodData.issues data = [].
Proof.
  destruct (handleSave_validation "toast" (JS.num 3004 10) (JS.of_int 9)
              (JS.of_int 45) (JS.of_int 6) (JS.of_int 1) "slice" morning)
    as (data & Hsave & Hcal & Hok).
  - discriminate.
  - exists data. split; [exact Hsave|]. split; [exact Hcal|].
    apply Hok. repeat split; vm_compute; discriminate.
Defined.

Lemma validated_paths_keep_nonnegative_witness :
  Forall nonnegative
    (foodEntries
       (foodRouter.addFood Example.tz 1700000002000 Example.alice Sample.jam
          Example.logged).2) /\
  Forall nonnegative
    (foodEntries
       (foodRouter.updateFood 1700000002000 Example.alice 1 Example.richer
          Example.logged).2).
Proof.
  destruct (validated_paths_keep_nonnegative Example.tz Example.logged
              1700000002000 Example.alice) as [Hadd Hupdate].
  - reflexivity.
  - repeat constructor; vm_compute; discriminate.
  - split; [exact (Hadd Sample.jam)|exact (Hupdate 1 Example.richer)].
Defined.
